(** * Net-practice: live connectivity and service discovery

    A shallow embedding of [network_diagnostics.c]: the timing and checksum
    utilities, the TCP probe, the ICMP probe and the service-discovery
    scanner.  C integers are mathematical integers with their wrap-around
    written out; system calls are answered by an environment record and
    leave their mark in a world made of the table of open descriptors and a
    chronological log.  The target is the Linux LP64 ABI ([int] 32 bits,
    [long] 64 bits, [struct timeval] two longs); the host byte order is a
    parameter wherever the code reads or writes memory through a wider
    pointer. *)

From Stdlib Require Import ZArith List Bool Lia Permutation.
From Stdlib Require Import Strings.String Strings.Byte.
From Stdlib Require Import Floats.SpecFloat.
Import ListNotations.

Local Open Scope Z_scope.
Local Open Scope bool_scope.

(* ================================================================== *)
(** ** C integer types *)

Module CInt.

Definition INT_MAX : Z := 2147483647.
Definition LONG_MIN : Z := - 9223372036854775808.
Definition LONG_MAX : Z := 9223372036854775807.
Definition LLONG_MAX : Z := 9223372036854775807.

(** Unsigned w-bit wrap-around. *)
Definition wrap_u16 (z : Z) : Z := z mod 65536.
Definition wrap_u32 (z : Z) : Z := z mod 4294967296.
Definition wrap_u64 (z : Z) : Z := z mod 18446744073709551616.

(** Two's-complement wrap-around of an [int]. *)
Definition wrap_int (z : Z) : Z := (z + 2147483648) mod 4294967296 - 2147483648.

(** Two's-complement wrap-around of a [long]. *)
Definition wrap_long (z : Z) : Z :=
  (z + 9223372036854775808) mod 18446744073709551616 - 9223372036854775808.

Definition in_long (z : Z) : Prop := LONG_MIN <= z <= LONG_MAX.

End CInt.
Import CInt.

(* ================================================================== *)
(** ** Timing utility *)

(** [struct timeval]. *)
Record timeval := mk_timeval { tv_sec : Z; tv_usec : Z }.

(** [calculate_elapsed_ms]: every [long] operation wraps; [/] truncates
    toward zero. *)
Definition calculate_elapsed_ms (start end_ : timeval) : Z :=
  let seconds := wrap_long (wrap_long (tv_sec end_ - tv_sec start) * 1000) in
  let microseconds := wrap_long (Z.quot (wrap_long (tv_usec end_ - tv_usec start)) 1000) in
  wrap_long (seconds + microseconds).

(** The formula of the function's header comment, over the integers:
    (end.tv_sec - start.tv_sec) x 1000 + (end.tv_usec - start.tv_usec) / 1000. *)
Definition elapsed_formula (start end_ : timeval) : Z :=
  (tv_sec end_ - tv_sec start) * 1000 + Z.quot (tv_usec end_ - tv_usec start) 1000.

(** The microsecond field as [gettimeofday] fills it in. *)
Definition valid_usec (t : timeval) : Prop := 0 <= tv_usec t <= 999999.

(** [end_] is not earlier than [start]. *)
Definition not_earlier (start end_ : timeval) : Prop :=
  tv_sec start < tv_sec end_
  \/ (tv_sec start = tv_sec end_ /\ tv_usec start <= tv_usec end_).

(* ================================================================== *)
(** ** Memory: bytes and 16-bit words *)

Definition u8 (b : byte) : Z := Z.of_N (Byte.to_N b).

Definition byte_of_Z (z : Z) : byte :=
  match Byte.of_N (Z.to_N (z mod 256)) with
  | Some b => b
  | None => x00
  end.

(** [a[i] = v]; a store outside the array is not modelled (the list is
    left as it is). *)
Fixpoint array_set {A : Type} (a : list A) (i : nat) (v : A) : list A :=
  match a, i with
  | [], _ => []
  | _ :: tl, O => v :: tl
  | hd :: tl, S i' => hd :: array_set tl i' v
  end.

Section ByteOrder.

(** Host byte order: [true] on a big-endian machine. *)
Variable big_endian : bool.

(** [*(unsigned short * )p] where [p] points at bytes [b0], [b1]. *)
Definition load_u16 (b0 b1 : byte) : Z :=
  if big_endian then 256 * u8 b0 + u8 b1 else u8 b0 + 256 * u8 b1.

(** [((uint16_t * )buf)[k] = v]. *)
Definition store_u16 (buf : list byte) (k : nat) (v : Z) : list byte :=
  let v := wrap_u16 v in
  let first := if big_endian then v / 256 else v mod 256 in
  let second := if big_endian then v mod 256 else v / 256 in
  array_set (array_set buf (2 * k) (byte_of_Z first)) (2 * k + 1) (byte_of_Z second).

(* ---------------------------------------------------------------- *)
(** ** Checksum utility *)

(** [while (len > 1) { sum += *ptr++; len -= 2; }] on an [unsigned int]
    accumulator; returns the pointer, the length and the sum at the exit
    of the loop.  Reading past the end of the buffer is not modelled: the
    loop stops there. *)
Fixpoint sum_words (ptr : list byte) (len sum : Z) {struct ptr}
  : list byte * Z * Z :=
  if 1 <? len then
    match ptr with
    | b0 :: b1 :: ptr' =>
        sum_words ptr' (len - 2) (wrap_u32 (sum + load_u16 b0 b1))
    | _ => (ptr, len, sum)
    end
  else (ptr, len, sum).

(** [while (sum >> 16) sum = (sum & 0xFFFF) + (sum >> 16);] with a bound
    on the number of iterations. *)
Fixpoint fold_carry (fuel : nat) (sum : Z) : Z :=
  match fuel with
  | O => sum
  | S fuel' =>
      if Z.shiftr sum 16 =? 0 then sum
      else fold_carry fuel' (wrap_u32 (Z.land sum 65535 + Z.shiftr sum 16))
  end.

(** What the summation adds up over a whole buffer, without the
    wrap-around of the accumulator: the 16-bit words, then the odd byte. *)
Fixpoint word_total (buf : list byte) : Z :=
  match buf with
  | b0 :: b1 :: rest => load_u16 b0 b1 + word_total rest
  | [b] => u8 b
  | [] => 0
  end.

(** An [unsigned int] holds 32 bits, so 32 iterations are more than the
    loop can make (see [fold_carry_exits]). *)
Definition fold_fuel : nat := 32.

Definition calculate_icmp_checksum (data : list byte) (len : Z) : Z :=
  let '(ptr, len, sum) := sum_words data len 0 in
  let sum :=
    if len =? 1 then
      match ptr with
      | b :: _ => wrap_u32 (sum + u8 b)
      | [] => sum
      end
    else sum in
  let sum := fold_carry fold_fuel sum in
  wrap_u16 (wrap_u32 (Z.lnot sum)).

End ByteOrder.

(* ================================================================== *)
(** ** The world of a probe: descriptors, log, control flow *)

(** [CommonPort]. *)
Record CommonPort := mk_port { name : string; port : Z }.

(** What an operation prints, by kind of line. *)
Inductive line :=
| TcpInvalidPort (p : Z)
| TcpSocketFailed
| TcpInvalidAddress
| TcpConnectFailed (errno : Z)
| TcpTimeout
| TcpRefused (error : Z)
| TcpOpen (p rtt_ms : Z)
| PingSocketFailed
| PingInvalidAddress
| PingPacket (seq icmp_id checksum : Z)
| PingSendFailed
| PingReply (rtt_ms : Z)
| PingNoReply
| PingSent (n : Z)
| PingReceived (n : Z)
| PingLoss (loss : spec_float)
| PingRtt (min max avg : Z)
| PingReachable
| PingUnreachable
| ScanInvalidAddress
| ScanSocketFailed (p : Z)
| ScanConnectError (entry : CommonPort)
| ScanOpen (entry : CommonPort)
| ScanClosedFiltered (entry : CommonPort)
| ScanSummary (total open closed : Z).

(** System calls with their arguments of interest and their answers. *)
Inductive event :=
| EvGettimeofday (t : timeval)
| EvSocket (ret : Z)
| EvFcntl (fd : Z)
| EvConnect (fd p ret : Z)
| EvSelect (nfds ret : Z)
| EvGetsockopt (fd error : Z)
| EvSetsockopt (fd timeout_sec : Z)
| EvSendto (fd : Z) (packet : list byte) (ret : Z)
| EvRecvfrom (fd ret : Z)
| EvClose (fd : Z)
| EvPrint (l : line).

(** The descriptors the process holds open, and everything that happened
    so far, oldest first. *)
Record world := mk_world { w_open : list Z; w_log : list event }.

Definition initial_world : world := mk_world [] [].

(** A statement either falls through with a value, or leaves the C
    function with [return r], or has no defined behaviour (a division by
    zero). *)
Inductive flow (R A : Type) :=
| Next (a : A)
| Return (r : R)
| Undefined.
Arguments Next {R A} a.
Arguments Return {R A} r.
Arguments Undefined {R A}.

Definition cmd (R A : Type) : Type := world -> flow R A * world.

Definition ret {R A : Type} (a : A) : cmd R A := fun w => (Next a, w).

Definition c_return {R A : Type} (r : R) : cmd R A := fun w => (Return r, w).

Definition undefined {R A : Type} : cmd R A := fun w => (Undefined, w).

Definition bind {R A B : Type} (c : cmd R A) (k : A -> cmd R B) : cmd R B :=
  fun w =>
    match c w with
    | (Next a, w') => k a w'
    | (Return r, w') => (Return r, w')
    | (Undefined, w') => (Undefined, w')
    end.

Declare Scope cmd_scope.
Delimit Scope cmd_scope with cmd.
Notation "x <- c ;; k" := (bind c (fun x => k))
  (at level 61, c at next level, right associativity) : cmd_scope.
Notation "c ;; k" := (bind c (fun _ => k))
  (at level 61, right associativity) : cmd_scope.
Local Open Scope cmd_scope.

Definition emit {R : Type} (e : event) : cmd R unit :=
  fun w => (Next tt, mk_world (w_open w) (w_log w ++ [e])).

Definition print {R : Type} (l : line) : cmd R unit := emit (EvPrint l).

(** Removes one occurrence of [fd] from the descriptor table. *)
Fixpoint release (fd : Z) (table : list Z) : list Z :=
  match table with
  | [] => []
  | x :: rest => if x =? fd then rest else x :: release fd rest
  end.

(** [socket()]: the kernel answers [answer]; a non-negative answer is a new
    open descriptor. *)
Definition sys_socket {R : Type} (answer : Z) : cmd R Z :=
  fun w =>
    (Next answer,
     mk_world (if answer <? 0 then w_open w else answer :: w_open w)
              (w_log w ++ [EvSocket answer])).

(** [close(fd)]. *)
Definition sys_close {R : Type} (fd : Z) : cmd R unit :=
  fun w => (Next tt, mk_world (release fd (w_open w)) (w_log w ++ [EvClose fd])).

Definition sys_gettimeofday {R : Type} (answer : timeval) : cmd R timeval :=
  emit (EvGettimeofday answer) ;; ret answer.

(** A loop over [l] that threads the variables [s] the body updates. *)
Fixpoint for_each {R A S : Type} (l : list A) (body : A -> S -> cmd R S) (s : S)
  : cmd R S :=
  match l with
  | [] => ret s
  | x :: l' => s' <- body x s ;; for_each l' body s'
  end.

(** Runs a C function from a given world: its result is the value of the
    [return] statement it leaves by. *)
Definition run {R : Type} (c : cmd R R) (w : world) : option R * world :=
  match c w with
  | (Next r, w') => (Some r, w')
  | (Return r, w') => (Some r, w')
  | (Undefined, w') => (None, w')
  end.

Definition EINPROGRESS : Z := 115.

(* ================================================================== *)
(** ** TCP probe *)

(** What the system answers to the calls of one TCP probe. *)
Record tcp_env := mk_tcp_env {
  tcp_start_time : timeval;
  tcp_socket : Z;
  tcp_inet_pton : Z;
  tcp_connect : Z;
  tcp_errno : Z;
  tcp_select : Z;
  tcp_so_error : Z;
  tcp_end_time : timeval }.

Definition check_tcp_connectivity (env : tcp_env) (port timeout_sec : Z) : cmd Z Z :=
  start_time <- sys_gettimeofday (tcp_start_time env) ;;
  if (port <? 1) || (65535 <? port) then
    (print (TcpInvalidPort port) ;; c_return 0)
  else
    sock <- sys_socket (tcp_socket env) ;;
    if sock <? 0 then
      (print TcpSocketFailed ;; c_return 0)
    else
      emit (EvFcntl sock) ;;
      emit (EvFcntl sock) ;;
      if tcp_inet_pton env <=? 0 then
        (print TcpInvalidAddress ;; sys_close sock ;; c_return 0)
      else
        let connect_result := tcp_connect env in
        emit (EvConnect sock port connect_result) ;;
        if (connect_result <? 0) && negb (tcp_errno env =? EINPROGRESS) then
          (print (TcpConnectFailed (tcp_errno env)) ;; sys_close sock ;; c_return 0)
        else
          let select_result := tcp_select env in
          emit (EvSelect (sock + 1) select_result) ;;
          if select_result <=? 0 then
            (print TcpTimeout ;; sys_close sock ;; c_return 0)
          else
            let error := tcp_so_error env in
            emit (EvGetsockopt sock error) ;;
            if negb (error =? 0) then
              (print (TcpRefused error) ;; sys_close sock ;; c_return 0)
            else
              end_time <- sys_gettimeofday (tcp_end_time env) ;;
              let rtt_ms := calculate_elapsed_ms start_time end_time in
              print (TcpOpen port rtt_ms) ;;
              sys_close sock ;;
              c_return 1.

(** The connection was initiated: the port is in range, the socket exists,
    the address parses and [connect] did not fail at once. *)
Definition tcp_initiated (env : tcp_env) (port : Z) : Prop :=
  1 <= port <= 65535 /\ 0 <= tcp_socket env /\ 0 < tcp_inet_pton env
  /\ (0 <= tcp_connect env \/ tcp_errno env = EINPROGRESS).

(* ================================================================== *)
(** ** ICMP probe *)

(** Single-precision arithmetic ([float] is IEEE 754 binary32). *)
Definition float_of_int (z : Z) : spec_float := binary_normalize 24 128 z 0 false.

(** [x / d] for a float [x] and an int [d], which is converted to float
    first; the C standard leaves a zero divisor undefined. *)
Definition float_div_int {R : Type} (x : spec_float) (d : Z) : cmd R spec_float :=
  if d =? 0 then undefined else ret (SFdiv 24 128 x (float_of_int d)).

Definition float_mul (x y : spec_float) : spec_float := SFmul 24 128 x y.

(** [x / y] on longs; a zero divisor is undefined. *)
Definition long_div {R : Type} (x y : Z) : cmd R Z :=
  if y =? 0 then undefined else ret (wrap_long (Z.quot x y)).

Section PacketLayout.

Variable big_endian : bool.

(** The value [htons] returns. *)
Definition htons (v : Z) : Z :=
  let v := wrap_u16 v in
  if big_endian then v else (v mod 256) * 256 + v / 256.

(** The two bytes a [uint16_t] occupies in memory. *)
Definition u16_bytes (v : Z) : list byte :=
  let v := wrap_u16 v in
  if big_endian then [byte_of_Z (v / 256); byte_of_Z v]
  else [byte_of_Z v; byte_of_Z (v / 256)].

(** The eight bytes a [long] occupies in memory. *)
Definition long_bytes (v : Z) : list byte :=
  let little := map (fun k => byte_of_Z (v / 256 ^ Z.of_nat k)) (seq 0 8) in
  if big_endian then rev little else little.

(** [struct timeval] in memory: [tv_sec] then [tv_usec]. *)
Definition timeval_bytes (t : timeval) : list byte :=
  long_bytes (tv_sec t) ++ long_bytes (tv_usec t).

(** The 64 bytes of the local [icmp_packet] structure: type, code,
    checksum, id, seq, and 56 bytes of data that were cleared and then
    received the send time. *)
Definition icmp_packet_bytes (type code checksum id seq : Z) (send_time : timeval)
  : list byte :=
  [byte_of_Z type; byte_of_Z code]
    ++ u16_bytes checksum ++ u16_bytes id ++ u16_bytes seq
    ++ timeval_bytes send_time ++ repeat x00 40.

(** The request of attempt [i] as it is handed to [sendto], and its
    checksum. *)
Definition echo_request (icmp_id i : Z) (send_time : timeval) : list byte * Z :=
  let send_buffer :=
    icmp_packet_bytes 8 0 0 (htons icmp_id) (htons (wrap_u16 i)) send_time in
  let checksum := calculate_icmp_checksum big_endian send_buffer 64 in
  (store_u16 big_endian send_buffer 1 checksum, checksum).

(** What the system answers during one attempt. *)
Record attempt_env := mk_attempt_env {
  at_send_time : timeval;
  at_sendto : Z;
  at_recvfrom : Z;
  at_recv_buffer : list byte;
  at_recv_time : timeval }.

(** What the system answers during one run of the ICMP probe. *)
Record icmp_env := mk_icmp_env {
  icmp_socket : Z;
  icmp_inet_pton : Z;
  icmp_getpid : Z;
  icmp_attempt : Z -> attempt_env }.

(** The statistics the loop maintains. *)
Record ping_vars := mk_ping_vars {
  success_count : Z;
  min_rtt : Z;
  max_rtt : Z;
  total_rtt : Z }.

(** The body of the [for] loop. *)
Definition ping_attempt (env : icmp_env) (sock icmp_id timeout_sec : Z)
    (i : Z) (v : ping_vars) : cmd Z ping_vars :=
  let a := icmp_attempt env i in
  send_time <- sys_gettimeofday (at_send_time a) ;;
  let '(send_buffer, checksum) := echo_request icmp_id i send_time in
  print (PingPacket i icmp_id checksum) ;;
  let bytes_sent := at_sendto a in
  emit (EvSendto sock send_buffer bytes_sent) ;;
  if bytes_sent <? 0 then
    (print PingSendFailed ;; ret v)
  else
    emit (EvSetsockopt sock timeout_sec) ;;
    let bytes_recv := at_recvfrom a in
    emit (EvRecvfrom sock bytes_recv) ;;
    if 0 <? bytes_recv then
      recv_time <- sys_gettimeofday (at_recv_time a) ;;
      let rtt_ms := calculate_elapsed_ms send_time recv_time in
      print (PingReply rtt_ms) ;;
      ret (mk_ping_vars
             (wrap_int (success_count v + 1))
             (if rtt_ms <? min_rtt v then rtt_ms else min_rtt v)
             (if max_rtt v <? rtt_ms then rtt_ms else max_rtt v)
             (wrap_long (total_rtt v + rtt_ms)))
    else
      (print PingNoReply ;; ret v).

(** The values [i] takes in [for (int i = 0; i < packet_count; i++)]. *)
Definition loop_indices (packet_count : Z) : list Z :=
  map Z.of_nat (seq 0 (Z.to_nat packet_count)).

Definition perform_icmp_ping (env : icmp_env) (packet_count timeout_sec : Z)
  : cmd Z Z :=
  sock <- sys_socket (icmp_socket env) ;;
  if sock <? 0 then
    (print PingSocketFailed ;; c_return 0)
  else if icmp_inet_pton env <=? 0 then
    (print PingInvalidAddress ;; sys_close sock ;; c_return 0)
  else
    let icmp_id := wrap_u16 (Z.land (icmp_getpid env) 65535) in
    v <- for_each (loop_indices packet_count)
           (ping_attempt env sock icmp_id timeout_sec)
           (mk_ping_vars 0 LLONG_MAX 0 0) ;;
    sys_close sock ;;
    print (PingSent packet_count) ;;
    print (PingReceived (success_count v)) ;;
    if 0 <? success_count v then
      quotient <- float_div_int
                    (float_of_int (wrap_int (packet_count - success_count v)))
                    packet_count ;;
      let loss := float_mul quotient (float_of_int 100) in
      avg_rtt <- long_div (total_rtt v) (success_count v) ;;
      print (PingLoss loss) ;;
      print (PingRtt (min_rtt v) (max_rtt v) avg_rtt) ;;
      print PingReachable ;;
      c_return 1
    else
      (print PingUnreachable ;; c_return 0).

End PacketLayout.

(* ================================================================== *)
(** ** Service discovery scanner *)

Definition COMMON_PORTS : list CommonPort :=
  [ mk_port "SSH" 22;
    mk_port "Telnet" 23;
    mk_port "SMTP" 25;
    mk_port "DNS" 53;
    mk_port "HTTP" 80;
    mk_port "POP3" 110;
    mk_port "IMAP" 143;
    mk_port "HTTPS" 443;
    mk_port "MySQL" 3306;
    mk_port "PostgreSQL" 5432;
    mk_port "Redis" 6379;
    mk_port "MongoDB" 27017;
    mk_port "RDP" 3389 ].

Definition NUM_COMMON_PORTS : nat := List.length COMMON_PORTS.

(** [COMMON_PORTS[i]] for [i] below [NUM_COMMON_PORTS]. *)
Definition common_port (i : nat) : CommonPort := nth i COMMON_PORTS (mk_port "" 0).

(** What the system answers about the connection attempt to one catalog
    entry: to [socket], to [connect] (with [errno]), and after the shared
    [select]: the pending error [getsockopt] reports and whether the
    descriptor is still in [write_set]. *)
Record port_env := mk_port_env {
  pe_socket : Z;
  pe_connect : Z;
  pe_errno : Z;
  pe_so_error : Z;
  pe_writable : bool }.

(** What the system answers during one scan; [scan_stack] is the
    indeterminate initial content of the local array [sockets]. *)
Record scan_env := mk_scan_env {
  scan_inet_pton : Z;
  scan_port : nat -> port_env;
  scan_select : Z;
  scan_stack : nat -> Z }.

(** The values [i] takes in [for (size_t i = 0; i < NUM_COMMON_PORTS; i++)]. *)
Definition catalog_indices : list nat := seq 0 NUM_COMMON_PORTS.

(** First loop: create the sockets and initiate the connections. *)
Definition scan_initiate (env : scan_env) (i : nat) (sockets : list Z)
  : cmd unit (list Z) :=
  let e := scan_port env i in
  fd <- sys_socket (pe_socket e) ;;
  let sockets := array_set sockets i fd in
  if nth i sockets 0 <? 0 then
    (print (ScanSocketFailed (port (common_port i))) ;;
     ret (array_set sockets i (-1)))
  else
    emit (EvFcntl (nth i sockets 0)) ;;
    emit (EvFcntl (nth i sockets 0)) ;;
    let result := pe_connect e in
    emit (EvConnect (nth i sockets 0) (port (common_port i)) result) ;;
    if (result <? 0) && negb (pe_errno e =? EINPROGRESS) then
      (print (ScanConnectError (common_port i)) ;;
       sys_close (nth i sockets 0) ;;
       ret (array_set sockets i (-1)))
    else ret sockets.

(** Second loop: [max_fd] over the pending sockets. *)
Definition scan_max_fd (sockets : list Z) : Z :=
  fold_left
    (fun max_fd i =>
       if 0 <=? nth i sockets 0 then
         (if max_fd <? nth i sockets 0 then nth i sockets 0 else max_fd)
       else max_fd)
    catalog_indices 0.

(** Third loop: classify and close. *)
Definition scan_classify (env : scan_env) (sockets : list Z) (i : nat)
    (open_count : Z) : cmd unit Z :=
  if nth i sockets 0 <? 0 then ret open_count
  else
    let e := scan_port env i in
    let error := pe_so_error e in
    emit (EvGetsockopt (nth i sockets 0) error) ;;
    open_count <-
      (if (error =? 0) && pe_writable e then
         (print (ScanOpen (common_port i)) ;; ret (wrap_int (open_count + 1)))
       else
         (print (ScanClosedFiltered (common_port i)) ;; ret open_count)) ;;
    sys_close (nth i sockets 0) ;;
    ret open_count.

Definition scan_services_in_range (env : scan_env) (timeout_sec : Z)
  : cmd unit unit :=
  if scan_inet_pton env <=? 0 then
    (print ScanInvalidAddress ;; c_return tt)
  else
    sockets <- for_each catalog_indices (scan_initiate env)
                 (map (scan_stack env) catalog_indices) ;;
    emit (EvSelect (scan_max_fd sockets + 1) (scan_select env)) ;;
    open_count <- for_each catalog_indices (scan_classify env sockets) 0 ;;
    print (ScanSummary (Z.of_nat NUM_COMMON_PORTS) open_count
             (wrap_u64 (Z.of_nat NUM_COMMON_PORTS - open_count))) ;;
    ret tt.

(** The connection to entry [i] was initiated: its socket was created and
    [connect] did not fail at once. *)
Definition probed (env : scan_env) (i : nat) : bool :=
  let e := scan_port env i in
  negb (pe_socket e <? 0)
  && negb ((pe_connect e <? 0) && negb (pe_errno e =? EINPROGRESS)).

(** [sockets[i]] when the first loop is over. *)
Definition pending_socket (env : scan_env) (i : nat) : Z :=
  if probed env i then pe_socket (scan_port env i) else -1.

(** The verdict on a probed entry. *)
Definition is_open (env : scan_env) (i : nat) : bool :=
  (pe_so_error (scan_port env i) =? 0) && pe_writable (scan_port env i).

(** What the first loop adds to the log for entry [i]. *)
Definition initiate_events (env : scan_env) (i : nat) : list event :=
  let e := scan_port env i in
  EvSocket (pe_socket e)
  :: (if pe_socket e <? 0 then
        [EvPrint (ScanSocketFailed (port (common_port i)))]
      else
        [ EvFcntl (pe_socket e); EvFcntl (pe_socket e);
          EvConnect (pe_socket e) (port (common_port i)) (pe_connect e) ]
        ++ (if (pe_connect e <? 0) && negb (pe_errno e =? EINPROGRESS) then
              [EvPrint (ScanConnectError (common_port i)); EvClose (pe_socket e)]
            else [])).

(** What the third loop adds to the log for entry [i]. *)
Definition classify_events (env : scan_env) (i : nat) : list event :=
  if probed env i then
    [ EvGetsockopt (pe_socket (scan_port env i)) (pe_so_error (scan_port env i));
      EvPrint (if is_open env i then ScanOpen (common_port i)
               else ScanClosedFiltered (common_port i));
      EvClose (pe_socket (scan_port env i)) ]
  else [].

(** The sockets left pending by the first loop over the entries [l], oldest
    first. *)
Definition pending_sockets (env : scan_env) (l : list nat) : list Z :=
  map (fun i => pe_socket (scan_port env i)) (filter (probed env) l).

(* ================================================================== *)
(** ** Reading the log *)

(** The lines printed, oldest first. *)
Definition printed (log : list event) : list line :=
  flat_map (fun e => match e with EvPrint l => [l] | _ => [] end) log.

(** The latencies reported for the replies, oldest first. *)
Definition reported_latencies (log : list event) : list Z :=
  flat_map (fun l => match l with PingReply rtt => [rtt] | _ => [] end) (printed log).

(** The numbers after "Packets Sent:" and "Packets Received:", and the
    loss percentages printed. *)
Definition reported_sent (log : list event) : list Z :=
  flat_map (fun l => match l with PingSent n => [n] | _ => [] end) (printed log).

Definition reported_received (log : list event) : list Z :=
  flat_map (fun l => match l with PingReceived n => [n] | _ => [] end) (printed log).

Definition reported_loss (log : list event) : list spec_float :=
  flat_map (fun l => match l with PingLoss f => [f] | _ => [] end) (printed log).

(** The catalog entries classified OPEN or CLOSED/FILTERED, oldest first. *)
Definition classified (log : list event) : list CommonPort :=
  flat_map (fun l => match l with
                     | ScanOpen entry | ScanClosedFiltered entry => [entry]
                     | _ => []
                     end) (printed log).

(** The port numbers of all the per-entry lines of a scan, whatever their
    kind. *)
Definition reported_ports (log : list event) : list Z :=
  flat_map (fun l => match l with
                     | ScanSocketFailed p => [p]
                     | ScanConnectError entry
                     | ScanOpen entry
                     | ScanClosedFiltered entry => [port entry]
                     | _ => []
                     end) (printed log).

(** The log and the descriptor table a C function leaves behind when it is
    called with no descriptor open. *)
Definition final_world {R : Type} (c : cmd R R) : world := snd (run c initial_world).

Definition result {R : Type} (c : cmd R R) : option R := fst (run c initial_world).

(* ================================================================== *)
(** ** The attempts of a run, as the code decides them *)

(** The attempt was sent and [recvfrom] delivered something. *)
Definition answered (env : icmp_env) (i : Z) : bool :=
  negb (at_sendto (icmp_attempt env i) <? 0) && (0 <? at_recvfrom (icmp_attempt env i)).

(** The latency the code reports for an answered attempt. *)
Definition attempt_latency (env : icmp_env) (i : Z) : Z :=
  calculate_elapsed_ms (at_send_time (icmp_attempt env i))
                       (at_recv_time (icmp_attempt env i)).

(** What one attempt does to the loop variables. *)
Definition attempt_vars (env : icmp_env) (v : ping_vars) (i : Z) : ping_vars :=
  if answered env i then
    mk_ping_vars
      (wrap_int (success_count v + 1))
      (if attempt_latency env i <? min_rtt v then attempt_latency env i else min_rtt v)
      (if max_rtt v <? attempt_latency env i then attempt_latency env i else max_rtt v)
      (wrap_long (total_rtt v + attempt_latency env i))
  else v.

(** What one attempt adds to the log. *)
Definition attempt_events (big_endian : bool) (env : icmp_env)
    (sock icmp_id timeout_sec i : Z) : list event :=
  let a := icmp_attempt env i in
  let request := echo_request big_endian icmp_id i (at_send_time a) in
  [ EvGettimeofday (at_send_time a);
    EvPrint (PingPacket i icmp_id (snd request));
    EvSendto sock (fst request) (at_sendto a) ]
  ++ (if at_sendto a <? 0 then [EvPrint PingSendFailed]
      else
        [ EvSetsockopt sock timeout_sec; EvRecvfrom sock (at_recvfrom a) ]
        ++ (if 0 <? at_recvfrom a then
              [ EvGettimeofday (at_recv_time a);
                EvPrint (PingReply (attempt_latency env i)) ]
            else [EvPrint PingNoReply])).

(** The loop variables after the last attempt. *)
Definition ping_vars_end (env : icmp_env) (packet_count : Z) : ping_vars :=
  fold_left (attempt_vars env) (loop_indices packet_count)
            (mk_ping_vars 0 LLONG_MAX 0 0).

(** How many attempts of a run were answered. *)
Definition answered_count (env : icmp_env) (packet_count : Z) : Z :=
  Z.of_nat (List.length (filter (answered env) (loop_indices packet_count))).

(** The same environment with other contents in the receive buffers. *)
Definition with_recv_buffers (env : icmp_env) (buffers : Z -> list byte) : icmp_env :=
  mk_icmp_env (icmp_socket env) (icmp_inet_pton env) (icmp_getpid env)
    (fun i =>
       let a := icmp_attempt env i in
       mk_attempt_env (at_send_time a) (at_sendto a) (at_recvfrom a)
                      (buffers i) (at_recv_time a)).

(** The loss percentage the code computes from the two counts. *)
Definition loss_percent (packet_count received : Z) : spec_float :=
  float_mul (SFdiv 24 128 (float_of_int (wrap_int (packet_count - received)))
                          (float_of_int packet_count))
            (float_of_int 100).

(* ================================================================== *)
(** ** The reply as the specification reads it

    The code never looks into [recv_buffer].  The definitions of this
    section follow the specification's words (section 4.2 and the wire
    layout of section 6), to be compared with what the code does. *)

Section SpecReply.

Variable big_endian : bool.

(** A raw IPv4 socket delivers the IPv4 header in front of the ICMP
    message; its length in 32-bit words is the low half of the first byte. *)
Definition icmp_message (datagram : list byte) : list byte :=
  match datagram with
  | [] => []
  | b :: _ => skipn (Z.to_nat (4 * Z.land (u8 b) 15)) datagram
  end.

(** A 16-bit field in network byte order. *)
Definition net_u16 (b0 b1 : byte) : Z := 256 * u8 b0 + u8 b1.

(** A [long] read from the eight bytes it occupies in memory. *)
Definition long_of_bytes (bs : list byte) : Z :=
  let little := if big_endian then rev bs else bs in
  wrap_long (fold_right (fun b acc => u8 b + 256 * acc) 0 little).

(** Identifier, sequence number and embedded send timestamp of a received
    datagram. *)
Definition spec_reply_id (datagram : list byte) : option Z :=
  match icmp_message datagram with
  | _ :: _ :: _ :: _ :: i0 :: i1 :: _ => Some (net_u16 i0 i1)
  | _ => None
  end.

Definition spec_reply_seq (datagram : list byte) : option Z :=
  match icmp_message datagram with
  | _ :: _ :: _ :: _ :: _ :: _ :: s0 :: s1 :: _ => Some (net_u16 s0 s1)
  | _ => None
  end.

Definition spec_reply_timestamp (datagram : list byte) : option timeval :=
  let payload := skipn 8 (icmp_message datagram) in
  if (List.length payload <? 16)%nat then None
  else Some (mk_timeval (long_of_bytes (firstn 8 payload))
                        (long_of_bytes (firstn 8 (skipn 8 payload)))).

(** "A reply is matched to its originating attempt by identifier+sequence
    number embedded in the packet." *)
Definition spec_reply_matches (env : icmp_env) (i : Z) : bool :=
  let datagram := at_recv_buffer (icmp_attempt env i) in
  match spec_reply_id datagram, spec_reply_seq datagram with
  | Some id, Some seq =>
      (id =? wrap_u16 (Z.land (icmp_getpid env) 65535)) && (seq =? wrap_u16 i)
  | _, _ => false
  end.

(** "latency = receive time - the timestamp embedded in the reply's
    payload." *)
Definition spec_latency (env : icmp_env) (i : Z) : option Z :=
  match spec_reply_timestamp (at_recv_buffer (icmp_attempt env i)) with
  | Some sent => Some (calculate_elapsed_ms sent (at_recv_time (icmp_attempt env i)))
  | None => None
  end.

(** The datagram a host answers to the request of attempt [i]: an IPv4
    header of 20 bytes, then the request with type 0 and its checksum
    recomputed. *)
Definition echo_reply_datagram (icmp_id i : Z) (send_time : timeval) : list byte :=
  let ip_header := byte_of_Z 69 :: repeat x00 19 in
  let message :=
    icmp_packet_bytes big_endian 0 0 0
      (htons big_endian icmp_id) (htons big_endian (wrap_u16 i)) send_time in
  ip_header
    ++ store_u16 big_endian message 1 (calculate_icmp_checksum big_endian message 64).

End SpecReply.

(* ================================================================== *)
(** ** Sample inputs *)

(** A host that never answers: every [sendto] succeeds, every [recvfrom]
    times out. *)
Definition silent_env : icmp_env :=
  mk_icmp_env 3 1 4660
    (fun i => mk_attempt_env (mk_timeval (1700000000 + 2 * i) 0) 64 (-1) []
                             (mk_timeval (1700000002 + 2 * i) 0)).

(** A slow host (little-endian prober, process 4660): the request of
    attempt 0 leaves at 100.0 s and nothing comes back within the 2 s
    timeout; the request of attempt 1 leaves at 102.0 s, and at 102.5 s the
    receive call delivers the reply to attempt 0. *)
Definition late_reply_env : icmp_env :=
  mk_icmp_env 3 1 4660
    (fun i =>
       if i =? 0 then
         mk_attempt_env (mk_timeval 100 0) 64 (-1) [] (mk_timeval 102 0)
       else
         mk_attempt_env (mk_timeval 102 0) 64 84
           (echo_reply_datagram false 4660 0 (mk_timeval 100 0))
           (mk_timeval 102 500000)).

(** A host with SSH and HTTP open and everything else refused; the
    descriptors are 3, 4, ... in catalog order. *)
Definition web_host_env : scan_env :=
  mk_scan_env 1
    (fun i => mk_port_env (3 + Z.of_nat i) (-1) EINPROGRESS
                          (if (i =? 0)%nat || (i =? 4)%nat then 0 else 111) true)
    13 (fun _ => 0).

(** No route to the target: every [connect] fails at once with ENETUNREACH
    (101); descriptor 3 is closed and handed out again each time. *)
Definition unreachable_network_env : scan_env :=
  mk_scan_env 1 (fun _ => mk_port_env 3 (-1) 101 0 false) 0 (fun _ => 0).

(** A listener on the local host: port 8080 answers within 3 ms. *)
Definition local_listener_env : tcp_env :=
  mk_tcp_env (mk_timeval 1700000000 999500) 3 1 (-1) EINPROGRESS 1 0
             (mk_timeval 1700000001 2500).

(** Nothing listens: the pending error is ECONNREFUSED (111). *)
Definition refused_env : tcp_env :=
  mk_tcp_env (mk_timeval 1700000000 0) 3 1 (-1) EINPROGRESS 1 111
             (mk_timeval 1700000000 100).

(** No answer before the deadline. *)
Definition filtered_env : tcp_env :=
  mk_tcp_env (mk_timeval 1700000000 0) 3 1 (-1) EINPROGRESS 0 0
             (mk_timeval 1700000003 0).

(** The request of attempt 1 of process 4660 on a little-endian host,
    before its checksum is stamped. *)
Definition sample_request : list byte :=
  icmp_packet_bytes false 8 0 0 (htons false 4660) (htons false 1)
    (mk_timeval 1700000000 250000).

(* ================================================================== *)
(** ** Elapsed time, exactly *)

(** The microseconds from [start] to [end_]. *)
Definition elapsed_us (start end_ : timeval) : Z :=
  (tv_sec end_ - tv_sec start) * 1000000 + (tv_usec end_ - tv_usec start).

(* ================================================================== *)
(** ** Buffers the checksum accumulator can hold *)

(** Up to 131070 bytes the 16-bit words of a buffer add up to less than
    2^32, so the [unsigned int] accumulator of [calculate_icmp_checksum]
    does not wrap. *)
Definition checksum_safe_length : Z := 131070.

(* ================================================================== *)
(** ** More sample inputs *)

(** The sample request with its checksum stamped in, as it goes on the
    wire. *)
Definition stamped_sample_request : list byte :=
  store_u16 false sample_request 1 (calculate_icmp_checksum false sample_request 64).

(* ================================================================== *)
(** ** More readers of the log of the ICMP probe *)

(** The packets handed to [sendto], oldest first. *)
Definition sent_requests (log : list event) : list (list byte) :=
  flat_map (fun e => match e with EvSendto _ packet _ => [packet] | _ => [] end) log.

(** What the calls of [recvfrom] returned, oldest first. *)
Definition receive_calls (log : list event) : list Z :=
  flat_map (fun e => match e with EvRecvfrom _ n => [n] | _ => [] end) log.

(** The timeouts set with [setsockopt], oldest first. *)
Definition receive_timeouts (log : list event) : list Z :=
  flat_map (fun e => match e with EvSetsockopt _ t => [t] | _ => [] end) log.

(** The minimum, maximum and average round-trip times printed. *)
Definition reported_rtt (log : list event) : list (Z * Z * Z) :=
  flat_map (fun l => match l with PingRtt mn mx avg => [(mn, mx, avg)] | _ => [] end)
           (printed log).

(** The attempt was handed to the network: [sendto] did not fail. *)
Definition request_sent (env : icmp_env) (i : Z) : bool :=
  negb (at_sendto (icmp_attempt env i) <? 0).

(** The latencies of the answered attempts of a run, oldest first. *)
Definition answered_latencies (env : icmp_env) (packet_count : Z) : list Z :=
  map (attempt_latency env) (filter (answered env) (loop_indices packet_count)).

(** The identifier of the requests of a run. *)
Definition request_id (env : icmp_env) : Z := wrap_u16 (Z.land (icmp_getpid env) 65535).

Definition sum_list (l : list Z) : Z := fold_right Z.add 0 l.

(* ================================================================== *)
(** ** More readers of the log of the scanner *)

(** The numbers of the summary: total, open, closed/filtered. *)
Definition reported_summary (log : list event) : list (Z * Z * Z) :=
  flat_map (fun l => match l with
                     | ScanSummary total open closed => [(total, open, closed)]
                     | _ => []
                     end) (printed log).

(** How many of the printed lines are of a given kind. *)
Definition count_lines (kind : line -> bool) (log : list event) : Z :=
  Z.of_nat (List.length (filter kind (printed log))).

Definition is_open_line (l : line) : bool :=
  match l with ScanOpen _ => true | _ => false end.

Definition is_closed_line (l : line) : bool :=
  match l with ScanClosedFiltered _ => true | _ => false end.

Definition is_error_line (l : line) : bool :=
  match l with ScanSocketFailed _ | ScanConnectError _ => true | _ => false end.

(** The calls of [select]: the [nfds] argument and the answer. *)
Definition select_calls (log : list event) : list (Z * Z) :=
  flat_map (fun e => match e with EvSelect nfds r => [(nfds, r)] | _ => [] end) log.

(** Events of the phase that creates the sockets and initiates the
    connections, and events of the phase that reads the results. *)
Definition is_initiation (e : event) : bool :=
  match e with
  | EvSocket _ | EvFcntl _ | EvConnect _ _ _ => true
  | _ => false
  end.

Definition is_inspection (e : event) : bool :=
  match e with EvGetsockopt _ _ => true | _ => false end.

(** ** More sample inputs of the scanner *)

(** The process has run out of descriptors: every [socket] fails. *)
Definition no_descriptor_env : scan_env :=
  mk_scan_env 1 (fun _ => mk_port_env (-1) 0 0 0 false) 0 (fun _ => 0).

(** ** More sample inputs of the TCP probe *)

(** No route to the host: [connect] fails at once with ENETUNREACH (101). *)
Definition no_route_env : tcp_env :=
  mk_tcp_env (mk_timeval 1700000000 0) 3 1 (-1) 101 1 0 (mk_timeval 1700000000 100).

(* ================================================================== *)
(** ** The program around the probes

    The diagnostics report and the command line run the probes one after
    the other in one process.  What the process does is a list of steps: the
    events of the probes, the calls of functions of other units with their
    arguments, and the lines the program prints on its own account.  Banners
    of fixed text are left out, as they are in the probes. *)

Inductive value :=
| Str (s : string)
| Int (z : Z).

Inductive step :=
| Probe (e : event)
| Call (function : string) (arguments : list value)
| Help
| Usage (program : string)
| Verdict (online : bool)
| Completed.

(** The two globals of the rendering unit, [use_colors] and
    [current_theme]. *)
Record theme_state := mk_theme_state { use_colors : bool; current_theme : Z }.

Record process := mk_process {
  p_theme : theme_state;
  p_open : list Z;
  p_out : list step }.

(** The process as it starts: [use_colors = 1], [current_theme = 0]. *)
Definition initial_process : process := mk_process (mk_theme_state true 0) [] [].

(** A statement of the program; [None] is behaviour the C standard leaves
    undefined, or a call that does not come back. *)
Definition prog (A : Type) : Type := process -> option (A * process).

Definition p_ret {A : Type} (a : A) : prog A := fun p => Some (a, p).

Definition p_undefined {A : Type} : prog A := fun _ => None.

Definition p_bind {A B : Type} (c : prog A) (k : A -> prog B) : prog B :=
  fun p =>
    match c p with
    | Some (a, p') => k a p'
    | None => None
    end.

Declare Scope prog_scope.
Delimit Scope prog_scope with prog.
Notation "x <- c ;; k" := (p_bind c (fun x => k))
  (at level 61, c at next level, right associativity) : prog_scope.
Notation "c ;; k" := (p_bind c (fun _ => k))
  (at level 61, right associativity) : prog_scope.

Definition out (s : step) : prog unit :=
  fun p => Some (tt, mk_process (p_theme p) (p_open p) (p_out p ++ [s])).

(** A call of a probe: it runs on the descriptor table of the process and
    its events go to the output of the process. *)
Definition call {R : Type} (c : cmd R R) : prog R :=
  fun p =>
    match run c (mk_world (p_open p) []) with
    | (Some r, w) =>
        Some (r, mk_process (p_theme p) (w_open w) (p_out p ++ map Probe (w_log w)))
    | (None, _) => None
    end.

(** [set_theme]. *)
Definition set_theme (theme : Z) : prog unit :=
  fun p =>
    Some (tt, mk_process (mk_theme_state (negb (theme =? -1)) theme)
                         (p_open p) (p_out p)).

(** [strstr(haystack, needle) != NULL]. *)
Definition strstr (haystack needle : string) : bool :=
  match index 0 needle haystack with
  | Some _ => true
  | None => false
  end.

(** [terminal_supports_colors], from the value of [TERM] if it is set. *)
Definition terminal_supports_colors (term : option string) : bool :=
  match term with
  | None => false
  | Some term =>
      strstr term "color" || strstr term "xterm" || strstr term "screen"
      || strstr term "tmux" || String.eqb term "linux"
  end.

Definition RESET : string := String (Ascii.ascii_of_nat 27) "[0m".

(** [print_colored]: what goes to the terminal for the formatted [text]. *)
Definition print_colored (theme : theme_state) (term : option string)
    (color text : string) : string :=
  if use_colors theme && terminal_supports_colors term
  then (color ++ text ++ RESET)%string
  else text.

(** A format that [printf] can be given with no argument after it: every
    [%] begins the conversion specification [%%].  Any other [%] reads an
    argument that was not passed or begins no conversion specification at
    all, and the behaviour is undefined. *)
Fixpoint format_safe (format : string) : bool :=
  match format with
  | EmptyString => true
  | String c rest =>
      if Ascii.eqb c (Ascii.ascii_of_nat 37) then
        match rest with
        | EmptyString => false
        | String c' rest' => Ascii.eqb c' (Ascii.ascii_of_nat 37) && format_safe rest'
        end
      else format_safe rest
  end.

(** [draw_header_box]: title and subtitle are each handed to
    [print_colored] as its format, with no argument after it. *)
Definition draw_header_box (title subtitle : string) : prog unit :=
  if format_safe title && format_safe subtitle
  then out (Call "draw_header_box" [Str title; Str subtitle])
  else p_undefined.

(** What the system answers to the program: whether [NO_COLOR] and what
    [TERM] are in the environment, the answers to the probes of a target,
    and whether a call of an analysis function that is not embedded here
    comes back. *)
Record system := mk_system {
  sys_no_color : bool;
  sys_term : option string;
  sys_big_endian : bool;
  sys_tcp : string -> tcp_env;
  sys_icmp : string -> icmp_env;
  sys_scan : string -> scan_env;
  sys_returns : string -> list value -> bool }.

(** A call of an analysis function of another unit whose body is not
    embedded here: nothing is known of it but whether it comes back. *)
Definition analysis (sys : system) (function : string) (arguments : list value)
  : prog unit :=
  if sys_returns sys function arguments
  then out (Call function arguments)
  else p_undefined.

Definition generate_diagnostics_report (sys : system) (ip : string) : prog unit :=
  (draw_header_box "🔧 NETWORK DIAGNOSTICS REPORT" ip ;;
   ping_result <- call (perform_icmp_ping (sys_big_endian sys) (sys_icmp sys ip) 3 5) ;;
   call (scan_services_in_range (sys_scan sys ip) 3) ;;
   if negb (ping_result =? 0) then out (Verdict true) else out (Verdict false))%prog.

(** [argv[k]]. *)
Definition arg (argv : list string) (k : nat) : string := nth k argv ""%string.

(** [for (int i = 1; i < argc; i++) argv[i] = argv[i + 2];] *)
Definition shift_theme_arguments (argc : Z) (argv : list string) : list string :=
  fold_left (fun argv i => array_set argv i (arg argv (i + 2)))
            (seq 1 (Z.to_nat argc - 1)) argv.

(** [argc == n && strcmp(argv[1], flag) == 0], and the same with
    [argc >= n]. *)
Definition mode_is (argc : Z) (argv : list string) (n : Z) (flag : string) : bool :=
  (argc =? n) && String.eqb (arg argv 1) flag.

Definition mode_from_is (argc : Z) (argv : list string) (n : Z) (flag : string) : bool :=
  (n <=? argc) && String.eqb (arg argv 1) flag.

Section CommandLine.

(** [atoi] of the C library. *)
Variable atoi : string -> Z.

Variable sys : system.

(** [main] from the test of the help mode on, with [argc] and [argv] as the
    theme selection left them.  The loading animation is called with fixed
    texts; [check_loopback_ip], [print_mask_info], [print_ip_range] and
    [print_ip_range_from_mask] print their argument through proper formats
    and come back for every string. *)
Definition dispatch (argc : Z) (argv : list string) : prog Z :=
  (if (argc =? 1) || mode_is argc argv 2 "--help" then
     out Help ;; p_ret 0
   else if (argc <? 2) || (4 <? argc) then
     match argv with
     | [] => p_undefined
     | program :: _ => out (Usage program) ;; p_ret 1
     end
   else if mode_is argc argv 3 "-l" then
     out (Call "check_loopback_ip" [Str (arg argv 2)]) ;; p_ret 0
   else if mode_is argc argv 3 "--cidr" then
     analysis sys "analyze_cidr_network" [Str (arg argv 2)] ;; p_ret 0
   else if mode_is argc argv 3 "--class" then
     analysis sys "classify_ip_address" [Str (arg argv 2)] ;; p_ret 0
   else if mode_is argc argv 4 "--check" then
     analysis sys "validate_ip_in_range" [Str (arg argv 2); Str (arg argv 3)] ;; p_ret 0
   else if mode_is argc argv 3 "--convert" then
     analysis sys "convert_ip_formats" [Str (arg argv 2)] ;; p_ret 0
   else if mode_is argc argv 3 "--scan" then
     out (Call "show_loading_animation" []) ;;
     draw_header_box "🌐 Network Range Scanner" (arg argv 2) ;;
     analysis sys "scan_network_range" [Str (arg argv 2)] ;; p_ret 0
   else if mode_is argc argv 4 "--split" then
     out (Call "show_loading_animation" []) ;;
     draw_header_box "🔀 VLSM Subnet Calculator" (arg argv 2) ;;
     let num_subnets := atoi (arg argv 3) in
     analysis sys "split_network" [Str (arg argv 2); Int num_subnets] ;; p_ret 0
   else if mode_is argc argv 3 "--ipv6" then
     analysis sys "analyze_ipv6_address" [Str (arg argv 2)] ;; p_ret 0
   else if mode_is argc argv 3 "--ipv6-convert" then
     analysis sys "convert_ipv6_formats" [Str (arg argv 2)] ;; p_ret 0
   else if mode_from_is argc argv 4 "--tcp" then
     let port := atoi (arg argv 3) in
     let timeout := if argc =? 5 then atoi (arg argv 4) else 5 in
     call (check_tcp_connectivity (sys_tcp sys (arg argv 2)) port timeout) ;; p_ret 0
   else if mode_from_is argc argv 3 "--ping" then
     let count := if 4 <=? argc then atoi (arg argv 3) else 4 in
     let timeout := if 5 <=? argc then atoi (arg argv 4) else 5 in
     call (perform_icmp_ping (sys_big_endian sys) (sys_icmp sys (arg argv 2))
             count timeout) ;;
     p_ret 0
   else if mode_from_is argc argv 3 "--discover" then
     let timeout := if argc =? 4 then atoi (arg argv 3) else 3 in
     call (scan_services_in_range (sys_scan sys (arg argv 2)) timeout) ;; p_ret 0
   else if mode_is argc argv 3 "--diagnose" then
     generate_diagnostics_report sys (arg argv 2) ;; p_ret 0
   else
     (if argc =? 2 then
        out (Call "print_mask_info" [Str (arg argv 1)]) ;;
        out (Call "print_ip_range_from_mask" [Str (arg argv 1)])
      else if argc =? 3 then
        out (Call "print_mask_info" [Str (arg argv 2)]) ;;
        out (Call "print_ip_range" [Str (arg argv 1); Str (arg argv 2)]) ;;
        out (Call "check_loopback_ip" [Str (arg argv 1)])
      else p_ret tt) ;;
     out Completed ;; p_ret 0)%prog.

(** The selection of colours and theme at the start of [main]: it leaves
    [argc] and [argv] without the two theme arguments. *)
Definition select_theme (argv : list string) : prog (Z * list string) :=
  let argc := Z.of_nat (List.length argv) in
  ((if sys_no_color sys then set_theme (-1) else p_ret tt) ;;
   if (3 <=? argc) && String.eqb (arg argv 1) "--theme" then
     let theme := atoi (arg argv 2) in
     set_theme theme ;;
     p_ret (argc - 2, shift_theme_arguments (argc - 2) argv)
   else p_ret (argc, argv))%prog.

Definition main (argv : list string) : prog Z :=
  (a <- select_theme argv ;; dispatch (fst a) (snd a))%prog.

End CommandLine.

(** The events of the probes among the steps of the process. *)
Definition probe_events (steps : list step) : list event :=
  flat_map (fun s => match s with Probe e => [e] | _ => [] end) steps.

(** The verdicts of the diagnostics report among the steps. *)
Definition verdicts (steps : list step) : list bool :=
  flat_map (fun s => match s with Verdict b => [b] | _ => [] end) steps.

(** [argc] as the theme selection leaves it. *)
Definition effective_argc (argv : list string) : Z :=
  let argc := Z.of_nat (List.length argv) in
  if (3 <=? argc) && String.eqb (arg argv 1) "--theme" then argc - 2 else argc.

(** The command line as the theme selection leaves it. *)
Definition effective_argv (argv : list string) : list string :=
  match argv with
  | program :: flag :: _ :: rest =>
      if String.eqb flag "--theme" then program :: rest else argv
  | _ => argv
  end.

(** The command lines that run one probe of the target. *)
Definition runs_probe (argv : list string) : bool :=
  match argv with
  | [_; flag; _] => String.eqb flag "--ping" || String.eqb flag "--discover"
  | [_; flag; _; _] =>
      String.eqb flag "--tcp" || String.eqb flag "--ping" || String.eqb flag "--discover"
  | _ => false
  end.

(** A reading of decimal numerals, for the sample command lines. *)
Fixpoint decimal_digits (s : string) (acc : Z) : Z :=
  match s with
  | EmptyString => acc
  | String c rest =>
      let d := Z.of_nat (Ascii.nat_of_ascii c) - 48 in
      if (0 <=? d) && (d <=? 9) then decimal_digits rest (10 * acc + d) else acc
  end.

Definition decimal (s : string) : Z :=
  match s with
  | String c rest =>
      if Ascii.eqb c (Ascii.ascii_of_nat 45) then - decimal_digits rest 0 else decimal_digits s 0
  | EmptyString => 0
  end.

(** A system where [NO_COLOR] is set, on a colour terminal, in front of the
    sample hosts. *)
Definition sample_system : system :=
  mk_system true (Some "xterm-256color"%string) false
    (fun _ => local_listener_env) (fun _ => late_reply_env) (fun _ => web_host_env)
    (fun _ _ => true).


(* ================================================================== *)
(** * Facts *)

(** Packets, conversions and the timing utility stay folded under [simpl]. *)
Arguments echo_request : simpl never.
Arguments calculate_elapsed_ms : simpl never.
Arguments byte_of_Z : simpl never.
Arguments long_bytes : simpl never.
Arguments long_of_bytes : simpl never.
Arguments net_u16 : simpl never.

Section CIntFacts.

Lemma wrap_long_id z : in_long z -> wrap_long z = z.
Proof.
  unfold in_long, LONG_MIN, LONG_MAX, wrap_long. intros H.
  rewrite Z.mod_small; lia.
Qed.

Lemma wrap_long_range z : in_long (wrap_long z).
Proof.
  unfold in_long, LONG_MIN, LONG_MAX, wrap_long.
  pose proof (Z.mod_pos_bound (z + 9223372036854775808) 18446744073709551616).
  lia.
Qed.

(** A wrapped operand may be replaced by the exact one under a final
    wrap (arithmetic modulo 2^64). *)
Lemma wrap_long_add_l a b : wrap_long (wrap_long a + b) = wrap_long (a + b).
Proof.
  unfold wrap_long.
  replace ((a + 9223372036854775808) mod 18446744073709551616
           - 9223372036854775808 + b + 9223372036854775808)
    with ((a + 9223372036854775808) mod 18446744073709551616 + b) by lia.
  rewrite Zplus_mod_idemp_l.
  f_equal. f_equal. lia.
Qed.

Lemma wrap_long_mul_l a b : wrap_long (wrap_long a * b) = wrap_long (a * b).
Proof.
  unfold wrap_long.
  set (m := 18446744073709551616). set (h := 9223372036854775808).
  f_equal.
  replace (((a + h) mod m - h) * b + h) with ((a + h) mod m * b + (h - h * b)) by lia.
  replace (a * b + h) with ((a + h) * b + (h - h * b)) by lia.
  rewrite <- Zplus_mod_idemp_l. rewrite Zmult_mod_idemp_l.
  rewrite Zplus_mod_idemp_l. reflexivity.
Qed.


End CIntFacts.

Section TimingFacts.

Variables start end_ : timeval.
Hypothesis Hs : valid_usec start.
Hypothesis He : valid_usec end_.

Lemma usec_quot_bounds :
    - 999 <= Z.quot (tv_usec end_ - tv_usec start) 1000 <= 999.
  Proof.
    unfold valid_usec in *.
    assert (Hd : -999999 <= tv_usec end_ - tv_usec start <= 999999) by lia.
    set (d := tv_usec end_ - tv_usec start) in *.
    destruct (Z_le_gt_dec 0 d) as [Hp | Hn].
    - rewrite Z.quot_div_nonneg by lia.
      split.
      + pose proof (Z.div_pos d 1000). lia.
      + apply Z.lt_succ_r. apply Z.div_lt_upper_bound; lia.
    - replace d with (- (- d)) by lia. rewrite Z.quot_opp_l by lia.
      rewrite Z.quot_div_nonneg by lia.
      split.
      + assert (- d / 1000 < 1000) by (apply Z.div_lt_upper_bound; lia). lia.
      + pose proof (Z.div_pos (- d) 1000). lia.
  Qed.

Lemma calculate_elapsed_ms_wraps_formula :
    calculate_elapsed_ms start end_ = wrap_long (elapsed_formula start end_).
  Proof.
    unfold calculate_elapsed_ms, elapsed_formula.
    pose proof usec_quot_bounds as Hq.
    unfold valid_usec in *.
    rewrite (wrap_long_id (tv_usec end_ - tv_usec start))
      by (unfold in_long, LONG_MIN, LONG_MAX; lia).
    rewrite (wrap_long_id (Z.quot _ 1000))
      by (unfold in_long, LONG_MIN, LONG_MAX; lia).
    rewrite wrap_long_mul_l. rewrite wrap_long_add_l. reflexivity.
  Qed.

Lemma elapsed_formula_nonneg :
    not_earlier start end_ -> 0 <= elapsed_formula start end_.
  Proof.
    intros Hord. pose proof usec_quot_bounds as Hq.
    unfold elapsed_formula. destruct Hord as [Hlt | [Heq Hle]].
    - lia.
    - rewrite Heq. rewrite Z.sub_diag. simpl.
      apply Z.quot_pos; lia.
  Qed.

End TimingFacts.

(* ================================================================== *)
(** ** The catalog *)

(** The catalog has 13 entries. *)
Lemma NUM_COMMON_PORTS_13 : NUM_COMMON_PORTS = 13%nat.
Proof. reflexivity. Qed.

(* ================================================================== *)
(** ** Release of descriptors *)

Lemma release_head fd table : release fd (fd :: table) = table.
Proof. simpl. rewrite Z.eqb_refl. reflexivity. Qed.

Lemma release_In fd table :
  In fd table -> Permutation table (fd :: release fd table).
Proof.
  induction table as [| x rest IH]; intros Hin.
  - destruct Hin.
  - simpl. destruct (Z.eqb_spec x fd) as [-> | Hne].
    + reflexivity.
    + destruct Hin as [Heq | Hin]; [congruence |].
      rewrite perm_swap. apply perm_skip. apply IH. exact Hin.
Qed.

(** Releasing a descriptor that is open removes exactly it, up to the
    order of the table. *)
Lemma release_Permutation fd table rest :
  Permutation table (fd :: rest) -> Permutation (release fd table) rest.
Proof.
  intros Hp.
  assert (Hin : In fd table).
  { apply Permutation_sym in Hp. eapply Permutation_in; [exact Hp | left; reflexivity]. }
  apply release_In in Hin.
  apply Permutation_cons_inv with (a := fd).
  rewrite <- Hin. exact Hp.
Qed.

(* ================================================================== *)
(** ** TCP probe *)

(** Unfolds a straight-line C function down to its tests. *)
Ltac step_cmd :=
  unfold result, final_world, run, bind, print, emit, sys_gettimeofday,
    sys_socket, sys_close, c_return, ret, undefined; simpl.

Ltac case_test :=
  match goal with
  | |- context [if ?b then _ else _] =>
      let E := fresh "E" in destruct b eqn:E; simpl
  end.

Section TcpFacts.

Variable env : tcp_env.
Variables port timeout_sec : Z.

Let probe := check_tcp_connectivity env port timeout_sec.

Lemma tcp_invalid_port :
  port < 1 \/ 65535 < port ->
  result probe = Some 0
  /\ w_log (final_world probe)
     = [EvGettimeofday (tcp_start_time env); EvPrint (TcpInvalidPort port)].
Proof.
  intros H. unfold probe, check_tcp_connectivity. step_cmd.
  replace ((port <? 1) || (65535 <? port)) with true by (symmetry; apply orb_true_iff; lia).
  simpl. auto.
Qed.

Lemma tcp_initiated_tests :
  tcp_initiated env port ->
  (port <? 1) || (65535 <? port) = false
  /\ (tcp_socket env <? 0) = false
  /\ (tcp_inet_pton env <=? 0) = false
  /\ (tcp_connect env <? 0) && negb (tcp_errno env =? EINPROGRESS) = false.
Proof.
  intros (Hp & Hs & Ha & Hc). repeat split.
  - apply orb_false_iff. lia.
  - lia.
  - lia.
  - apply andb_false_iff. destruct Hc as [Hc | Hc]; [left; lia |].
    right. rewrite Hc. reflexivity.
Qed.

Lemma tcp_timeout :
  tcp_initiated env port -> tcp_select env <= 0 ->
  result probe = Some 0 /\ printed (w_log (final_world probe)) = [TcpTimeout].
Proof.
  intros Hi Hsel. destruct (tcp_initiated_tests Hi) as (T1 & T2 & T3 & T4).
  unfold probe, check_tcp_connectivity. step_cmd.
  rewrite T1; simpl. rewrite T2; simpl. rewrite T3; simpl. rewrite T4; simpl.
  replace (tcp_select env <=? 0) with true by lia. simpl. auto.
Qed.

Lemma tcp_open :
  tcp_initiated env port -> 0 < tcp_select env -> tcp_so_error env = 0 ->
  result probe = Some 1
  /\ printed (w_log (final_world probe))
     = [TcpOpen port (calculate_elapsed_ms (tcp_start_time env) (tcp_end_time env))].
Proof.
  intros Hi Hsel Herr. destruct (tcp_initiated_tests Hi) as (T1 & T2 & T3 & T4).
  unfold probe, check_tcp_connectivity. step_cmd.
  rewrite T1; simpl. rewrite T2; simpl. rewrite T3; simpl. rewrite T4; simpl.
  replace (tcp_select env <=? 0) with false by lia. simpl.
  rewrite Herr. simpl. auto.
Qed.

Lemma tcp_refused :
  tcp_initiated env port -> 0 < tcp_select env -> tcp_so_error env <> 0 ->
  result probe = Some 0
  /\ printed (w_log (final_world probe)) = [TcpRefused (tcp_so_error env)].
Proof.
  intros Hi Hsel Herr. destruct (tcp_initiated_tests Hi) as (T1 & T2 & T3 & T4).
  unfold probe, check_tcp_connectivity. step_cmd.
  rewrite T1; simpl. rewrite T2; simpl. rewrite T3; simpl. rewrite T4; simpl.
  replace (tcp_select env <=? 0) with false by lia. simpl.
  replace (tcp_so_error env =? 0) with false by lia. simpl. auto.
Qed.

(** The probe prints exactly one verdict, and returns 1 exactly when the
    verdict is OPEN. *)
Lemma tcp_success_iff_open :
  (exists l, printed (w_log (final_world probe)) = [l])
  /\ (result probe = Some 1
      <-> exists rtt, printed (w_log (final_world probe)) = [TcpOpen port rtt]).
Proof.
  unfold probe, check_tcp_connectivity. step_cmd.
  repeat case_test;
    (split; [eexists; reflexivity
            | split; [intros H; try discriminate H; eexists; reflexivity
                     | intros [rtt H]; try discriminate H; reflexivity]]).
Qed.

(** Whatever the system answers, the probe leaves no descriptor open. *)
Lemma tcp_releases_socket (w : world) :
  w_open (snd (run probe w)) = w_open w.
Proof.
  unfold probe, check_tcp_connectivity. step_cmd.
  repeat case_test; try reflexivity;
    match goal with E : (?x =? ?x) = false |- _ => rewrite Z.eqb_refl in E; discriminate E end.
Qed.

End TcpFacts.

(* ================================================================== *)
(** ** Bytes *)

Lemma u8_range b : 0 <= u8 b <= 255.
Proof.
  unfold u8. pose proof (Byte.to_N_bounded b) as H. lia.
Qed.

Lemma u8_byte_of_Z z : u8 (byte_of_Z z) = z mod 256.
Proof.
  unfold u8, byte_of_Z.
  pose proof (Z.mod_pos_bound z 256 ltac:(lia)) as Hm.
  destruct (Byte.of_N (Z.to_N (z mod 256))) as [b |] eqn:E.
  - apply Byte.to_of_N in E. rewrite E. lia.
  - apply Byte.of_N_None_iff in E. lia.
Qed.

Lemma byte_of_Z_u8 b : byte_of_Z (u8 b) = b.
Proof.
  unfold byte_of_Z, u8. pose proof (Byte.to_N_bounded b) as H.
  rewrite Z.mod_small by lia. rewrite N2Z.id. rewrite Byte.of_to_N. reflexivity.
Qed.

Lemma u8_x00 : u8 x00 = 0.
Proof. reflexivity. Qed.

Lemma array_set_length {A : Type} (a : list A) i v :
  List.length (array_set a i v) = List.length a.
Proof.
  revert i. induction a as [| hd tl IH]; intros [| i]; simpl; auto.
Qed.

(* ================================================================== *)
(** ** Checksum utility *)

Section ChecksumFacts.

Variable big_endian : bool.

Lemma load_u16_range b0 b1 : 0 <= load_u16 big_endian b0 b1 <= 65535.
Proof.
  pose proof (u8_range b0). pose proof (u8_range b1).
  unfold load_u16. destruct big_endian; lia.
Qed.

Lemma word_total_nonneg buf : 0 <= word_total big_endian buf.
Proof.
  assert (H : forall n buf, (List.length buf <= n)%nat -> 0 <= word_total big_endian buf).
  { induction n as [| n IH]; intros [| b0 [| b1 rest]] Hlen;
      cbn [word_total List.length] in *; try lia.
    - pose proof (u8_range b0). lia.
    - pose proof (load_u16_range b0 b1).
      assert (0 <= word_total big_endian rest) by (apply IH; lia).
      lia. }
  apply (H (List.length buf)). lia.
Qed.

(** The two summation steps of the code add up [word_total] modulo 2^32. *)
Lemma sum_phase buf :
  forall sum,
    (let '(ptr, len, sum') :=
       sum_words big_endian buf (Z.of_nat (List.length buf)) sum in
     if len =? 1 then
       match ptr with
       | b :: _ => wrap_u32 (sum' + u8 b)
       | [] => sum'
       end
     else sum')
    = if (List.length buf =? 0)%nat then sum
      else wrap_u32 (sum + word_total big_endian buf).
Proof.
  assert (H : forall n buf, (List.length buf <= n)%nat -> forall sum,
    (let '(ptr, len, sum') :=
       sum_words big_endian buf (Z.of_nat (List.length buf)) sum in
     if len =? 1 then
       match ptr with
       | b :: _ => wrap_u32 (sum' + u8 b)
       | [] => sum'
       end
     else sum')
    = if (List.length buf =? 0)%nat then sum
      else wrap_u32 (sum + word_total big_endian buf)).
  { induction n as [| n IH]; intros [| b0 [| b1 rest]] Hlen sum;
      try (simpl in Hlen; lia); try reflexivity.
    destruct n as [| n]; [simpl in Hlen; lia |].
    assert (Hrest : (List.length rest <= n)%nat) by (simpl in Hlen; lia).
    assert (IH' := IH rest ltac:(lia)).
    cbn [sum_words].
    assert (Hl : Z.of_nat (List.length (b0 :: b1 :: rest))
                 = Z.of_nat (List.length rest) + 2)
      by (cbn [List.length]; lia).
    rewrite Hl.
    replace (1 <? Z.of_nat (List.length rest) + 2) with true by lia.
    replace (Z.of_nat (List.length rest) + 2 - 2)
      with (Z.of_nat (List.length rest)) by lia.
    rewrite IH'.
    change (List.length (b0 :: b1 :: rest) =? 0)%nat with false.
    cbn [word_total].
    destruct (List.length rest =? 0)%nat eqn:E.
    - apply Nat.eqb_eq in E. destruct rest; [| discriminate E].
      simpl. f_equal. lia.
    - unfold wrap_u32. rewrite Zplus_mod_idemp_l. f_equal. lia. }
  intros sum. apply (H (List.length buf)). lia.
Qed.

(** The checksum is the complement of the folded sum of the buffer. *)
Lemma calculate_icmp_checksum_total buf :
  (0 < List.length buf)%nat ->
  calculate_icmp_checksum big_endian buf (Z.of_nat (List.length buf))
  = wrap_u16 (wrap_u32 (Z.lnot (fold_carry fold_fuel
                                   (wrap_u32 (word_total big_endian buf))))).
Proof.
  intros Hlen. unfold calculate_icmp_checksum.
  pose proof (sum_phase buf 0) as H.
  destruct (sum_words big_endian buf (Z.of_nat (List.length buf)) 0) as [[ptr len] sum].
  rewrite H.
  replace (List.length buf =? 0)%nat with false by (symmetry; apply Nat.eqb_neq; lia).
  reflexivity.
Qed.

Lemma fold_carry_fixed fuel sum :
  Z.shiftr sum 16 = 0 -> fold_carry fuel sum = sum.
Proof.
  intros H. destruct fuel; simpl; [reflexivity |]. rewrite H. reflexivity.
Qed.

Lemma land_65535 x : Z.land x 65535 = x mod 65536.
Proof. change 65535 with (Z.ones 16). apply Z.land_ones. lia. Qed.

Lemma shiftr_16 x : Z.shiftr x 16 = x / 65536.
Proof. apply Z.shiftr_div_pow2. lia. Qed.

(** The folding loop leaves within the fuel, with a 16-bit value congruent
    to the sum modulo 65535, which is zero only for a zero sum. *)
Lemma fold_carry_exits sum :
  0 <= sum < 4294967296 ->
  Z.shiftr (fold_carry fold_fuel sum) 16 = 0
  /\ 0 <= fold_carry fold_fuel sum <= 65535
  /\ (fold_carry fold_fuel sum) mod 65535 = sum mod 65535
  /\ (fold_carry fold_fuel sum = 0 <-> sum = 0).
Proof.
  intros Hs. unfold fold_fuel.
  change 32%nat with (S (S 30)). generalize 30%nat. intros fuel.
  cbn [fold_carry].
  rewrite !land_65535, !shiftr_16. unfold wrap_u32.
  pose proof (Z.div_mod sum 65536 ltac:(lia)) as Hdm.
  pose proof (Z.mod_pos_bound sum 65536 ltac:(lia)) as Hlo.
  assert (Hhi : 0 <= sum / 65536 < 65536).
  { split; [apply Z.div_pos; lia | apply Z.div_lt_upper_bound; lia]. }
  set (hi := sum / 65536) in *. set (lo := sum mod 65536) in *.
  destruct (Z.eqb_spec hi 0) as [H0 | H0].
  - assert (sum = lo) by lia.
    repeat split; try lia.
  - rewrite (Z.mod_small (lo + hi)) by lia.
    assert (Hcong : (lo + hi) mod 65535 = sum mod 65535).
    { replace sum with (lo + hi + hi * 65535) by lia.
      rewrite Z_mod_plus_full. reflexivity. }
    destruct (Z.eqb_spec ((lo + hi) / 65536) 0) as [H1 | H1].
    + assert (lo + hi < 65536).
      { destruct (Z_lt_le_dec (lo + hi) 65536) as [Hlt | Hge]; [exact Hlt |].
        exfalso. apply Z.div_small_iff in H1; lia. }
      repeat split; try lia.
    + assert (Hge : 65536 <= lo + hi).
      { destruct (Z_lt_le_dec (lo + hi) 65536) as [Hlt | Hge]; [| exact Hge].
        exfalso. apply H1. apply Z.div_small. lia. }
      assert (Hq : (lo + hi) / 65536 = 1).
      { symmetry. apply Z.div_unique with (r := lo + hi - 65536); lia. }
      assert (Hr : (lo + hi) mod 65536 = lo + hi - 65536).
      { symmetry. apply Z.mod_unique with (q := 1); lia. }
      rewrite Hq, Hr. rewrite (Z.mod_small (lo + hi - 65536 + 1)) by lia.
      rewrite fold_carry_fixed.
      2:{ rewrite shiftr_16. apply Z.div_small. lia. }
      rewrite (Z.div_small (lo + hi - 65536 + 1)) by lia.
      repeat split; try lia.
      rewrite <- Hcong.
      replace (lo + hi) with (lo + hi - 65536 + 1 + 1 * 65535) at 2 by lia.
      rewrite Z_mod_plus_full. reflexivity.
Qed.

Lemma complement_16 r :
  0 <= r <= 65535 -> wrap_u16 (wrap_u32 (Z.lnot r)) = 65535 - r.
Proof.
  intros Hr. unfold wrap_u16, wrap_u32, Z.lnot.
  replace (Z.pred (- r)) with (4294967295 - r + (-1) * 4294967296) by lia.
  rewrite Z_mod_plus_full. rewrite (Z.mod_small (4294967295 - r)) by lia.
  replace (4294967295 - r) with (65535 - r + 65535 * 65536) by lia.
  rewrite Z_mod_plus_full. apply Z.mod_small. lia.
Qed.

(** Writing a 16-bit value over a zeroed checksum field adds it to the
    total. *)
Lemma word_total_store b0 b1 rest c :
  0 <= c <= 65535 ->
  word_total big_endian (store_u16 big_endian (b0 :: b1 :: x00 :: x00 :: rest) 1 c)
  = word_total big_endian (b0 :: b1 :: x00 :: x00 :: rest) + c.
Proof.
  intros Hc. unfold store_u16. cbn [Nat.mul Nat.add array_set word_total].
  unfold wrap_u16. rewrite (Z.mod_small c) by lia.
  assert (Hq : 0 <= c / 256 < 256).
  { split; [apply Z.div_pos; lia | apply Z.div_lt_upper_bound; lia]. }
  pose proof (Z.mod_pos_bound c 256 ltac:(lia)) as Hm.
  pose proof (Z.div_mod c 256 ltac:(lia)) as Hdm.
  unfold load_u16. rewrite !u8_byte_of_Z. rewrite u8_x00.
  destruct big_endian;
    rewrite (Z.mod_small (c / 256)) by lia; rewrite (Z.mod_small (c mod 256)) by lia; lia.
Qed.

End ChecksumFacts.


(** Stamping a buffer that holds a zeroed checksum field with its checksum
    makes the checksum of the whole come out as zero. *)
Lemma stamped_checksum_verifies (big_endian : bool) (buf : list byte) :
  (4 <= List.length buf)%nat ->
  nth 2 buf x00 = x00 ->
  nth 3 buf x00 = x00 ->
  let len := Z.of_nat (List.length buf) in
  let checksum := calculate_icmp_checksum big_endian buf len in
  calculate_icmp_checksum big_endian (store_u16 big_endian buf 1 checksum) len = 0.
Proof.
  intros Hlen H2 H3. cbv zeta.
  destruct buf as [| b0 [| b1 [| b2 [| b3 rest]]]]; try (simpl in Hlen; lia).
  simpl in H2, H3. subst b2 b3.
  set (buf := b0 :: b1 :: x00 :: x00 :: rest) in *.
  pose proof (word_total_nonneg big_endian buf) as Htot.
  set (total := word_total big_endian buf) in *.
  assert (Hs : 0 <= wrap_u32 total < 4294967296)
    by (apply Z.mod_pos_bound; lia).
  destruct (fold_carry_exits (wrap_u32 total) Hs) as (_ & Hr & Hcong & Hzero).
  assert (Hck : calculate_icmp_checksum big_endian buf (Z.of_nat (List.length buf))
               = 65535 - fold_carry fold_fuel (wrap_u32 total)).
  { rewrite calculate_icmp_checksum_total by (simpl; lia).
    apply complement_16. exact Hr. }
  set (checksum := calculate_icmp_checksum big_endian buf (Z.of_nat (List.length buf))) in *.
  clearbody checksum.
  set (r := fold_carry fold_fuel (wrap_u32 total)) in *.
  assert (Hc : 0 <= checksum <= 65535) by lia.
  (* the sum of the stamped buffer *)
  assert (Hlen' : List.length (store_u16 big_endian buf 1 checksum) = List.length buf).
  { unfold store_u16. rewrite !array_set_length. reflexivity. }
  rewrite <- Hlen'. rewrite calculate_icmp_checksum_total by (rewrite Hlen'; simpl; lia).
  unfold buf at 1. rewrite word_total_store by exact Hc. fold buf. fold total.
  (* it is a positive multiple of 65535 below 2^32 *)
  set (s := wrap_u32 total) in *.
  assert (Hmult : (s + checksum) mod 65535 = 0).
  { rewrite Hck. replace (s + (65535 - r)) with (s - r + 1 * 65535) by lia.
    rewrite Z_mod_plus_full. rewrite Zminus_mod. rewrite Hcong.
    rewrite Z.sub_diag. reflexivity. }
  assert (Hbound : 0 < s + checksum < 4294967296).
  { pose proof (Z.div_mod (s + checksum) 65535 ltac:(lia)) as Hdm.
    rewrite Hmult in Hdm.
    destruct (Z.eq_dec s 0) as [Hs0 | Hs0].
    - apply Hzero in Hs0. lia.
    - assert (r <> 0) by (intros Hr0; apply Hs0, Hzero, Hr0). lia. }
  assert (Hwrap : wrap_u32 (total + checksum) = s + checksum).
  { unfold wrap_u32. rewrite <- Zplus_mod_idemp_l.
    fold (wrap_u32 total). fold s. apply Z.mod_small. lia. }
  rewrite Hwrap.
  destruct (fold_carry_exits (s + checksum) ltac:(lia)) as (_ & Hr' & Hcong' & Hzero').
  rewrite complement_16 by exact Hr'.
  rewrite Hmult in Hcong'.
  set (r' := fold_carry fold_fuel (s + checksum)) in *.
  assert (r' <> 0) by (intros H0; apply Hzero' in H0; lia).
  pose proof (Z.div_mod r' 65535 ltac:(lia)) as Hdm'.
  rewrite Hcong' in Hdm'. lia.
Qed.




(* ================================================================== *)
(** ** ICMP probe *)

Section IcmpFacts.

Variable big_endian : bool.
Variable env : icmp_env.
Variable timeout_sec : Z.

(** The loop body never leaves the function; it changes the variables and
    the log as [attempt_vars] and [attempt_events] say, and opens or closes
    nothing. *)
Lemma ping_attempt_run sock icmp_id i v w :
  ping_attempt big_endian env sock icmp_id timeout_sec i v w
  = (Next (attempt_vars env v i),
     mk_world (w_open w)
              (w_log w ++ attempt_events big_endian env sock icmp_id timeout_sec i)).
Proof.
  unfold ping_attempt, attempt_vars, attempt_events, answered, attempt_latency.
  step_cmd.
  destruct (echo_request big_endian icmp_id i (at_send_time (icmp_attempt env i)))
    as [send_buffer checksum].
  cbn [fst snd w_open w_log].
  destruct (at_sendto (icmp_attempt env i) <? 0) eqn:Es; simpl.
  - rewrite <- ?app_assoc. reflexivity.
  - destruct (0 <? at_recvfrom (icmp_attempt env i)) eqn:Er; simpl;
      rewrite <- ?app_assoc; reflexivity.
Qed.

Lemma ping_loop_run sock icmp_id l :
  forall v w,
    for_each l (ping_attempt big_endian env sock icmp_id timeout_sec) v w
    = (Next (fold_left (attempt_vars env) l v),
       mk_world (w_open w)
                (w_log w
                 ++ flat_map (attempt_events big_endian env sock icmp_id timeout_sec) l)).
Proof.
  induction l as [| i l IH]; intros v w.
  - simpl. unfold ret. rewrite app_nil_r. destruct w; reflexivity.
  - cbn [for_each]. unfold bind at 1. rewrite ping_attempt_run.
    rewrite IH. cbn [w_open w_log fold_left flat_map].
    rewrite app_assoc. reflexivity.
Qed.

Variable packet_count : Z.

Lemma success_count_fold l :
  forall v,
    0 <= success_count v ->
    success_count v + Z.of_nat (List.length l) <= INT_MAX ->
    success_count (fold_left (attempt_vars env) l v)
    = success_count v + Z.of_nat (List.length (filter (answered env) l)).
Proof.
  induction l as [| i l IH]; intros v H0 Hmax.
  - simpl. lia.
  - cbn [fold_left filter]. cbn [List.length] in Hmax.
    unfold attempt_vars at 2. destruct (answered env i).
    + rewrite IH; cbn [success_count].
      * unfold wrap_int, INT_MAX in *. rewrite Z.mod_small by lia.
        cbn [List.length]. lia.
      * unfold wrap_int, INT_MAX in *. rewrite Z.mod_small by lia. lia.
      * unfold wrap_int, INT_MAX in *. rewrite Z.mod_small by lia. lia.
    + rewrite IH by lia. lia.
Qed.

Lemma loop_indices_length n : Z.of_nat (List.length (loop_indices n)) = Z.max 0 n.
Proof.
  unfold loop_indices. rewrite length_map, length_seq. lia.
Qed.

Lemma perform_icmp_ping_run w :
  0 <= icmp_socket env -> 0 < icmp_inet_pton env ->
  let sock := icmp_socket env in
  let icmp_id := wrap_u16 (Z.land (icmp_getpid env) 65535) in
  let v := ping_vars_end env packet_count in
  let log :=
    w_log w ++ [EvSocket sock]
      ++ flat_map (attempt_events big_endian env sock icmp_id timeout_sec)
                  (loop_indices packet_count)
      ++ [EvClose sock; EvPrint (PingSent packet_count);
          EvPrint (PingReceived (success_count v))] in
  run (perform_icmp_ping big_endian env packet_count timeout_sec) w
  = if 0 <? success_count v then
      if packet_count =? 0 then (None, mk_world (w_open w) log)
      else
        (Some 1,
         mk_world (w_open w)
           (log ++ [EvPrint (PingLoss (loss_percent packet_count (success_count v)));
                    EvPrint (PingRtt (min_rtt v) (max_rtt v)
                               (wrap_long (Z.quot (total_rtt v) (success_count v))));
                    EvPrint PingReachable]))
    else (Some 0, mk_world (w_open w) (log ++ [EvPrint PingUnreachable])).
Proof.
  intros Hs Ha. cbv zeta.
  unfold run, perform_icmp_ping.
  unfold bind at 1. unfold sys_socket at 1.
  replace (icmp_socket env <? 0) with false by lia.
  replace (icmp_inet_pton env <=? 0) with false by lia.
  unfold bind at 1. rewrite ping_loop_run. fold (ping_vars_end env packet_count).
  cbn [w_open w_log].
  unfold bind, sys_close, print, emit, c_return, ret, float_div_int, long_div, undefined.
  cbn [w_open w_log]. rewrite release_head.
  destruct (0 <? success_count (ping_vars_end env packet_count)) eqn:Esc.
  - destruct (packet_count =? 0) eqn:En.
    + cbn [w_open w_log]. f_equal. f_equal. rewrite <- ?app_assoc. reflexivity.
    + replace (success_count (ping_vars_end env packet_count) =? 0) with false by lia.
      unfold ret. cbn [w_open w_log]. unfold loss_percent.
      f_equal. f_equal. rewrite <- ?app_assoc. reflexivity.
  - cbn [w_open w_log]. f_equal. f_equal. rewrite <- ?app_assoc. reflexivity.
Qed.

End IcmpFacts.

(* ================================================================== *)
(** ** Reading the log of a run of the ICMP probe *)

Lemma printed_app log1 log2 : printed (log1 ++ log2) = printed log1 ++ printed log2.
Proof. unfold printed. apply flat_map_app. Qed.

Lemma reported_latencies_app log1 log2 :
  reported_latencies (log1 ++ log2) = reported_latencies log1 ++ reported_latencies log2.
Proof. unfold reported_latencies. rewrite printed_app. apply flat_map_app. Qed.

Lemma reported_sent_app log1 log2 :
  reported_sent (log1 ++ log2) = reported_sent log1 ++ reported_sent log2.
Proof. unfold reported_sent. rewrite printed_app. apply flat_map_app. Qed.

Lemma reported_received_app log1 log2 :
  reported_received (log1 ++ log2) = reported_received log1 ++ reported_received log2.
Proof. unfold reported_received. rewrite printed_app. apply flat_map_app. Qed.

Lemma reported_loss_app log1 log2 :
  reported_loss (log1 ++ log2) = reported_loss log1 ++ reported_loss log2.
Proof. unfold reported_loss. rewrite printed_app. apply flat_map_app. Qed.

Section IcmpLog.

Variable big_endian : bool.
Variable env : icmp_env.
Variables sock icmp_id timeout_sec : Z.

Let events := attempt_events big_endian env sock icmp_id timeout_sec.

Lemma attempt_reports i :
  reported_latencies (events i)
  = (if answered env i then [attempt_latency env i] else [])
  /\ reported_sent (events i) = []
  /\ reported_received (events i) = []
  /\ reported_loss (events i) = [].
Proof.
  unfold events, attempt_events, answered.
  destruct (at_sendto (icmp_attempt env i) <? 0);
    [| destruct (0 <? at_recvfrom (icmp_attempt env i))];
    repeat split; reflexivity.
Qed.

(** The attempts report, in order, the latencies of the answered ones, and
    no statistics. *)
Lemma loop_reports l :
  reported_latencies (flat_map events l)
  = map (attempt_latency env) (filter (answered env) l)
  /\ reported_sent (flat_map events l) = []
  /\ reported_received (flat_map events l) = []
  /\ reported_loss (flat_map events l) = [].
Proof.
  induction l as [| i l (IH1 & IH2 & IH3 & IH4)]; [repeat split; reflexivity |].
  destruct (attempt_reports i) as (H1 & H2 & H3 & H4).
  cbn [flat_map filter].
  rewrite reported_latencies_app, reported_sent_app, reported_received_app,
    reported_loss_app.
  rewrite H1, H2, H3, H4, IH1, IH2, IH3, IH4.
  repeat split; try reflexivity.
  destruct (answered env i); reflexivity.
Qed.

End IcmpLog.

Section IcmpRun.

Variable big_endian : bool.
Variable env : icmp_env.
Variables packet_count timeout_sec : Z.

Hypothesis Hsocket : 0 <= icmp_socket env.
Hypothesis Haddress : 0 < icmp_inet_pton env.

Let ping := perform_icmp_ping big_endian env packet_count timeout_sec.
Let v := ping_vars_end env packet_count.

Lemma success_count_end :
  packet_count <= INT_MAX -> success_count v = answered_count env packet_count.
Proof.
  intros Hn. unfold v, ping_vars_end, answered_count.
  rewrite success_count_fold; cbn [success_count]; try lia.
  rewrite loop_indices_length. unfold INT_MAX in *. lia.
Qed.

Lemma success_count_positive :
  0 < success_count v -> 1 <= packet_count.
Proof.
  unfold v, ping_vars_end, loop_indices.
  destruct (Z_lt_le_dec packet_count 1) as [Hlt | Hge]; [| intros _; exact Hge].
  assert (E : Z.to_nat packet_count = 0%nat) by lia.
  rewrite E. simpl. lia.
Qed.

Lemma answered_count_bounds :
  0 <= answered_count env packet_count <= Z.max 0 packet_count.
Proof.
  unfold answered_count. rewrite <- loop_indices_length.
  pose proof (filter_length_le (answered env) (loop_indices packet_count)). lia.
Qed.

(** The result and the reports of a run that got its socket and a valid
    address. *)
Lemma ping_reports :
  result ping = Some (if 0 <? success_count v then 1 else 0)
  /\ w_open (final_world ping) = []
  /\ reported_latencies (w_log (final_world ping))
     = map (attempt_latency env) (filter (answered env) (loop_indices packet_count))
  /\ reported_sent (w_log (final_world ping)) = [packet_count]
  /\ reported_received (w_log (final_world ping)) = [success_count v]
  /\ reported_loss (w_log (final_world ping))
     = (if 0 <? success_count v
        then [loss_percent packet_count (success_count v)] else []).
Proof.
  unfold result, final_world, ping.
  rewrite (perform_icmp_ping_run big_endian env timeout_sec packet_count
             initial_world Hsocket Haddress).
  cbv zeta. fold v.
  set (sock := icmp_socket env). set (icmp_id := wrap_u16 _).
  destruct (loop_reports big_endian env sock icmp_id timeout_sec
              (loop_indices packet_count)) as (L1 & L2 & L3 & L4).
  destruct (0 <? success_count v) eqn:Esc.
  - assert (Hn : 1 <= packet_count) by (apply success_count_positive; lia).
    replace (packet_count =? 0) with false by lia.
    cbn [fst snd w_open w_log initial_world].
    rewrite ?reported_latencies_app, ?reported_sent_app, ?reported_received_app,
      ?reported_loss_app.
    rewrite L1, L2, L3, L4.
    repeat split; simpl; rewrite ?app_nil_r; reflexivity.
  - cbn [fst snd w_open w_log initial_world].
    rewrite ?reported_latencies_app, ?reported_sent_app, ?reported_received_app,
      ?reported_loss_app.
    rewrite L1, L2, L3, L4.
    repeat split; simpl; rewrite ?app_nil_r; reflexivity.
Qed.

End IcmpRun.

(* ================================================================== *)
(** ** The timestamp in the payload *)

Lemma firstn_exact {A : Type} (l1 l2 : list A) n :
  List.length l1 = n -> firstn n (l1 ++ l2) = l1.
Proof.
  intros <-. rewrite firstn_app, Nat.sub_diag, firstn_all. simpl. apply app_nil_r.
Qed.

Lemma skipn_exact {A : Type} (l1 l2 : list A) n :
  List.length l1 = n -> skipn n (l1 ++ l2) = l2.
Proof.
  intros <-. rewrite skipn_app, Nat.sub_diag, skipn_all. reflexivity.
Qed.

(** The little-endian digits of [v] from position [s] on. *)
Lemma little_endian_value v n :
  forall s,
    fold_right (fun b acc => u8 b + 256 * acc) 0
      (map (fun k => byte_of_Z (v / 256 ^ Z.of_nat k)) (seq s n))
    = (v / 256 ^ Z.of_nat s) mod 256 ^ Z.of_nat n.
Proof.
  induction n as [| n IH]; intros s.
  - simpl. rewrite Z.mod_1_r. reflexivity.
  - cbn [seq map fold_right]. rewrite IH. rewrite u8_byte_of_Z.
    assert (Hs : 0 < 256 ^ Z.of_nat s) by (apply Z.pow_pos_nonneg; lia).
    assert (Hn : 0 < 256 ^ Z.of_nat n) by (apply Z.pow_pos_nonneg; lia).
    replace (256 ^ Z.of_nat (S s)) with (256 ^ Z.of_nat s * 256)
      by (rewrite Nat2Z.inj_succ, Z.pow_succ_r by lia; lia).
    replace (256 ^ Z.of_nat (S n)) with (256 * 256 ^ Z.of_nat n)
      by (rewrite Nat2Z.inj_succ, Z.pow_succ_r by lia; lia).
    rewrite <- Z.div_div by lia.
    rewrite Z.rem_mul_r by lia. reflexivity.
Qed.

Section TimestampFacts.

Variable big_endian : bool.

Lemma long_bytes_length v : List.length (long_bytes big_endian v) = 8%nat.
Proof.
  unfold long_bytes. destruct big_endian; [rewrite length_rev |];
    rewrite length_map, length_seq; reflexivity.
Qed.

(** Reading back the bytes of a [long] gives the [long]. *)
Lemma long_roundtrip v :
  in_long v -> long_of_bytes big_endian (long_bytes big_endian v) = v.
Proof.
  intros Hv. unfold long_of_bytes, long_bytes.
  assert (E : (if big_endian
               then rev (if big_endian
                         then rev (map (fun k => byte_of_Z (v / 256 ^ Z.of_nat k)) (seq 0 8))
                         else map (fun k => byte_of_Z (v / 256 ^ Z.of_nat k)) (seq 0 8))
               else (if big_endian
                     then rev (map (fun k => byte_of_Z (v / 256 ^ Z.of_nat k)) (seq 0 8))
                     else map (fun k => byte_of_Z (v / 256 ^ Z.of_nat k)) (seq 0 8)))
              = map (fun k => byte_of_Z (v / 256 ^ Z.of_nat k)) (seq 0 8)).
  { destruct big_endian; [apply rev_involutive | reflexivity]. }
  rewrite E. rewrite little_endian_value.
  change (256 ^ Z.of_nat 0) with 1. rewrite Z.div_1_r.
  change (256 ^ Z.of_nat 8) with 18446744073709551616.
  unfold in_long, LONG_MIN, LONG_MAX in Hv. unfold wrap_long.
  rewrite Zplus_mod_idemp_l. rewrite Z.mod_small; lia.
Qed.

(** The reply to a request carries the send time of that request. *)
Lemma echo_reply_timestamp icmp_id i t :
  in_long (tv_sec t) -> in_long (tv_usec t) ->
  spec_reply_timestamp big_endian (echo_reply_datagram big_endian icmp_id i t) = Some t.
Proof.
  intros Hsec Husec.
  assert (Hpayload :
            skipn 8 (icmp_message (echo_reply_datagram big_endian icmp_id i t))
            = long_bytes big_endian (tv_sec t)
                ++ long_bytes big_endian (tv_usec t) ++ repeat x00 40).
  { unfold echo_reply_datagram, icmp_message, icmp_packet_bytes, timeval_bytes,
      u16_bytes, store_u16.
    destruct big_endian; cbn; rewrite <- app_assoc; reflexivity. }
  unfold spec_reply_timestamp. rewrite Hpayload.
  replace (List.length (long_bytes big_endian (tv_sec t)
                          ++ long_bytes big_endian (tv_usec t) ++ repeat x00 40) <? 16)%nat
    with false
    by (rewrite !length_app, !long_bytes_length; reflexivity).
  rewrite (firstn_exact _ _ 8) by apply long_bytes_length.
  rewrite (skipn_exact _ _ 8) by apply long_bytes_length.
  rewrite (firstn_exact _ _ 8) by apply long_bytes_length.
  rewrite !long_roundtrip by assumption.
  destruct t; reflexivity.
Qed.

End TimestampFacts.


Lemma net_u16_bytes big_endian v :
  0 <= v < 65536 ->
  match u16_bytes big_endian (htons big_endian v) with
  | [b0; b1] => net_u16 b0 b1 = v
  | _ => False
  end.
Proof.
  intros Hv.
  assert (Hq : 0 <= v / 256 < 256).
  { split; [apply Z.div_pos; lia | apply Z.div_lt_upper_bound; lia]. }
  pose proof (Z.mod_pos_bound v 256 ltac:(lia)) as Hm.
  pose proof (Z.div_mod v 256 ltac:(lia)) as Hdm.
  unfold u16_bytes, htons, net_u16, wrap_u16. rewrite (Z.mod_small v) by lia.
  destruct big_endian.
  - rewrite (Z.mod_small v) by lia. rewrite !u8_byte_of_Z.
    rewrite (Z.mod_small (v / 256)) by lia. lia.
  - set (h := v mod 256 * 256 + v / 256).
    assert (Hh : 0 <= h < 65536) by (unfold h; lia).
    rewrite (Z.mod_small h) by lia. rewrite !u8_byte_of_Z.
    assert (Hhm : h mod 256 = v / 256).
    { unfold h. rewrite Z.add_comm. rewrite Z_mod_plus_full. apply Z.mod_small. lia. }
    assert (Hhq : h / 256 = v mod 256).
    { unfold h. rewrite Z.add_comm. rewrite Z_div_plus_full by lia.
      rewrite (Z.div_small (v / 256)) by lia. lia. }
    rewrite Hhm, Hhq. rewrite (Z.mod_small (v mod 256)) by lia. lia.
Qed.

Lemma icmp_message_skips_header (message : list byte) :
  icmp_message ((byte_of_Z 69 :: repeat x00 19) ++ message) = message.
Proof. reflexivity. Qed.

(** The reply to a request carries the identifier and the sequence number
    of that request. *)
Lemma echo_reply_fields big_endian icmp_id i t :
  spec_reply_id (echo_reply_datagram big_endian icmp_id i t) = Some (wrap_u16 icmp_id)
  /\ spec_reply_seq (echo_reply_datagram big_endian icmp_id i t) = Some (wrap_u16 i).
Proof.
  assert (Hid : 0 <= wrap_u16 icmp_id < 65536) by (apply Z.mod_pos_bound; lia).
  assert (Hseq : 0 <= wrap_u16 i < 65536) by (apply Z.mod_pos_bound; lia).
  pose proof (net_u16_bytes big_endian (wrap_u16 icmp_id) Hid) as H1.
  pose proof (net_u16_bytes big_endian (wrap_u16 i) Hseq) as H2.
  assert (Hh : forall v, htons big_endian (wrap_u16 v) = htons big_endian v).
  { intros v. unfold htons, wrap_u16. rewrite Zmod_mod. reflexivity. }
  rewrite Hh in H1.
  unfold spec_reply_id, spec_reply_seq, echo_reply_datagram.
  rewrite icmp_message_skips_header.
  unfold icmp_packet_bytes, store_u16.
  destruct (u16_bytes big_endian (htons big_endian icmp_id))
    as [| i0 [| i1 [| ? ?]]]; try contradiction.
  destruct (u16_bytes big_endian (htons big_endian (wrap_u16 i)))
    as [| s0 [| s1 [| ? ?]]]; try contradiction.
  unfold u16_bytes. destruct big_endian; cbn [app array_set Nat.mul Nat.add];
    rewrite H1, H2; split; reflexivity.
Qed.

(* ================================================================== *)
(** ** Claim on the checksum *)

Lemma icmp_packet_bytes_length big_endian type code checksum id seq t :
  List.length (icmp_packet_bytes big_endian type code checksum id seq t) = 64%nat.
Proof.
  unfold icmp_packet_bytes, timeval_bytes, u16_bytes.
  destruct big_endian; cbn [app List.length];
    rewrite !length_app, !long_bytes_length, repeat_length; reflexivity.
Qed.

(** C7. Internet-checksum self-verification: for every byte buffer (in either
    host byte order) that holds a zeroed checksum field, writing the checksum
    computed by [calculate_icmp_checksum] into that field gives a buffer over
    which the same computation returns zero; so does every request the ICMP
    probe hands to [sendto]. *)
Theorem checksum_self_verification (big_endian : bool) :
  (forall buf : list byte,
      (4 <= List.length buf)%nat ->
      nth 2 buf x00 = x00 ->
      nth 3 buf x00 = x00 ->
      let len := Z.of_nat (List.length buf) in
      let checksum := calculate_icmp_checksum big_endian buf len in
      calculate_icmp_checksum big_endian (store_u16 big_endian buf 1 checksum) len = 0)
  /\ (forall icmp_id i send_time,
         calculate_icmp_checksum big_endian
           (fst (echo_request big_endian icmp_id i send_time)) 64 = 0).
Proof.
  split; [apply stamped_checksum_verifies |].
  intros icmp_id i send_time. unfold echo_request. cbn [fst].
  set (buf := icmp_packet_bytes big_endian 8 0 0 (htons big_endian icmp_id)
                (htons big_endian (wrap_u16 i)) send_time).
  assert (Hlen : List.length buf = 64%nat) by apply icmp_packet_bytes_length.
  change 64 with (Z.of_nat 64). rewrite <- Hlen.
  apply (stamped_checksum_verifies big_endian buf).
  - rewrite Hlen. repeat constructor.
  - unfold buf, icmp_packet_bytes, u16_bytes. destruct big_endian; reflexivity.
  - unfold buf, icmp_packet_bytes, u16_bytes. destruct big_endian; reflexivity.
Qed.

Lemma checksum_self_verification_witness :
  (4 <= List.length sample_request)%nat
  /\ nth 2 sample_request x00 = x00
  /\ nth 3 sample_request x00 = x00
  /\ (let len := Z.of_nat (List.length sample_request) in
      let checksum := calculate_icmp_checksum false sample_request len in
      calculate_icmp_checksum false (store_u16 false sample_request 1 checksum) len = 0).
Proof.
  assert (H1 : (4 <= List.length sample_request)%nat) by (vm_compute; lia).
  assert (H2 : nth 2 sample_request x00 = x00) by reflexivity.
  assert (H3 : nth 3 sample_request x00 = x00) by reflexivity.
  split; [exact H1 | split; [exact H2 | split; [exact H3 |]]].
  destruct (checksum_self_verification false) as (H & _).
  exact (H sample_request H1 H2 H3).
Defined.



(* ================================================================== *)
(** ** Claims on the ICMP probe *)

(** C1 (as the code has it). In a run of the ICMP probe that got its socket
    and a valid address, the latencies reported are, in order, those of the
    attempts that were sent and for which the receive call delivered
    something, each computed by [calculate_elapsed_ms] from the send time the
    probe captured for that very attempt and the receive time; the content of
    the receive buffer plays no part.  The value is the one the
    specification asks for (receive time minus the timestamp embedded in the
    reply) whenever the datagram carries the attempt's own send time, as the
    reply to the attempt's own request does. *)
Theorem ping_latency_from_attempt_send_time
    (big_endian : bool) (env : icmp_env) (packet_count timeout_sec : Z) :
  0 <= icmp_socket env ->
  0 < icmp_inet_pton env ->
  let latencies e :=
    reported_latencies
      (w_log (final_world (perform_icmp_ping big_endian e packet_count timeout_sec))) in
  latencies env
  = map (fun i => calculate_elapsed_ms (at_send_time (icmp_attempt env i))
                                       (at_recv_time (icmp_attempt env i)))
        (filter (answered env) (loop_indices packet_count))
  /\ (forall buffers, latencies (with_recv_buffers env buffers) = latencies env)
  /\ (forall i,
        spec_reply_timestamp big_endian (at_recv_buffer (icmp_attempt env i))
        = Some (at_send_time (icmp_attempt env i)) ->
        spec_latency big_endian env i = Some (attempt_latency env i))
  /\ (forall i icmp_id,
        in_long (tv_sec (at_send_time (icmp_attempt env i))) ->
        in_long (tv_usec (at_send_time (icmp_attempt env i))) ->
        at_recv_buffer (icmp_attempt env i)
        = echo_reply_datagram big_endian icmp_id i (at_send_time (icmp_attempt env i)) ->
        spec_latency big_endian env i = Some (attempt_latency env i)).
Proof.
  intros Hs Ha latencies.
  destruct (ping_reports big_endian env packet_count timeout_sec Hs Ha)
    as (_ & _ & Hl & _).
  split; [| split; [| split]].
  - exact Hl.
  - intros buffers. reflexivity.
  - intros i Hts. unfold spec_latency. rewrite Hts. reflexivity.
  - intros i icmp_id Hsec Husec Hbuf. unfold spec_latency. rewrite Hbuf.
    rewrite echo_reply_timestamp by assumption. reflexivity.
Qed.

Lemma ping_latency_from_attempt_send_time_witness :
  0 <= icmp_socket late_reply_env
  /\ 0 < icmp_inet_pton late_reply_env
  /\ reported_latencies
       (w_log (final_world (perform_icmp_ping false late_reply_env 2 2)))
     = map (fun i => calculate_elapsed_ms
                       (at_send_time (icmp_attempt late_reply_env i))
                       (at_recv_time (icmp_attempt late_reply_env i)))
           (filter (answered late_reply_env) (loop_indices 2)).
Proof.
  assert (Hs : 0 <= icmp_socket late_reply_env) by (simpl; lia).
  assert (Ha : 0 < icmp_inet_pton late_reply_env) by (simpl; lia).
  split; [exact Hs | split; [exact Ha |]].
  destruct (ping_latency_from_attempt_send_time false late_reply_env 2 2 Hs Ha)
    as (H & _).
  exact H.
Defined.

(** C1 as stated fails: at the slow host, the datagram delivered during
    attempt 1 carries the send time of attempt 0 (100.0 s) and arrives at
    102.5 s; the specification's latency is 2500 ms, the probe reports the
    500 ms since the send time of attempt 1. *)
Lemma ping_latency_not_from_payload :
  answered late_reply_env 1 = true
  /\ spec_latency false late_reply_env 1 = Some 2500
  /\ reported_latencies
       (w_log (final_world (perform_icmp_ping false late_reply_env 2 2)))
     = [500].
Proof. repeat split; vm_compute; reflexivity. Qed.

(** C2 (as the code has it). In a run of the ICMP probe that got its socket
    and a valid address, the number of replies reported is the number of
    attempts that were sent and for which the receive call returned a
    positive length: whatever those datagrams contain.  The run is the same,
    step for step, for any other contents of the receive buffers, so
    identifier and sequence number are not consulted. *)
Theorem ping_counts_any_datagram
    (big_endian : bool) (env : icmp_env) (packet_count timeout_sec : Z) :
  0 <= icmp_socket env ->
  0 < icmp_inet_pton env ->
  packet_count <= INT_MAX ->
  reported_received
    (w_log (final_world (perform_icmp_ping big_endian env packet_count timeout_sec)))
  = [Z.of_nat (List.length (filter (answered env) (loop_indices packet_count)))]
  /\ (forall i,
        answered env i = true
        <-> 0 <= at_sendto (icmp_attempt env i) /\ 0 < at_recvfrom (icmp_attempt env i))
  /\ (forall buffers,
        run (perform_icmp_ping big_endian (with_recv_buffers env buffers)
               packet_count timeout_sec) initial_world
        = run (perform_icmp_ping big_endian env packet_count timeout_sec)
              initial_world).
Proof.
  intros Hs Ha Hn.
  destruct (ping_reports big_endian env packet_count timeout_sec Hs Ha)
    as (_ & _ & _ & _ & Hr & _).
  split; [| split].
  - rewrite Hr. rewrite success_count_end by exact Hn. reflexivity.
  - intros i. unfold answered. rewrite andb_true_iff, negb_true_iff. lia.
  - intros buffers. reflexivity.
Qed.

Lemma ping_counts_any_datagram_witness :
  0 <= icmp_socket late_reply_env
  /\ 0 < icmp_inet_pton late_reply_env
  /\ 2 <= INT_MAX
  /\ reported_received
       (w_log (final_world (perform_icmp_ping false late_reply_env 2 2)))
     = [Z.of_nat (List.length (filter (answered late_reply_env) (loop_indices 2)))].
Proof.
  assert (Hs : 0 <= icmp_socket late_reply_env) by (simpl; lia).
  assert (Ha : 0 < icmp_inet_pton late_reply_env) by (simpl; lia).
  assert (Hn : 2 <= INT_MAX) by (unfold INT_MAX; lia).
  split; [exact Hs | split; [exact Ha | split; [exact Hn |]]].
  destruct (ping_counts_any_datagram false late_reply_env 2 2 Hs Ha Hn) as (H & _).
  exact H.
Defined.

(** C2 as stated fails: at the slow host, the datagram delivered during
    attempt 1 carries sequence number 0, not 1, and is counted all the same:
    one reply is reported although no attempt received a datagram with its
    own sequence number. *)
Lemma ping_counts_mismatched_reply :
  spec_reply_seq (at_recv_buffer (icmp_attempt late_reply_env 1)) = Some 0
  /\ spec_reply_matches late_reply_env 1 = false
  /\ filter (spec_reply_matches late_reply_env) (loop_indices 2) = []
  /\ reported_received
       (w_log (final_world (perform_icmp_ping false late_reply_env 2 2)))
     = [1].
Proof. repeat split; vm_compute; reflexivity. Qed.

(** C3 (as the code has it). In a run of the ICMP probe over N packets that
    got its socket and a valid address, the count reported as sent is N and
    the count reported as received is the number of answered attempts, at
    most N when N is not negative.  A loss percentage is reported only when
    at least one reply was received; it is then the single-precision value of
    ((float)(sent - received) / sent) * 100.  A run of 3 packets with no
    reply reports sent 3, received 0 and no loss percentage. *)
Theorem ping_report_counts
    (big_endian : bool) (env : icmp_env) (packet_count timeout_sec : Z) :
  0 <= icmp_socket env ->
  0 < icmp_inet_pton env ->
  packet_count <= INT_MAX ->
  let log :=
    w_log (final_world (perform_icmp_ping big_endian env packet_count timeout_sec)) in
  let received := answered_count env packet_count in
  reported_sent log = [packet_count]
  /\ reported_received log = [received]
  /\ (0 <= packet_count -> received <= packet_count)
  /\ reported_loss log
     = (if 0 <? received then [loss_percent packet_count received] else [])
  /\ (packet_count = 3 -> received = 0 ->
      reported_sent log = [3] /\ reported_received log = [0] /\ reported_loss log = []).
Proof.
  intros Hs Ha Hn log received.
  destruct (ping_reports big_endian env packet_count timeout_sec Hs Ha)
    as (_ & _ & _ & Hsent & Hrecv & Hloss).
  rewrite success_count_end in Hrecv, Hloss by exact Hn.
  fold log in Hsent, Hrecv, Hloss. fold received in Hrecv, Hloss.
  pose proof (answered_count_bounds env packet_count) as Hb. fold received in Hb.
  split; [exact Hsent | split; [exact Hrecv | split; [| split; [exact Hloss |]]]].
  - intros H0. rewrite Z.max_r in Hb by exact H0. apply Hb.
  - intros H3 H0. rewrite Hsent, Hrecv, Hloss, H3, H0. repeat split; reflexivity.
Qed.

Lemma ping_report_counts_witness :
  0 <= icmp_socket late_reply_env
  /\ 0 < icmp_inet_pton late_reply_env
  /\ 2 <= INT_MAX
  /\ reported_loss (w_log (final_world (perform_icmp_ping false late_reply_env 2 2)))
     = (if 0 <? answered_count late_reply_env 2
        then [loss_percent 2 (answered_count late_reply_env 2)] else []).
Proof.
  assert (Hs : 0 <= icmp_socket late_reply_env) by (simpl; lia).
  assert (Ha : 0 < icmp_inet_pton late_reply_env) by (simpl; lia).
  assert (Hn : 2 <= INT_MAX) by (unfold INT_MAX; lia).
  split; [exact Hs | split; [exact Ha | split; [exact Hn |]]].
  destruct (ping_report_counts false late_reply_env 2 2 Hs Ha Hn)
    as (_ & _ & _ & H & _).
  exact H.
Defined.

(** C3 as stated fails: against the silent host, a run of 3 packets reports
    sent 3 and received 0, and then no loss percentage at all, so not
    100.0. *)
Lemma ping_silent_host_reports_no_loss :
  let log := w_log (final_world (perform_icmp_ping false silent_env 3 2)) in
  reported_sent log = [3]
  /\ reported_received log = [0]
  /\ reported_loss log = []
  /\ reported_loss log <> [float_of_int 100].
Proof.
  repeat split; try (vm_compute; reflexivity).
  vm_compute. intros H. discriminate H.
Qed.

(** Single-precision rounding shows in the loss percentage: one reply out
    of two gives 50 exactly, one out of three gives 8738134 x 2^-17, a little
    more than 200/3. *)
Example loss_percent_examples :
  loss_percent 2 1 = S754_finite false 13107200 (-18)
  /\ loss_percent 3 1 = S754_finite false 8738134 (-17)
  /\ 3 * 8738134 <> 200 * 2 ^ 17.
Proof. repeat split; try reflexivity. intros H. discriminate H. Qed.

(** C10. The loss percentage is computed only in a run that received at
    least one reply, and then the packet count it divides by is at least 1
    (and so is the reply count the average divides by): whatever the system
    answers and whatever the packet count, zero and negative counts
    included, the probe returns a value and never divides by zero. *)
Theorem ping_loss_division_guarded
    (big_endian : bool) (env : icmp_env) (packet_count timeout_sec : Z) :
  let ping := perform_icmp_ping big_endian env packet_count timeout_sec in
  (exists r, result ping = Some r)
  /\ (forall loss,
        In loss (reported_loss (w_log (final_world ping))) ->
        1 <= packet_count /\ 1 <= success_count (ping_vars_end env packet_count))
  /\ (packet_count <= 0 -> reported_loss (w_log (final_world ping)) = []).
Proof.
  intros ping.
  destruct (Z_lt_le_dec (icmp_socket env) 0) as [Hs | Hs].
  { unfold ping, result, final_world, run, perform_icmp_ping.
    step_cmd. replace (icmp_socket env <? 0) with true by lia. simpl.
    split; [eexists; reflexivity | split; [intros loss [] | reflexivity]]. }
  destruct (Z_lt_le_dec 0 (icmp_inet_pton env)) as [Ha | Ha].
  2:{ unfold ping, result, final_world, run, perform_icmp_ping.
      step_cmd. replace (icmp_socket env <? 0) with false by lia. simpl.
      replace (icmp_inet_pton env <=? 0) with true by lia. simpl.
      split; [eexists; reflexivity | split; [intros loss [] | reflexivity]]. }
  destruct (ping_reports big_endian env packet_count timeout_sec Hs Ha)
    as (Hres & _ & _ & _ & _ & Hloss).
  fold ping in Hres, Hloss.
  split; [eexists; exact Hres | split].
  - intros loss Hin. rewrite Hloss in Hin.
    destruct (0 <? success_count (ping_vars_end env packet_count)) eqn:E;
      [| destruct Hin].
    split; [apply (success_count_positive env) |]; lia.
  - intros Hn. rewrite Hloss.
    destruct (0 <? success_count (ping_vars_end env packet_count)) eqn:E;
      [| reflexivity].
    pose proof (success_count_positive env packet_count). lia.
Qed.

Lemma ping_loss_division_guarded_witness :
  In (loss_percent 2 1)
     (reported_loss (w_log (final_world (perform_icmp_ping false late_reply_env 2 2))))
  /\ 1 <= 2
  /\ reported_loss (w_log (final_world (perform_icmp_ping false late_reply_env 0 2))) = [].
Proof.
  assert (Hin : In (loss_percent 2 1)
                  (reported_loss
                     (w_log (final_world (perform_icmp_ping false late_reply_env 2 2)))))
    by (vm_compute; left; reflexivity).
  split; [exact Hin | split].
  - destruct (ping_loss_division_guarded false late_reply_env 2 2) as (_ & H & _).
    exact (proj1 (H _ Hin)).
  - destruct (ping_loss_division_guarded false late_reply_env 0 2) as (_ & _ & H).
    apply H. lia.
Defined.

(* ================================================================== *)
(** ** Claims on the catalog, the timing utility and the TCP probe *)

(** C4 (as the code has it). The catalog is a fixed list of exactly 13
    (name, port) entries, in this order: SSH/22, Telnet/23, SMTP/25, DNS/53,
    HTTP/80, POP3/110, IMAP/143, HTTPS/443, MySQL/3306, PostgreSQL/5432,
    Redis/6379, MongoDB/27017, RDP/3389. *)
Theorem catalog_entries :
  List.length COMMON_PORTS = 13%nat
  /\ map (fun entry => (name entry, port entry)) COMMON_PORTS
     = [ ("SSH", 22); ("Telnet", 23); ("SMTP", 25); ("DNS", 53); ("HTTP", 80);
         ("POP3", 110); ("IMAP", 143); ("HTTPS", 443); ("MySQL", 3306);
         ("PostgreSQL", 5432); ("Redis", 6379); ("MongoDB", 27017);
         ("RDP", 3389) ]%string.
Proof. split; reflexivity. Qed.

(** C4 as stated fails: the twelfth and thirteenth entries are MongoDB/27017
    and RDP/3389, not RDP/3389 and MongoDB/27017. *)
Lemma catalog_order_differs :
  map (fun entry => (name entry, port entry)) COMMON_PORTS
  <> [ ("SSH", 22); ("Telnet", 23); ("SMTP", 25); ("DNS", 53); ("HTTP", 80);
       ("POP3", 110); ("IMAP", 143); ("HTTPS", 443); ("MySQL", 3306);
       ("PostgreSQL", 5432); ("Redis", 6379); ("RDP", 3389);
       ("MongoDB", 27017) ]%string.
Proof. intros H. vm_compute in H. discriminate H. Qed.

(** C9. For two timestamps with microsecond fields in [0, 999999], the
    second not earlier than the first, the elapsed milliseconds
    (end_sec - start_sec) * 1000 + (end_usec - start_usec) / 1000, the
    division truncating, are not negative; [calculate_elapsed_ms] returns
    exactly this value when it fits in a long, and so the latency a
    successful TCP probe reports between such timestamps is not negative. *)
Theorem elapsed_ms_nonnegative (start end_ : timeval) :
  valid_usec start ->
  valid_usec end_ ->
  not_earlier start end_ ->
  0 <= elapsed_formula start end_
  /\ (elapsed_formula start end_ <= LONG_MAX ->
      calculate_elapsed_ms start end_ = elapsed_formula start end_
      /\ 0 <= calculate_elapsed_ms start end_
      /\ (forall env port timeout_sec rtt_ms,
            tcp_start_time env = start ->
            tcp_end_time env = end_ ->
            In (TcpOpen port rtt_ms)
               (printed (w_log (final_world
                                  (check_tcp_connectivity env port timeout_sec)))) ->
            0 <= rtt_ms)).
Proof.
  intros Hs He Hord.
  pose proof (elapsed_formula_nonneg start end_ Hs He Hord) as Hpos.
  split; [exact Hpos |]. intros Hfit.
  assert (Heq : calculate_elapsed_ms start end_ = elapsed_formula start end_).
  { rewrite calculate_elapsed_ms_wraps_formula by assumption.
    apply wrap_long_id. unfold in_long, LONG_MIN, LONG_MAX in *. lia. }
  split; [exact Heq | split; [lia |]].
  intros env port timeout_sec rtt_ms Hst Hen Hin.
  assert (Hrtt : rtt_ms = calculate_elapsed_ms start end_).
  { subst start end_. revert Hin.
    unfold check_tcp_connectivity. step_cmd.
    repeat case_test; simpl; intros [Hin | []]; try discriminate Hin.
    congruence. }
  lia.
Qed.

Lemma elapsed_ms_nonnegative_witness :
  valid_usec (tcp_start_time local_listener_env)
  /\ valid_usec (tcp_end_time local_listener_env)
  /\ not_earlier (tcp_start_time local_listener_env) (tcp_end_time local_listener_env)
  /\ elapsed_formula (tcp_start_time local_listener_env)
                     (tcp_end_time local_listener_env) <= LONG_MAX
  /\ 0 <= calculate_elapsed_ms (tcp_start_time local_listener_env)
                               (tcp_end_time local_listener_env)
  /\ (forall rtt_ms,
        In (TcpOpen 8080 rtt_ms)
           (printed (w_log (final_world
                              (check_tcp_connectivity local_listener_env 8080 3)))) ->
        0 <= rtt_ms).
Proof.
  assert (H1 : valid_usec (tcp_start_time local_listener_env))
    by (unfold valid_usec; simpl; lia).
  assert (H2 : valid_usec (tcp_end_time local_listener_env))
    by (unfold valid_usec; simpl; lia).
  assert (H3 : not_earlier (tcp_start_time local_listener_env)
                           (tcp_end_time local_listener_env))
    by (unfold not_earlier; simpl; lia).
  assert (H4 : elapsed_formula (tcp_start_time local_listener_env)
                               (tcp_end_time local_listener_env) <= LONG_MAX)
    by (vm_compute; discriminate).
  split; [exact H1 | split; [exact H2 | split; [exact H3 | split; [exact H4 |]]]].
  destruct (elapsed_ms_nonnegative _ _ H1 H2 H3) as (_ & H).
  destruct (H H4) as (_ & Hpos & Htcp).
  split; [exact Hpos |].
  intros rtt_ms. apply (Htcp local_listener_env 8080 3 rtt_ms eq_refl eq_refl).
Defined.

(** The probe with a port in range that does not get as far as waiting:
    no socket, an address that does not parse, or a [connect] that fails at
    once. *)
Lemma tcp_not_initiated (env : tcp_env) (port timeout_sec : Z) :
  let probe := check_tcp_connectivity env port timeout_sec in
  let verdict := printed (w_log (final_world probe)) in
  1 <= port <= 65535 ->
  (tcp_socket env < 0 -> result probe = Some 0 /\ verdict = [TcpSocketFailed])
  /\ (0 <= tcp_socket env -> tcp_inet_pton env <= 0 ->
      result probe = Some 0 /\ verdict = [TcpInvalidAddress])
  /\ (0 <= tcp_socket env -> 0 < tcp_inet_pton env ->
      tcp_connect env < 0 -> tcp_errno env <> EINPROGRESS ->
      result probe = Some 0 /\ verdict = [TcpConnectFailed (tcp_errno env)]).
Proof.
  intros probe verdict Hp.
  assert (T1 : (port <? 1) || (65535 <? port) = false) by (apply orb_false_iff; lia).
  unfold verdict, probe, check_tcp_connectivity. step_cmd. rewrite T1. simpl.
  split; [| split].
  - intros Hs. replace (tcp_socket env <? 0) with true by lia. simpl. auto.
  - intros Hs Ha. replace (tcp_socket env <? 0) with false by lia. simpl.
    replace (tcp_inet_pton env <=? 0) with true by lia. simpl. auto.
  - intros Hs Ha Hc He. replace (tcp_socket env <? 0) with false by lia. simpl.
    replace (tcp_inet_pton env <=? 0) with false by lia. simpl.
    replace (tcp_connect env <? 0) with true by lia.
    replace (tcp_errno env =? EINPROGRESS) with false by lia. simpl. auto.
Qed.

(** Everything a successful probe does, in order: the start time is read
    first, the end time once the socket is known to be ready and free of
    error. *)
Lemma tcp_open_log (env : tcp_env) (port timeout_sec : Z) :
  tcp_initiated env port -> 0 < tcp_select env -> tcp_so_error env = 0 ->
  w_log (final_world (check_tcp_connectivity env port timeout_sec))
  = [ EvGettimeofday (tcp_start_time env);
      EvSocket (tcp_socket env);
      EvFcntl (tcp_socket env); EvFcntl (tcp_socket env);
      EvConnect (tcp_socket env) port (tcp_connect env);
      EvSelect (tcp_socket env + 1) (tcp_select env);
      EvGetsockopt (tcp_socket env) 0;
      EvGettimeofday (tcp_end_time env);
      EvPrint (TcpOpen port (calculate_elapsed_ms (tcp_start_time env)
                                                  (tcp_end_time env)));
      EvClose (tcp_socket env) ].
Proof.
  intros Hi Hsel Herr. destruct (tcp_initiated_tests env port Hi) as (T1 & T2 & T3 & T4).
  unfold check_tcp_connectivity. step_cmd.
  rewrite T1; simpl. rewrite T2; simpl. rewrite T3; simpl. rewrite T4; simpl.
  replace (tcp_select env <=? 0) with false by lia. simpl.
  rewrite Herr. simpl. reflexivity.
Qed.

(** The probe succeeds in one case only. *)
Lemma tcp_success_iff (env : tcp_env) (port timeout_sec : Z) :
  let probe := check_tcp_connectivity env port timeout_sec in
  (result probe = Some 1
   <-> tcp_initiated env port /\ 0 < tcp_select env /\ tcp_so_error env = 0)
  /\ (result probe = Some 1 \/ result probe = Some 0).
Proof.
  intros probe.
  assert (Hno : result probe = Some 0 ->
                (result probe = Some 1
                 <-> tcp_initiated env port /\ 0 < tcp_select env /\ tcp_so_error env = 0)
                -> (result probe = Some 1
                    <-> tcp_initiated env port /\ 0 < tcp_select env
                        /\ tcp_so_error env = 0)
                   /\ (result probe = Some 1 \/ result probe = Some 0))
    by (intros H0 Hiff; split; [exact Hiff | right; exact H0]).
  destruct (Z_lt_le_dec port 1) as [Hp1 | Hp1].
  { destruct (tcp_invalid_port env port timeout_sec (or_introl Hp1)) as (R & _).
    fold probe in R. apply Hno; [exact R |]. rewrite R. unfold tcp_initiated.
    split; [discriminate | lia]. }
  destruct (Z_lt_le_dec 65535 port) as [Hp2 | Hp2].
  { destruct (tcp_invalid_port env port timeout_sec (or_intror Hp2)) as (R & _).
    fold probe in R. apply Hno; [exact R |]. rewrite R. unfold tcp_initiated.
    split; [discriminate | lia]. }
  destruct (tcp_not_initiated env port timeout_sec (conj Hp1 Hp2)) as (F1 & F2 & F3).
  fold probe in F1, F2, F3.
  destruct (Z_lt_le_dec (tcp_socket env) 0) as [Hs | Hs].
  { destruct (F1 Hs) as (R & _). apply Hno; [exact R |]. rewrite R.
    unfold tcp_initiated. split; [discriminate | lia]. }
  destruct (Z_lt_le_dec 0 (tcp_inet_pton env)) as [Ha | Ha].
  2:{ destruct (F2 Hs Ha) as (R & _). apply Hno; [exact R |]. rewrite R.
      unfold tcp_initiated. split; [discriminate | lia]. }
  assert (Hcases : tcp_initiated env port
                   \/ (tcp_connect env < 0 /\ tcp_errno env <> EINPROGRESS)).
  { unfold tcp_initiated.
    destruct (Z_lt_le_dec (tcp_connect env) 0) as [Hc | Hc]; [| left; lia].
    destruct (Z.eq_dec (tcp_errno env) EINPROGRESS) as [He | He]; [left; lia | right; lia]. }
  destruct Hcases as [Hi | (Hc & He)].
  2:{ destruct (F3 Hs Ha Hc He) as (R & _). apply Hno; [exact R |]. rewrite R.
      unfold tcp_initiated. split; [discriminate | lia]. }
  destruct (Z_lt_le_dec 0 (tcp_select env)) as [Hsel | Hsel].
  2:{ destruct (tcp_timeout env port timeout_sec Hi Hsel) as (R & _).
      fold probe in R. apply Hno; [exact R |]. rewrite R.
      split; [discriminate | lia]. }
  destruct (Z.eq_dec (tcp_so_error env) 0) as [Herr | Herr].
  - destruct (tcp_open env port timeout_sec Hi Hsel Herr) as (R & _).
    fold probe in R. split; [| left; exact R]. rewrite R.
    split; [intros _; auto | reflexivity].
  - destruct (tcp_refused env port timeout_sec Hi Hsel Herr) as (R & _).
    fold probe in R. apply Hno; [exact R |]. rewrite R.
    split; [discriminate | intros (_ & _ & H); contradiction].
Qed.

(** C6. The TCP probe returns 0 at once, before any socket call, for a port
    outside [1, 65535].  With a port in range it returns 0 with a verdict of
    its own when the socket cannot be created, when the address is invalid
    and when [connect] fails at once.  Once the connection is initiated, it
    reports a timeout and returns 0 when the wait ends with no readiness; when
    the socket is ready it reports OPEN and returns 1 if the pending error is
    zero, and reports the failure with the pending error and returns 0
    otherwise.  The latency reported with OPEN is taken between the time read
    at the start of the probe and the time read once the socket is ready and
    free of error: whole seconds times 1000 plus the difference of the
    microsecond fields divided by 1000.  The probe returns 1 in the OPEN case
    and in no other, and 0 in every other. *)
Theorem tcp_probe_classification (env : tcp_env) (port timeout_sec : Z) :
  let probe := check_tcp_connectivity env port timeout_sec in
  let verdict := printed (w_log (final_world probe)) in
  let start_time := tcp_start_time env in
  let end_time := tcp_end_time env in
  (port < 1 \/ 65535 < port ->
   result probe = Some 0
   /\ w_log (final_world probe)
      = [EvGettimeofday start_time; EvPrint (TcpInvalidPort port)])
  /\ (1 <= port <= 65535 ->
      (tcp_socket env < 0 -> result probe = Some 0 /\ verdict = [TcpSocketFailed])
      /\ (0 <= tcp_socket env -> tcp_inet_pton env <= 0 ->
          result probe = Some 0 /\ verdict = [TcpInvalidAddress])
      /\ (0 <= tcp_socket env -> 0 < tcp_inet_pton env ->
          tcp_connect env < 0 -> tcp_errno env <> EINPROGRESS ->
          result probe = Some 0 /\ verdict = [TcpConnectFailed (tcp_errno env)]))
  /\ (tcp_initiated env port ->
      (tcp_select env <= 0 -> result probe = Some 0 /\ verdict = [TcpTimeout])
      /\ (0 < tcp_select env -> tcp_so_error env = 0 ->
          result probe = Some 1
          /\ verdict = [TcpOpen port (calculate_elapsed_ms start_time end_time)]
          /\ w_log (final_world probe)
             = [ EvGettimeofday start_time;
                 EvSocket (tcp_socket env);
                 EvFcntl (tcp_socket env); EvFcntl (tcp_socket env);
                 EvConnect (tcp_socket env) port (tcp_connect env);
                 EvSelect (tcp_socket env + 1) (tcp_select env);
                 EvGetsockopt (tcp_socket env) 0;
                 EvGettimeofday end_time;
                 EvPrint (TcpOpen port (calculate_elapsed_ms start_time end_time));
                 EvClose (tcp_socket env) ]
          /\ (valid_usec start_time -> valid_usec end_time ->
              in_long ((tv_sec end_time - tv_sec start_time) * 1000
                       + Z.quot (tv_usec end_time - tv_usec start_time) 1000) ->
              calculate_elapsed_ms start_time end_time
              = (tv_sec end_time - tv_sec start_time) * 1000
                + Z.quot (tv_usec end_time - tv_usec start_time) 1000))
      /\ (0 < tcp_select env -> tcp_so_error env <> 0 ->
          result probe = Some 0 /\ verdict = [TcpRefused (tcp_so_error env)]))
  /\ (result probe = Some 1
      <-> tcp_initiated env port /\ 0 < tcp_select env /\ tcp_so_error env = 0)
  /\ (result probe = Some 1 \/ result probe = Some 0)
  /\ (result probe = Some 1 <-> exists rtt_ms, verdict = [TcpOpen port rtt_ms]).
Proof.
  intros probe verdict start_time end_time.
  split; [apply tcp_invalid_port |].
  split; [apply tcp_not_initiated |].
  split.
  { intros Hi. split; [| split].
    - apply tcp_timeout. exact Hi.
    - intros Hsel Herr.
      destruct (tcp_open env port timeout_sec Hi Hsel Herr) as (R & V).
      split; [exact R |]. split; [exact V |].
      split; [apply tcp_open_log; assumption |].
      intros Hs He Hfit.
      rewrite calculate_elapsed_ms_wraps_formula by assumption.
      apply wrap_long_id. exact Hfit.
    - apply tcp_refused. exact Hi. }
  destruct (tcp_success_iff env port timeout_sec) as (Hiff & Hres).
  split; [exact Hiff |]. split; [exact Hres |].
  apply tcp_success_iff_open.
Qed.

Lemma tcp_probe_classification_witness :
  (result (check_tcp_connectivity local_listener_env 0 3) = Some 0)
  /\ (result (check_tcp_connectivity no_route_env 22 5) = Some 0
      /\ printed (w_log (final_world (check_tcp_connectivity no_route_env 22 5)))
         = [TcpConnectFailed 101])
  /\ (result (check_tcp_connectivity filtered_env 8080 3) = Some 0
      /\ printed (w_log (final_world (check_tcp_connectivity filtered_env 8080 3)))
         = [TcpTimeout])
  /\ (result (check_tcp_connectivity local_listener_env 8080 3) = Some 1
      /\ printed (w_log (final_world (check_tcp_connectivity local_listener_env 8080 3)))
         = [TcpOpen 8080 3])
  /\ (result (check_tcp_connectivity refused_env 8080 3) = Some 0
      /\ printed (w_log (final_world (check_tcp_connectivity refused_env 8080 3)))
         = [TcpRefused 111]).
Proof.
  assert (Hi : forall env, tcp_socket env = 3 -> tcp_inet_pton env = 1 ->
                           tcp_errno env = EINPROGRESS -> tcp_initiated env 8080).
  { intros env H1 H2 H3. unfold tcp_initiated. rewrite H1, H2, H3. lia. }
  split; [| split; [| split; [| split]]].
  - destruct (tcp_probe_classification local_listener_env 0 3) as (H & _).
    apply H. lia.
  - destruct (tcp_probe_classification no_route_env 22 5) as (_ & H & _).
    destruct (H ltac:(lia)) as (_ & _ & Hc).
    apply Hc; simpl; try lia. unfold EINPROGRESS. lia.
  - destruct (tcp_probe_classification filtered_env 8080 3) as (_ & _ & H & _).
    destruct (H (Hi filtered_env (eq_refl 3) (eq_refl 1) (eq_refl EINPROGRESS))) as (Ht & _).
    apply Ht. simpl. lia.
  - destruct (tcp_probe_classification local_listener_env 8080 3) as (_ & _ & H & _).
    destruct (H (Hi local_listener_env (eq_refl 3) (eq_refl 1) (eq_refl EINPROGRESS)))
      as (_ & Ho & _).
    destruct Ho as (R & V & _ & L); [simpl; lia | reflexivity |].
    split; [exact R |]. rewrite V. rewrite L.
    + reflexivity.
    + unfold valid_usec. simpl. lia.
    + unfold valid_usec. simpl. lia.
    + vm_compute. split; discriminate.
  - destruct (tcp_probe_classification refused_env 8080 3) as (_ & _ & H & _).
    destruct (H (Hi refused_env (eq_refl 3) (eq_refl 1) (eq_refl EINPROGRESS)))
      as (_ & _ & Hr).
    apply Hr; simpl; lia.
Defined.

(* ================================================================== *)
(** ** Service discovery scanner *)

Lemma array_set_at {A : Type} (pre rest : list A) (x v : A) :
  array_set (pre ++ x :: rest) (List.length pre) v = pre ++ v :: rest.
Proof.
  induction pre as [| y pre IH]; simpl; [reflexivity |]. rewrite IH. reflexivity.
Qed.

Lemma nth_at {A : Type} (pre rest : list A) (x d : A) :
  nth (List.length pre) (pre ++ x :: rest) d = x.
Proof.
  induction pre as [| y pre IH]; simpl; [reflexivity | exact IH].
Qed.

Lemma probed_socket env i : probed env i = true -> 0 <= pe_socket (scan_port env i).
Proof.
  unfold probed. intros H. apply andb_true_iff in H. destruct H as [H _].
  apply negb_true_iff in H. lia.
Qed.

Section ScanLoops.

Variable env : scan_env.

(** One turn of the first loop stores the pending socket of the entry, or
    -1, at its index. *)
Lemma scan_initiate_run pre x rest w :
  scan_initiate env (List.length pre) (pre ++ x :: rest) w
  = (Next (pre ++ pending_socket env (List.length pre) :: rest),
     mk_world (pending_sockets env [List.length pre] ++ w_open w)
              (w_log w ++ initiate_events env (List.length pre))).
Proof.
  unfold scan_initiate, pending_socket, pending_sockets, initiate_events, probed.
  unfold bind, sys_socket, sys_close, print, emit, ret. cbv zeta.
  cbn [w_open w_log filter map].
  rewrite !array_set_at, !nth_at.
  destruct (pe_socket (scan_port env (List.length pre)) <? 0) eqn:Es;
    cbn [negb andb app filter map w_open w_log].
  - rewrite <- ?app_assoc. reflexivity.
  - destruct ((pe_connect (scan_port env (List.length pre)) <? 0)
              && negb (pe_errno (scan_port env (List.length pre)) =? EINPROGRESS)) eqn:Ec;
      cbn [negb andb app filter map w_open w_log].
    + rewrite release_head. rewrite <- ?app_assoc. reflexivity.
    + rewrite <- ?app_assoc. reflexivity.
Qed.

Lemma pending_sockets_cons i l :
  pending_sockets env (i :: l) = pending_sockets env [i] ++ pending_sockets env l.
Proof.
  unfold pending_sockets. cbn [filter]. destruct (probed env i); reflexivity.
Qed.

(** The first loop over the entries [k], ..., [k + m - 1]. *)
Lemma scan_initiate_loop m :
  forall k pre rest w,
    List.length pre = k ->
    List.length rest = m ->
    for_each (seq k m) (scan_initiate env) (pre ++ rest) w
    = (Next (pre ++ map (pending_socket env) (seq k m)),
       mk_world (rev (pending_sockets env (seq k m)) ++ w_open w)
                (w_log w ++ flat_map (initiate_events env) (seq k m))).
Proof.
  induction m as [| m IH]; intros k pre rest w Hpre Hrest.
  - destruct rest; [| discriminate Hrest]. simpl. unfold ret.
    rewrite !app_nil_r. destruct w; reflexivity.
  - destruct rest as [| x rest]; [discriminate Hrest |].
    cbn [seq for_each]. unfold bind at 1. subst k. rewrite scan_initiate_run.
    replace (pre ++ pending_socket env (List.length pre) :: rest)
      with ((pre ++ [pending_socket env (List.length pre)]) ++ rest)
      by (rewrite <- app_assoc; reflexivity).
    rewrite (IH (S (List.length pre)));
      [| rewrite length_app; simpl; lia | simpl in Hrest; lia].
    cbn [w_open w_log map flat_map].
    rewrite (pending_sockets_cons (List.length pre) (seq (S (List.length pre)) m)).
    rewrite rev_app_distr. rewrite <- !app_assoc.
    replace (rev (pending_sockets env [List.length pre]))
      with (pending_sockets env [List.length pre])
      by (unfold pending_sockets; cbn [filter];
          destruct (probed env (List.length pre)); reflexivity).
    reflexivity.
Qed.

(** What the third loop does to the descriptor table. *)
Lemma scan_classify_loop sockets l :
  (forall i, In i l -> nth i sockets 0 = pending_socket env i) ->
  forall open_count w,
    0 <= open_count ->
    open_count + Z.of_nat (List.length l) <= INT_MAX ->
    for_each l (scan_classify env sockets) open_count w
    = (Next (open_count
             + Z.of_nat (List.length (filter (is_open env) (filter (probed env) l)))),
       mk_world (fold_left (fun table fd => release fd table)
                           (pending_sockets env l) (w_open w))
                (w_log w ++ flat_map (classify_events env) l)).
Proof.
  induction l as [| i l IH]; intros Hnth open_count w H0 Hmax.
  - simpl. unfold ret. rewrite app_nil_r, Z.add_0_r. destruct w; reflexivity.
  - cbn [for_each]. unfold bind at 1.
    assert (Hi : nth i sockets 0 = pending_socket env i) by (apply Hnth; left; reflexivity).
    assert (Hl : forall j, In j l -> nth j sockets 0 = pending_socket env j)
      by (intros j Hj; apply Hnth; right; exact Hj).
    cbn [List.length] in Hmax.
    unfold scan_classify at 1. rewrite Hi. unfold pending_socket.
    rewrite (pending_sockets_cons i l). unfold pending_sockets at 1.
    cbn [filter flat_map]. unfold classify_events at 1.
    destruct (probed env i) eqn:Ep.
    + pose proof (probed_socket env i Ep) as Hfd.
      replace (pe_socket (scan_port env i) <? 0) with false by lia.
      unfold bind, emit, print, sys_close, ret. cbn [w_open w_log].
      change ((pe_so_error (scan_port env i) =? 0) && pe_writable (scan_port env i))
        with (is_open env i).
      destruct (is_open env i) eqn:Eo;
        unfold bind, emit, print, sys_close, ret;
        cbn [w_open w_log filter map app fold_left]; rewrite ?Eo.
      * rewrite (IH Hl); cbn [w_open w_log];
          try (unfold wrap_int, INT_MAX in *; rewrite Z.mod_small by lia; lia).
        f_equal.
        -- f_equal. unfold wrap_int, INT_MAX in *. rewrite Z.mod_small by lia.
           cbn [List.length]. lia.
        -- f_equal. rewrite <- ?app_assoc. reflexivity.
      * rewrite (IH Hl); cbn [w_open w_log]; try lia.
        f_equal. f_equal. rewrite <- ?app_assoc. reflexivity.
    + replace (-1 <? 0) with true by reflexivity. unfold ret.
      rewrite (IH Hl) by lia. cbn [map app fold_left]. reflexivity.
Qed.

(** Closing, one after the other, the sockets that are pending gives the
    table back. *)
Lemma release_all fds :
  forall table base,
    Permutation table (fds ++ base) ->
    Permutation (fold_left (fun table fd => release fd table) fds table) base.
Proof.
  induction fds as [| fd fds IH]; intros table base Hp.
  - exact Hp.
  - cbn [fold_left]. apply IH. apply release_Permutation. exact Hp.
Qed.

End ScanLoops.

Lemma nth_map_seq {A : Type} (f : nat -> A) (n i : nat) (d : A) :
  (i < n)%nat -> nth i (map f (seq 0 n)) d = f i.
Proof.
  intros Hi. rewrite (nth_indep _ d (f 0%nat)) by (rewrite length_map, length_seq; lia).
  rewrite map_nth. rewrite seq_nth by lia. reflexivity.
Qed.

Lemma classified_app log1 log2 :
  classified (log1 ++ log2) = classified log1 ++ classified log2.
Proof. unfold classified. rewrite printed_app. apply flat_map_app. Qed.

Lemma reported_ports_app log1 log2 :
  reported_ports (log1 ++ log2) = reported_ports log1 ++ reported_ports log2.
Proof. unfold reported_ports. rewrite printed_app. apply flat_map_app. Qed.

Lemma filter_split {A : Type} (f : A -> bool) (l : list A) :
  Permutation (filter (fun x => negb (f x)) l ++ filter f l) l.
Proof.
  induction l as [| x l IH]; [reflexivity |].
  cbn [filter]. destruct (f x); cbn [negb app].
  - rewrite <- Permutation_middle. apply perm_skip. exact IH.
  - apply perm_skip. exact IH.
Qed.

Section ScanRun.

Variable env : scan_env.
Variable timeout_sec : Z.

(** The sockets array after the first loop, and the count of open ports
    after the third. *)
Let sockets := map (pending_socket env) catalog_indices.
Let open_count :=
  Z.of_nat (List.length (filter (is_open env) (filter (probed env) catalog_indices))).

Lemma scan_run w :
  0 < scan_inet_pton env ->
  run (scan_services_in_range env timeout_sec) w
  = (Some tt,
     mk_world
       (fold_left (fun table fd => release fd table)
          (pending_sockets env catalog_indices)
          (rev (pending_sockets env catalog_indices) ++ w_open w))
       (w_log w
        ++ flat_map (initiate_events env) catalog_indices
        ++ [EvSelect (scan_max_fd sockets + 1) (scan_select env)]
        ++ flat_map (classify_events env) catalog_indices
        ++ [EvPrint (ScanSummary (Z.of_nat NUM_COMMON_PORTS) open_count
                       (wrap_u64 (Z.of_nat NUM_COMMON_PORTS - open_count)))])).
Proof.
  intros Ha. unfold run, scan_services_in_range.
  replace (scan_inet_pton env <=? 0) with false by lia.
  unfold bind at 1.
  assert (Hloop := scan_initiate_loop env NUM_COMMON_PORTS 0 []
                     (map (scan_stack env) catalog_indices) w eq_refl).
  rewrite !app_nil_l in Hloop. fold catalog_indices in Hloop.
  rewrite Hloop
    by (unfold catalog_indices; rewrite length_map, length_seq; reflexivity).
  fold sockets.
  unfold bind at 1. unfold emit at 1. cbn [w_open w_log].
  unfold bind at 1.
  rewrite (scan_classify_loop env sockets catalog_indices).
  - fold open_count. unfold bind, print, emit, ret. cbn [w_open w_log].
    rewrite Z.add_0_l. rewrite <- ?app_assoc. reflexivity.
  - intros i Hi. unfold sockets, catalog_indices in *.
    apply in_seq in Hi. apply nth_map_seq. lia.
  - lia.
  - unfold catalog_indices. rewrite length_seq. vm_compute. discriminate.
Qed.

Lemma scan_releases_sockets w :
  Permutation (w_open (snd (run (scan_services_in_range env timeout_sec) w))) (w_open w).
Proof.
  destruct (Z_lt_le_dec 0 (scan_inet_pton env)) as [Ha | Ha].
  - rewrite scan_run by exact Ha. cbn [snd w_open].
    apply release_all. apply Permutation_app_tail. symmetry. apply Permutation_rev.
  - unfold run, scan_services_in_range.
    replace (scan_inet_pton env <=? 0) with true by lia.
    step_cmd. reflexivity.
Qed.

Lemma initiate_reports l :
  classified (flat_map (initiate_events env) l) = []
  /\ reported_ports (flat_map (initiate_events env) l)
     = map (fun i => port (common_port i)) (filter (fun i => negb (probed env i)) l).
Proof.
  induction l as [| i l (IH1 & IH2)]; [split; reflexivity |].
  cbn [flat_map filter]. rewrite classified_app, reported_ports_app, IH1, IH2.
  unfold initiate_events, probed.
  destruct (pe_socket (scan_port env i) <? 0); cbn [negb andb];
    [split; reflexivity |].
  destruct ((pe_connect (scan_port env i) <? 0)
            && negb (pe_errno (scan_port env i) =? EINPROGRESS));
    split; reflexivity.
Qed.

Lemma classify_reports l :
  classified (flat_map (classify_events env) l)
  = map common_port (filter (probed env) l)
  /\ reported_ports (flat_map (classify_events env) l)
     = map (fun i => port (common_port i)) (filter (probed env) l).
Proof.
  induction l as [| i l (IH1 & IH2)]; [split; reflexivity |].
  cbn [flat_map filter]. rewrite classified_app, reported_ports_app, IH1, IH2.
  unfold classify_events.
  destruct (probed env i); [| split; reflexivity].
  destruct (is_open env i); split; reflexivity.
Qed.

Lemma scan_reports :
  0 < scan_inet_pton env ->
  classified (w_log (final_world (scan_services_in_range env timeout_sec)))
  = map common_port (filter (probed env) catalog_indices)
  /\ reported_ports (w_log (final_world (scan_services_in_range env timeout_sec)))
     = map (fun i => port (common_port i))
           (filter (fun i => negb (probed env i)) catalog_indices
            ++ filter (probed env) catalog_indices).
Proof.
  intros Ha. unfold final_world. rewrite scan_run by exact Ha.
  cbn [snd w_log initial_world].
  destruct (initiate_reports catalog_indices) as (I1 & I2).
  destruct (classify_reports catalog_indices) as (C1 & C2).
  rewrite !classified_app, !reported_ports_app.
  rewrite I1, I2, C1, C2. split.
  - simpl. rewrite app_nil_r. reflexivity.
  - simpl. rewrite app_nil_r. rewrite map_app. reflexivity.
Qed.

End ScanRun.

(* ================================================================== *)
(** ** Claims on the scanner and on the release of sockets *)

(** C5 (as the code has it). In a scan of a valid address, the entries
    classified OPEN or CLOSED/FILTERED are, in catalog order and once each,
    those whose socket was created and whose connect did not fail at once;
    the other entries get no such classification but one line of their own
    (socket creation failed, or connection error), so that every catalog
    entry is reported exactly once.  When the connection to every entry is
    initiated, the 13 entries are classified, once each, in catalog order. *)
Theorem scan_classifies_initiated_entries (env : scan_env) (timeout_sec : Z) :
  0 < scan_inet_pton env ->
  let log := w_log (final_world (scan_services_in_range env timeout_sec)) in
  classified log = map common_port (filter (probed env) catalog_indices)
  /\ NoDup (classified log)
  /\ Permutation (reported_ports log) (map port COMMON_PORTS)
  /\ ((forall i, (i < NUM_COMMON_PORTS)%nat -> probed env i = true) ->
      classified log = COMMON_PORTS).
Proof.
  intros Ha log.
  destruct (scan_reports env timeout_sec Ha) as (Hc & Hp).
  fold log in Hc, Hp.
  split; [exact Hc | split; [| split]].
  - rewrite Hc.
    assert (Hinj : forall l, NoDup l -> incl l catalog_indices ->
                             NoDup (map common_port l)).
    { induction l as [| i l IH]; intros Hnd Hin; [constructor |].
      inversion Hnd as [| ? ? Hni Hnd']; subst. cbn [map]. constructor.
      - intros Hmem. apply in_map_iff in Hmem. destruct Hmem as (j & Hj & Hjl).
        assert (Hji : j = i).
        { assert (Hi : In i catalog_indices) by (apply Hin; left; reflexivity).
          assert (Hj' : In j catalog_indices) by (apply Hin; right; exact Hjl).
          revert Hj. vm_compute in Hi, Hj'.
          repeat (destruct Hi as [Hi | Hi]; [subst i |]); try destruct Hi;
            repeat (destruct Hj' as [Hj' | Hj']; [subst j |]); try destruct Hj';
            vm_compute; intros Hj; try reflexivity; discriminate Hj. }
        subst j. exact (Hni Hjl).
      - apply IH; [exact Hnd' |]. intros j Hj. apply Hin. right. exact Hj. }
    apply Hinj.
    + apply NoDup_filter. apply seq_NoDup.
    + intros i Hi. apply filter_In in Hi. apply Hi.
  - rewrite Hp.
    replace (map port COMMON_PORTS)
      with (map (fun i => port (common_port i)) catalog_indices) by reflexivity.
    apply Permutation_map. apply filter_split.
  - intros Hall. rewrite Hc.
    replace (filter (probed env) catalog_indices) with catalog_indices; [reflexivity |].
    symmetry. apply forallb_filter_id. apply forallb_forall.
    intros i Hi. apply Hall. unfold catalog_indices in Hi. apply in_seq in Hi. lia.
Qed.

Lemma scan_classifies_initiated_entries_witness :
  0 < scan_inet_pton web_host_env
  /\ classified (w_log (final_world (scan_services_in_range web_host_env 3)))
     = COMMON_PORTS.
Proof.
  assert (Ha : 0 < scan_inet_pton web_host_env) by (simpl; lia).
  split; [exact Ha |].
  destruct (scan_classifies_initiated_entries web_host_env 3 Ha) as (_ & _ & _ & H).
  apply H. intros i Hi. rewrite NUM_COMMON_PORTS_13 in Hi.
  do 13 (destruct i as [| i]; [reflexivity |]). lia.
Defined.

(** C5 as stated fails: with no route to the target every connect fails at
    once; the 13 entries each get a connection-error line and none is
    classified OPEN or CLOSED/FILTERED. *)
Lemma scan_unreachable_network_classifies_nothing :
  let log := w_log (final_world (scan_services_in_range unreachable_network_env 3)) in
  classified log = []
  /\ List.length (classified log) <> 13%nat
  /\ reported_ports log = map port COMMON_PORTS.
Proof.
  repeat split; try (vm_compute; reflexivity).
  vm_compute. intros H. discriminate H.
Qed.

(** Whatever the system answers, the ICMP probe leaves no descriptor
    open. *)
Lemma icmp_releases_socket big_endian env packet_count timeout_sec w :
  w_open (snd (run (perform_icmp_ping big_endian env packet_count timeout_sec) w))
  = w_open w.
Proof.
  destruct (Z_lt_le_dec (icmp_socket env) 0) as [Hs | Hs].
  { unfold run, perform_icmp_ping. step_cmd.
    replace (icmp_socket env <? 0) with true by lia. reflexivity. }
  destruct (Z_lt_le_dec 0 (icmp_inet_pton env)) as [Ha | Ha].
  2:{ unfold run, perform_icmp_ping. step_cmd.
      replace (icmp_socket env <? 0) with false by lia. simpl.
      replace (icmp_inet_pton env <=? 0) with true by lia. simpl.
      rewrite Z.eqb_refl. reflexivity. }
  rewrite perform_icmp_ping_run by assumption. cbv zeta.
  destruct (0 <? success_count (ping_vars_end env packet_count));
    [destruct (packet_count =? 0) |]; reflexivity.
Qed.

(** C8. In the TCP probe, the ICMP probe and the scanner, every socket that
    was created is closed by the time the operation returns, on every path:
    whatever the system answers and whatever the arguments, the table of open
    descriptors holds at the end what it held at the start. *)
Theorem sockets_released :
  (forall env port timeout_sec w,
      w_open (snd (run (check_tcp_connectivity env port timeout_sec) w)) = w_open w)
  /\ (forall big_endian env packet_count timeout_sec w,
         w_open (snd (run (perform_icmp_ping big_endian env packet_count timeout_sec) w))
         = w_open w)
  /\ (forall env timeout_sec w,
         Permutation
           (w_open (snd (run (scan_services_in_range env timeout_sec) w)))
           (w_open w))
  /\ (forall env timeout_sec,
         w_open (final_world (scan_services_in_range env timeout_sec)) = []).
Proof.
  split; [| split; [| split]].
  - intros. apply tcp_releases_socket.
  - intros. apply icmp_releases_socket.
  - intros. apply scan_releases_sockets.
  - intros env timeout_sec. apply Permutation_nil. symmetry.
    apply (scan_releases_sockets env timeout_sec initial_world).
Qed.

(* ================================================================== *)
(** ** More on the timing utility *)

Section TimingMore.

Variables a b : timeval.
Hypothesis Ha : valid_usec a.
Hypothesis Hb : valid_usec b.

(** The result is the formula's value whenever that value is a [long]. *)
Lemma calculate_elapsed_ms_exact :
  in_long (elapsed_formula a b) -> calculate_elapsed_ms a b = elapsed_formula a b.
Proof.
  intros Hfit. rewrite calculate_elapsed_ms_wraps_formula by assumption.
  apply wrap_long_id. exact Hfit.
Qed.

Lemma elapsed_formula_error :
  - 999 <= elapsed_us a b - 1000 * elapsed_formula a b <= 999.
Proof.
  unfold elapsed_us, elapsed_formula, valid_usec in *.
  set (d := tv_usec b - tv_usec a).
  assert (Hd : - 999999 <= d <= 999999) by (unfold d; lia).
  Z.quot_rem_to_equations. lia.
Qed.

End TimingMore.

(** X1. The milliseconds [calculate_elapsed_ms] returns are within 999
    microseconds of the time that really elapsed, in either direction: only
    the microsecond difference is truncated, so the result falls short when
    the microsecond field grew and overshoots when it went down (one
    microsecond across a second boundary counts as one millisecond). *)
Theorem elapsed_ms_within_one_ms (start end_ : timeval) :
  valid_usec start ->
  valid_usec end_ ->
  in_long (elapsed_formula start end_) ->
  - 999 <= elapsed_us start end_ - 1000 * calculate_elapsed_ms start end_ <= 999
  /\ (tv_usec start <= tv_usec end_ ->
      0 <= elapsed_us start end_ - 1000 * calculate_elapsed_ms start end_)
  /\ (tv_usec end_ < tv_usec start ->
      elapsed_us start end_ - 1000 * calculate_elapsed_ms start end_ <= 0).
Proof.
  intros Hs He Hfit.
  rewrite (calculate_elapsed_ms_exact start end_ Hs He Hfit).
  split; [apply elapsed_formula_error; assumption |].
  unfold elapsed_us, elapsed_formula.
  split; intros Hord; Z.quot_rem_to_equations; lia.
Qed.

Lemma elapsed_ms_within_one_ms_witness :
  valid_usec (mk_timeval 5 999999)
  /\ valid_usec (mk_timeval 6 0)
  /\ in_long (elapsed_formula (mk_timeval 5 999999) (mk_timeval 6 0))
  /\ - 999 <= elapsed_us (mk_timeval 5 999999) (mk_timeval 6 0)
              - 1000 * calculate_elapsed_ms (mk_timeval 5 999999) (mk_timeval 6 0)
     <= 999.
Proof.
  assert (H1 : valid_usec (mk_timeval 5 999999)) by (unfold valid_usec; simpl; lia).
  assert (H2 : valid_usec (mk_timeval 6 0)) by (unfold valid_usec; simpl; lia).
  assert (H3 : in_long (elapsed_formula (mk_timeval 5 999999) (mk_timeval 6 0)))
    by (vm_compute; split; discriminate).
  split; [exact H1 | split; [exact H2 | split; [exact H3 |]]].
  destruct (elapsed_ms_within_one_ms _ _ H1 H2 H3) as (H & _).
  exact H.
Defined.

(** X2. Swapping the two timestamps negates the result, and measuring from
    [a] to [c] differs by at most one millisecond from the sum of the
    measures from [a] to [b] and from [b] to [c]. *)
Theorem elapsed_ms_composes (a b c : timeval) :
  valid_usec a -> valid_usec b -> valid_usec c ->
  in_long (elapsed_formula a b) ->
  in_long (elapsed_formula b a) ->
  in_long (elapsed_formula b c) ->
  in_long (elapsed_formula a c) ->
  calculate_elapsed_ms b a = - calculate_elapsed_ms a b
  /\ - 1 <= calculate_elapsed_ms a c
            - (calculate_elapsed_ms a b + calculate_elapsed_ms b c) <= 1.
Proof.
  intros Ha Hb Hc Fab Fba Fbc Fac.
  rewrite !calculate_elapsed_ms_exact by assumption.
  unfold elapsed_formula, valid_usec in *.
  split.
  - replace (tv_usec a - tv_usec b) with (- (tv_usec b - tv_usec a)) by lia.
    rewrite Z.quot_opp_l by lia. lia.
  - Z.quot_rem_to_equations. lia.
Qed.

Lemma elapsed_ms_composes_witness :
  calculate_elapsed_ms (mk_timeval 6 0) (mk_timeval 5 999999)
  = - calculate_elapsed_ms (mk_timeval 5 999999) (mk_timeval 6 0)
  /\ - 1 <= calculate_elapsed_ms (mk_timeval 5 999999) (mk_timeval 6 999999)
            - (calculate_elapsed_ms (mk_timeval 5 999999) (mk_timeval 6 0)
               + calculate_elapsed_ms (mk_timeval 6 0) (mk_timeval 6 999999)) <= 1.
Proof.
  apply (elapsed_ms_composes (mk_timeval 5 999999) (mk_timeval 6 0) (mk_timeval 6 999999));
    try (unfold valid_usec; simpl; lia); vm_compute; split; discriminate.
Defined.

(* ================================================================== *)
(** ** More on the checksum *)

Lemma list_pair_ind {A : Type} (P : list A -> Prop) :
  P [] ->
  (forall x, P [x]) ->
  (forall x y l, P l -> P (x :: y :: l)) ->
  forall l, P l.
Proof.
  intros H0 H1 H2. fix IH 1.
  intros [| x [| y l]]; [exact H0 | apply H1 | apply H2, IH].
Qed.

Lemma u8_inj b1 b2 : u8 b1 = u8 b2 -> b1 = b2.
Proof.
  intros H. rewrite <- (byte_of_Z_u8 b1), <- (byte_of_Z_u8 b2), H. reflexivity.
Qed.

Lemma load_u16_inj big_endian a0 a1 b0 b1 :
  load_u16 big_endian a0 a1 = load_u16 big_endian b0 b1 -> a0 = b0 /\ a1 = b1.
Proof.
  pose proof (u8_range a0). pose proof (u8_range a1).
  pose proof (u8_range b0). pose proof (u8_range b1).
  unfold load_u16. intros Heq.
  assert (u8 a0 = u8 b0 /\ u8 a1 = u8 b1) as [E0 E1] by (destruct big_endian; lia).
  split; apply u8_inj; assumption.
Qed.

Section ChecksumMore.

Variable big_endian : bool.

(** Every pair of bytes adds at most 65535. *)
Lemma word_total_bound buf :
  2 * word_total big_endian buf <= 65535 * (Z.of_nat (List.length buf) + 1).
Proof.
  induction buf as [| x | x y l IH] using list_pair_ind.
  - simpl. lia.
  - cbn [word_total List.length]. pose proof (u8_range x). lia.
  - cbn [word_total List.length]. pose proof (load_u16_range big_endian x y). lia.
Qed.

(** Buffers up to this many bytes cannot overflow the 32-bit accumulator. *)
Lemma word_total_fits buf :
  Z.of_nat (List.length buf) <= checksum_safe_length ->
  0 <= word_total big_endian buf < 4294967296.
Proof.
  intros Hlen. pose proof (word_total_bound buf). unfold checksum_safe_length in Hlen.
  pose proof (word_total_nonneg big_endian buf). lia.
Qed.

Lemma word_total_app pre rest :
  Nat.even (List.length pre) = true ->
  word_total big_endian (pre ++ rest)
  = word_total big_endian pre + word_total big_endian rest.
Proof.
  induction pre as [| x | x y l IH] using list_pair_ind; intros Heven.
  - reflexivity.
  - discriminate Heven.
  - cbn [app word_total]. rewrite IH by exact Heven. lia.
Qed.

(** The value the folding loop arrives at. *)
Lemma fold_carry_value sum :
  0 <= sum < 4294967296 ->
  fold_carry fold_fuel sum
  = if sum =? 0 then 0
    else if sum mod 65535 =? 0 then 65535 else sum mod 65535.
Proof.
  intros Hs. destruct (fold_carry_exits sum Hs) as (_ & Hr & Hcong & Hzero).
  set (r := fold_carry fold_fuel sum) in *.
  pose proof (Z.mod_pos_bound sum 65535 ltac:(lia)) as Hm.
  destruct (Z.eqb_spec sum 0) as [E0 | E0]; [apply Hzero; exact E0 |].
  assert (Hr0 : r <> 0) by (intros E; apply E0, Hzero, E).
  destruct (Z.eqb_spec (sum mod 65535) 0) as [Em | Em].
  - rewrite Em in Hcong.
    pose proof (Z.div_mod r 65535 ltac:(lia)) as Hdm. rewrite Hcong in Hdm. lia.
  - destruct (Z.eq_dec r 65535) as [E | E].
    + rewrite E in Hcong. change (65535 mod 65535) with 0 in Hcong. lia.
    + rewrite <- Hcong. symmetry. apply Z.mod_small. lia.
Qed.

(** The checksum of a buffer that cannot overflow the accumulator. *)
Lemma checksum_value buf :
  0 < Z.of_nat (List.length buf) <= checksum_safe_length ->
  calculate_icmp_checksum big_endian buf (Z.of_nat (List.length buf))
  = 65535 - (if word_total big_endian buf =? 0 then 0
             else if word_total big_endian buf mod 65535 =? 0 then 65535
                  else word_total big_endian buf mod 65535).
Proof.
  intros Hlen. pose proof (word_total_fits buf ltac:(lia)) as Hfit.
  rewrite calculate_icmp_checksum_total by lia.
  unfold wrap_u32 at 2. rewrite Z.mod_small by exact Hfit.
  rewrite fold_carry_value by exact Hfit.
  apply complement_16.
  pose proof (Z.mod_pos_bound (word_total big_endian buf) 65535 ltac:(lia)).
  destruct (word_total big_endian buf =? 0); [lia |].
  destruct (word_total big_endian buf mod 65535 =? 0); lia.
Qed.

(** A buffer verifies exactly when its words add up to a positive multiple
    of 65535. *)
Lemma checksum_zero_iff buf :
  0 < Z.of_nat (List.length buf) <= checksum_safe_length ->
  calculate_icmp_checksum big_endian buf (Z.of_nat (List.length buf)) = 0
  <-> word_total big_endian buf <> 0 /\ word_total big_endian buf mod 65535 = 0.
Proof.
  intros Hlen. rewrite checksum_value by exact Hlen.
  pose proof (Z.mod_pos_bound (word_total big_endian buf) 65535 ltac:(lia)).
  destruct (Z.eqb_spec (word_total big_endian buf) 0);
    [| destruct (Z.eqb_spec (word_total big_endian buf mod 65535) 0)]; lia.
Qed.

End ChecksumMore.

Lemma swap_complement m :
  1 <= m <= 65534 ->
  (256 * m) mod 65535
  = 65535 - ((65535 - m) mod 256 * 256 + (65535 - m) / 256).
Proof.
  intros Hm. set (c := 65535 - m).
  pose proof (Z.div_mod c 256 ltac:(lia)) as Hdm.
  pose proof (Z.mod_pos_bound c 256 ltac:(lia)) as Hlo.
  assert (Hhi : 0 <= c / 256 < 256).
  { unfold c. split; [apply Z.div_pos; lia | apply Z.div_lt_upper_bound; lia]. }
  symmetry. apply Z.mod_unique with (q := 255 - c / 256); unfold c in *; lia.
Qed.

(** On buffers of even length the totals of the two byte orders determine
    each other modulo 65535. *)
Lemma word_total_swap buf :
  Nat.even (List.length buf) = true ->
  exists k k',
    0 <= k /\ 0 <= k'
    /\ 256 * word_total false buf = word_total true buf + 65535 * k
    /\ 256 * word_total true buf = word_total false buf + 65535 * k'.
Proof.
  induction buf as [| x | x y l IH] using list_pair_ind; intros Heven.
  - exists 0, 0. simpl. lia.
  - discriminate Heven.
  - destruct (IH Heven) as (k & k' & Hk & Hk' & E & E').
    pose proof (u8_range x). pose proof (u8_range y).
    exists (k + u8 y), (k' + u8 x). cbn [word_total]. unfold load_u16. lia.
Qed.

(** X3. On a buffer of even length, up to 131070 bytes, the checksum a
    big-endian host computes is the byte-swapped checksum of a little-endian
    host, so the two bytes written into the checksum field, and with them the
    stamped buffer, are the same on both. *)
Theorem checksum_byte_order_independent (buf : list byte) :
  Nat.even (List.length buf) = true ->
  0 < Z.of_nat (List.length buf) <= checksum_safe_length ->
  let len := Z.of_nat (List.length buf) in
  calculate_icmp_checksum true buf len
  = htons false (calculate_icmp_checksum false buf len)
  /\ store_u16 true buf 1 (calculate_icmp_checksum true buf len)
     = store_u16 false buf 1 (calculate_icmp_checksum false buf len).
Proof.
  intros Heven Hlen len.
  assert (Hswap : calculate_icmp_checksum true buf len
                  = htons false (calculate_icmp_checksum false buf len)).
  { unfold len. rewrite !checksum_value by exact Hlen.
    destruct (word_total_swap buf Heven) as (k & k' & Hk & Hk' & E & E').
    pose proof (word_total_fits true buf ltac:(lia)) as Fb.
    pose proof (word_total_fits false buf ltac:(lia)) as Fl.
    set (tb := word_total true buf) in *. set (tl := word_total false buf) in *.
    destruct (Z.eqb_spec tl 0) as [El | El].
    - replace (tb =? 0) with true by (symmetry; apply Z.eqb_eq; lia). reflexivity.
    - replace (tb =? 0) with false by (symmetry; apply Z.eqb_neq; lia).
      assert (Hmb : tb mod 65535 = (256 * (tl mod 65535)) mod 65535).
      { rewrite Zmult_mod_idemp_r.
        replace (256 * tl) with (tb + k * 65535) by lia.
        rewrite Z_mod_plus_full. reflexivity. }
      pose proof (Z.mod_pos_bound tl 65535 ltac:(lia)) as Hml.
      destruct (Z.eqb_spec (tl mod 65535) 0) as [Em | Em].
      + rewrite Hmb, Em. reflexivity.
      + rewrite Hmb. rewrite swap_complement by lia.
        set (c := 65535 - tl mod 65535) in *.
        assert (Hc : 1 <= c <= 65534) by (unfold c; lia).
        clearbody c.
        pose proof (Z.mod_pos_bound c 256 ltac:(lia)) as Hlo.
        assert (Hhi : 0 <= c / 256 < 256).
        { split; [apply Z.div_pos; lia | apply Z.div_lt_upper_bound; lia]. }
        pose proof (Z.div_mod c 256 ltac:(lia)) as Hdm.
        destruct (Z.eqb_spec (65535 - (c mod 256 * 256 + c / 256)) 0) as [E0 | E0];
          [lia |].
        unfold htons, wrap_u16. cbv zeta. rewrite (Z.mod_small c 65536) by lia. lia. }
  split; [exact Hswap |].
  rewrite Hswap. unfold store_u16.
  set (c := calculate_icmp_checksum false buf len).
  assert (Hc : 0 <= wrap_u16 c < 65536) by (apply Z.mod_pos_bound; lia).
  assert (Hh : wrap_u16 (htons false c)
               = wrap_u16 c mod 256 * 256 + wrap_u16 c / 256).
  { unfold htons. cbv zeta. unfold wrap_u16 at 1. apply Z.mod_small.
    pose proof (Z.mod_pos_bound (wrap_u16 c) 256 ltac:(lia)).
    assert (0 <= wrap_u16 c / 256 < 256)
      by (split; [apply Z.div_pos; lia | apply Z.div_lt_upper_bound; lia]).
    lia. }
  rewrite Hh. set (v := wrap_u16 c) in *.
  pose proof (Z.mod_pos_bound v 256 ltac:(lia)) as Hlo.
  assert (Hhi : 0 <= v / 256 < 256)
    by (split; [apply Z.div_pos; lia | apply Z.div_lt_upper_bound; lia]).
  replace ((v mod 256 * 256 + v / 256) / 256) with (v mod 256)
    by (apply Z.div_unique with (r := v / 256); lia).
  replace ((v mod 256 * 256 + v / 256) mod 256) with (v / 256)
    by (apply Z.mod_unique with (q := v mod 256); lia).
  reflexivity.
Qed.

Lemma checksum_byte_order_independent_witness :
  Nat.even (List.length sample_request) = true
  /\ 0 < Z.of_nat (List.length sample_request) <= checksum_safe_length
  /\ store_u16 true sample_request 1 (calculate_icmp_checksum true sample_request 64)
     = store_u16 false sample_request 1 (calculate_icmp_checksum false sample_request 64).
Proof.
  assert (H1 : Nat.even (List.length sample_request) = true) by reflexivity.
  assert (H2 : 0 < Z.of_nat (List.length sample_request) <= checksum_safe_length)
    by (vm_compute; split; [reflexivity | discriminate]).
  split; [exact H1 | split; [exact H2 |]].
  destruct (checksum_byte_order_independent sample_request H1 H2) as (_ & H).
  exact H.
Defined.

Section ChecksumPadding.

Variable big_endian : bool.

Lemma word_total_zero_word buf :
  Nat.even (List.length buf) = true ->
  word_total big_endian (buf ++ [x00; x00]) = word_total big_endian buf.
Proof.
  intros Heven. rewrite word_total_app by exact Heven.
  cbn [word_total]. unfold load_u16. rewrite u8_x00. destruct big_endian; lia.
Qed.

Lemma checksum_of_total buf buf' :
  (0 < List.length buf)%nat -> (0 < List.length buf')%nat ->
  word_total big_endian buf = word_total big_endian buf' ->
  calculate_icmp_checksum big_endian buf (Z.of_nat (List.length buf))
  = calculate_icmp_checksum big_endian buf' (Z.of_nat (List.length buf')).
Proof.
  intros H H' E. rewrite !calculate_icmp_checksum_total by assumption.
  rewrite E. reflexivity.
Qed.

End ChecksumPadding.

Lemma word_total_odd_byte buf :
  Nat.odd (List.length buf) = true ->
  word_total false (buf ++ [x00]) = word_total false buf.
Proof.
  induction buf as [| x | x y l IH] using list_pair_ind; intros Hodd.
  - discriminate Hodd.
  - cbn [app word_total]. unfold load_u16. rewrite u8_x00. lia.
  - cbn [app word_total]. rewrite IH by exact Hodd. reflexivity.
Qed.

(** X4. Trailing zeros do not change the checksum: a zero 16-bit word
    appended to a buffer of even length leaves it as it is on either host,
    and so does the zero byte that pads a buffer of odd length on a
    little-endian host, where the code adds the odd byte as the low half of
    a word. *)
Theorem checksum_zero_padding :
  (forall big_endian buf,
      Nat.even (List.length buf) = true ->
      calculate_icmp_checksum big_endian (buf ++ [x00; x00])
        (Z.of_nat (List.length buf) + 2)
      = calculate_icmp_checksum big_endian buf (Z.of_nat (List.length buf)))
  /\ (forall buf,
         Nat.odd (List.length buf) = true ->
         calculate_icmp_checksum false (buf ++ [x00]) (Z.of_nat (List.length buf) + 1)
         = calculate_icmp_checksum false buf (Z.of_nat (List.length buf))).
Proof.
  split.
  - intros big_endian buf Heven.
    replace (Z.of_nat (List.length buf) + 2)
      with (Z.of_nat (List.length (buf ++ [x00; x00])))
      by (rewrite length_app; simpl; lia).
    destruct buf as [| x buf]; [destruct big_endian; reflexivity |].
    apply checksum_of_total.
    + rewrite length_app. simpl. lia.
    + simpl. lia.
    + apply word_total_zero_word. exact Heven.
  - intros buf Hodd.
    replace (Z.of_nat (List.length buf) + 1)
      with (Z.of_nat (List.length (buf ++ [x00])))
      by (rewrite length_app; simpl; lia).
    destruct buf as [| x buf]; [discriminate Hodd |].
    apply checksum_of_total.
    + rewrite length_app. simpl. lia.
    + simpl. lia.
    + apply word_total_odd_byte. exact Hodd.
Qed.

Lemma checksum_zero_padding_witness :
  Nat.even (List.length sample_request) = true
  /\ calculate_icmp_checksum false (sample_request ++ [x00; x00])
       (Z.of_nat (List.length sample_request) + 2)
     = calculate_icmp_checksum false sample_request
         (Z.of_nat (List.length sample_request))
  /\ calculate_icmp_checksum false ([x01; x02; x03] ++ [x00]) (Z.of_nat 3 + 1)
     = calculate_icmp_checksum false [x01; x02; x03] (Z.of_nat 3).
Proof.
  destruct checksum_zero_padding as (He & Ho).
  split; [reflexivity | split].
  - apply (He false sample_request). reflexivity.
  - apply (Ho [x01; x02; x03]). reflexivity.
Defined.

(** X5. Error detection: when a buffer of up to 131070 bytes verifies
    (its checksum computes to zero) and one aligned 16-bit word of it is
    replaced by a different one, the altered buffer no longer verifies, unless
    the two words are 0x0000 and 0xFFFF; a zero word replaced by 0xFFFF is
    never noticed. *)
Theorem checksum_detects_changed_word
    (big_endian : bool) (pre post : list byte) (a0 a1 b0 b1 : byte) :
  let received := pre ++ a0 :: a1 :: post in
  let altered := pre ++ b0 :: b1 :: post in
  let len := Z.of_nat (List.length received) in
  Nat.even (List.length pre) = true ->
  len <= checksum_safe_length ->
  calculate_icmp_checksum big_endian received len = 0 ->
  (a0, a1) <> (b0, b1) ->
  (Z.abs (load_u16 big_endian a0 a1 - load_u16 big_endian b0 b1) <> 65535 ->
   calculate_icmp_checksum big_endian altered len <> 0)
  /\ (load_u16 big_endian a0 a1 = 0 -> load_u16 big_endian b0 b1 = 65535 ->
      calculate_icmp_checksum big_endian altered len = 0).
Proof.
  intros received altered len Heven Hlen Hok Hne.
  assert (Hlr : List.length altered = List.length received)
    by (unfold altered, received; rewrite !length_app; reflexivity).
  assert (Hpos : 0 < Z.of_nat (List.length received))
    by (unfold received; rewrite length_app; simpl; lia).
  assert (Hr : 0 < Z.of_nat (List.length received) <= checksum_safe_length)
    by (fold len; lia).
  assert (Ha : 0 < Z.of_nat (List.length altered) <= checksum_safe_length)
    by (rewrite Hlr; exact Hr).
  unfold len in *. apply checksum_zero_iff in Hok; [| exact Hr].
  rewrite <- Hlr. rewrite (checksum_zero_iff big_endian altered Ha).
  pose proof (word_total_fits big_endian altered ltac:(lia)) as Fa.
  unfold altered, received in *.
  rewrite word_total_app in * by exact Heven.
  cbn [word_total] in *.
  pose proof (load_u16_range big_endian a0 a1) as Ra.
  pose proof (load_u16_range big_endian b0 b1) as Rb.
  assert (Hd : load_u16 big_endian a0 a1 <> load_u16 big_endian b0 b1).
  { intros E. apply load_u16_inj in E. destruct E; subst. apply Hne. reflexivity. }
  set (wa := load_u16 big_endian a0 a1) in *.
  set (wb := load_u16 big_endian b0 b1) in *.
  set (p := word_total big_endian pre) in *.
  set (q := word_total big_endian post) in *.
  pose proof (word_total_nonneg big_endian pre) as Np. fold p in Np.
  pose proof (word_total_nonneg big_endian post) as Nq. fold q in Nq.
  clearbody wa wb p q. destruct Hok as (Hnz & Hmod).
  split.
  - intros Habs (_ & Hmod').
    apply Z.mod_divide in Hmod; [| lia]. apply Z.mod_divide in Hmod'; [| lia].
    destruct Hmod as (k & Hk). destruct Hmod' as (k' & Hk'). lia.
  - intros E0 E1. split; [lia |].
    replace (p + (wb + q)) with (p + (wa + q) + 1 * 65535) by lia.
    rewrite Z_mod_plus_full. exact Hmod.
Qed.

Lemma checksum_detects_changed_word_witness :
  let pre := firstn 4 stamped_sample_request in
  let post := skipn 6 stamped_sample_request in
  calculate_icmp_checksum false (pre ++ x12 :: x34 :: post) 64 = 0
  /\ calculate_icmp_checksum false (pre ++ x12 :: x35 :: post) 64 <> 0.
Proof.
  intros pre post.
  assert (Hok : calculate_icmp_checksum false (pre ++ x12 :: x34 :: post) 64 = 0)
    by (vm_compute; reflexivity).
  split; [exact Hok |].
  destruct (checksum_detects_changed_word false pre post x12 x34 x12 x35) as (H & _).
  - reflexivity.
  - vm_compute. discriminate.
  - exact Hok.
  - intros E. discriminate E.
  - apply H. vm_compute. discriminate.
Defined.

(* ================================================================== *)
(** ** The request on the wire *)

Lemma htons_wrap big_endian v : htons big_endian (wrap_u16 v) = htons big_endian v.
Proof. unfold htons, wrap_u16. rewrite Zmod_mod. reflexivity. Qed.

(** X6. The echo request on the wire: whatever the byte order of the host,
    the packet handed to [sendto] has 64 bytes, type 8 and code 0, carries the
    identifier and the sequence number in network byte order (the sequence
    number is the attempt's index modulo 65536), and its payload is the send
    time as the host stores it followed by 40 zero bytes. *)
Theorem echo_request_wire_format (big_endian : bool) (icmp_id i : Z) (send_time : timeval) :
  let packet := fst (echo_request big_endian icmp_id i send_time) in
  List.length packet = 64%nat
  /\ nth 0 packet x00 = x08
  /\ nth 1 packet x00 = x00
  /\ net_u16 (nth 4 packet x00) (nth 5 packet x00) = wrap_u16 icmp_id
  /\ net_u16 (nth 6 packet x00) (nth 7 packet x00) = wrap_u16 i
  /\ skipn 8 packet = timeval_bytes big_endian send_time ++ repeat x00 40.
Proof.
  assert (Hid : 0 <= wrap_u16 icmp_id < 65536) by (apply Z.mod_pos_bound; lia).
  assert (Hseq : 0 <= wrap_u16 i < 65536) by (apply Z.mod_pos_bound; lia).
  pose proof (net_u16_bytes big_endian (wrap_u16 icmp_id) Hid) as H1.
  pose proof (net_u16_bytes big_endian (wrap_u16 i) Hseq) as H2.
  rewrite htons_wrap in H1.
  unfold echo_request. cbn [fst].
  set (cksum := calculate_icmp_checksum _ _ _). clearbody cksum.
  unfold icmp_packet_bytes, store_u16.
  destruct (u16_bytes big_endian (htons big_endian icmp_id))
    as [| i0 [| i1 [| ? ?]]]; try contradiction.
  destruct (u16_bytes big_endian (htons big_endian (wrap_u16 i)))
    as [| s0 [| s1 [| ? ?]]]; try contradiction.
  assert (Ht : List.length (timeval_bytes big_endian send_time) = 16%nat)
    by (unfold timeval_bytes; rewrite length_app, !long_bytes_length; reflexivity).
  unfold u16_bytes.
  destruct big_endian; cbn [app array_set Nat.mul Nat.add nth skipn List.length];
    rewrite H1, H2; rewrite ?length_app, ?Ht, ?repeat_length;
    (split; [reflexivity |]); auto.
Qed.

(* ================================================================== *)
(** ** What the ICMP probe sends and waits for *)

Lemma sent_requests_app log1 log2 :
  sent_requests (log1 ++ log2) = sent_requests log1 ++ sent_requests log2.
Proof. unfold sent_requests. apply flat_map_app. Qed.

Lemma receive_calls_app log1 log2 :
  receive_calls (log1 ++ log2) = receive_calls log1 ++ receive_calls log2.
Proof. unfold receive_calls. apply flat_map_app. Qed.

Lemma receive_timeouts_app log1 log2 :
  receive_timeouts (log1 ++ log2) = receive_timeouts log1 ++ receive_timeouts log2.
Proof. unfold receive_timeouts. apply flat_map_app. Qed.

Lemma reported_rtt_app log1 log2 :
  reported_rtt (log1 ++ log2) = reported_rtt log1 ++ reported_rtt log2.
Proof. unfold reported_rtt. rewrite printed_app. apply flat_map_app. Qed.

Section IcmpTraffic.

Variable big_endian : bool.
Variable env : icmp_env.
Variables sock icmp_id timeout_sec : Z.

Let events := attempt_events big_endian env sock icmp_id timeout_sec.

Lemma attempt_traffic i :
  sent_requests (events i)
  = [fst (echo_request big_endian icmp_id i (at_send_time (icmp_attempt env i)))]
  /\ receive_calls (events i)
     = (if request_sent env i then [at_recvfrom (icmp_attempt env i)] else [])
  /\ receive_timeouts (events i) = (if request_sent env i then [timeout_sec] else [])
  /\ reported_rtt (events i) = [].
Proof.
  unfold events, attempt_events, request_sent.
  destruct (at_sendto (icmp_attempt env i) <? 0);
    [| destruct (0 <? at_recvfrom (icmp_attempt env i))];
    repeat split; reflexivity.
Qed.

Lemma loop_traffic l :
  sent_requests (flat_map events l)
  = map (fun i => fst (echo_request big_endian icmp_id i
                         (at_send_time (icmp_attempt env i)))) l
  /\ receive_calls (flat_map events l)
     = map (fun i => at_recvfrom (icmp_attempt env i)) (filter (request_sent env) l)
  /\ receive_timeouts (flat_map events l)
     = map (fun _ => timeout_sec) (filter (request_sent env) l)
  /\ reported_rtt (flat_map events l) = [].
Proof.
  induction l as [| i l (IH1 & IH2 & IH3 & IH4)]; [repeat split; reflexivity |].
  destruct (attempt_traffic i) as (H1 & H2 & H3 & H4).
  cbn [flat_map filter].
  rewrite sent_requests_app, receive_calls_app, receive_timeouts_app, reported_rtt_app.
  rewrite H1, H2, H3, H4, IH1, IH2, IH3, IH4.
  destruct (request_sent env i); repeat split; reflexivity.
Qed.

End IcmpTraffic.

(** X7. A run of the ICMP probe that got its socket and a valid address
    hands exactly one request per attempt to [sendto], in order of sequence
    number and each stamped with the identifier of the process, max(0, N)
    requests in all; it sets the receive timeout and waits for a reply once for
    every attempt whose [sendto] did not fail and never for one that failed; a
    request that got no reply is not sent again. *)
Theorem ping_sends_each_request_once
    (big_endian : bool) (env : icmp_env) (packet_count timeout_sec : Z) :
  0 <= icmp_socket env ->
  0 < icmp_inet_pton env ->
  let log := w_log (final_world (perform_icmp_ping big_endian env packet_count timeout_sec)) in
  sent_requests log
  = map (fun i => fst (echo_request big_endian (request_id env) i
                         (at_send_time (icmp_attempt env i))))
        (loop_indices packet_count)
  /\ Z.of_nat (List.length (sent_requests log)) = Z.max 0 packet_count
  /\ receive_calls log
     = map (fun i => at_recvfrom (icmp_attempt env i))
           (filter (request_sent env) (loop_indices packet_count))
  /\ receive_timeouts log
     = map (fun _ => timeout_sec) (filter (request_sent env) (loop_indices packet_count)).
Proof.
  intros Hs Ha log.
  assert (Hlog : sent_requests log
                 = map (fun i => fst (echo_request big_endian (request_id env) i
                                        (at_send_time (icmp_attempt env i))))
                       (loop_indices packet_count)
                 /\ receive_calls log
                    = map (fun i => at_recvfrom (icmp_attempt env i))
                          (filter (request_sent env) (loop_indices packet_count))
                 /\ receive_timeouts log
                    = map (fun _ => timeout_sec)
                          (filter (request_sent env) (loop_indices packet_count))).
  { unfold log, final_world.
    rewrite (perform_icmp_ping_run big_endian env timeout_sec packet_count
               initial_world Hs Ha).
    cbv zeta. fold (request_id env).
    destruct (loop_traffic big_endian env (icmp_socket env) (request_id env) timeout_sec
                (loop_indices packet_count)) as (L1 & L2 & L3 & _).
    destruct (0 <? success_count (ping_vars_end env packet_count));
      [destruct (packet_count =? 0) |];
      cbn [snd w_log initial_world];
      rewrite ?sent_requests_app, ?receive_calls_app, ?receive_timeouts_app;
      rewrite L1, L2, L3; simpl; rewrite ?app_nil_r; auto. }
  destruct Hlog as (H1 & H2 & H3).
  split; [exact H1 |]. split; [| split; assumption].
  rewrite H1, length_map. apply loop_indices_length.
Qed.

Lemma ping_sends_each_request_once_witness :
  sent_requests (w_log (final_world (perform_icmp_ping false late_reply_env 2 2)))
  = [ fst (echo_request false 4660 0 (mk_timeval 100 0));
      fst (echo_request false 4660 1 (mk_timeval 102 0)) ]
  /\ receive_calls (w_log (final_world (perform_icmp_ping false late_reply_env 2 2)))
     = [-1; 84].
Proof.
  destruct (ping_sends_each_request_once false late_reply_env 2 2)
    as (H1 & _ & H3 & _).
  - simpl. lia.
  - simpl. lia.
  - split; [exact H1 | exact H3].
Defined.

(* ================================================================== *)
(** ** Round-trip statistics *)

Lemma fold_min_out a b l :
  fold_right Z.min (Z.min a b) l = Z.min a (fold_right Z.min b l).
Proof. induction l as [| x l IH]; simpl; [reflexivity | rewrite IH; lia]. Qed.

Lemma fold_max_out a b l :
  fold_right Z.max (Z.max a b) l = Z.max a (fold_right Z.max b l).
Proof. induction l as [| x l IH]; simpl; [reflexivity | rewrite IH; lia]. Qed.

Lemma fold_min_bounds d l :
  fold_right Z.min d l <= d /\ Forall (fun x => fold_right Z.min d l <= x) l.
Proof.
  induction l as [| x l (IH1 & IH2)]; simpl; [split; [lia | constructor] |].
  split; [lia |]. constructor; [lia |].
  eapply Forall_impl; [| exact IH2]. simpl. intros; lia.
Qed.

Lemma fold_max_bounds d l :
  d <= fold_right Z.max d l /\ Forall (fun x => x <= fold_right Z.max d l) l.
Proof.
  induction l as [| x l (IH1 & IH2)]; simpl; [split; [lia | constructor] |].
  split; [lia |]. constructor; [lia |].
  eapply Forall_impl; [| exact IH2]. simpl. intros; lia.
Qed.

Lemma fold_min_In d l :
  l <> [] -> Forall (fun x => x <= d) l -> In (fold_right Z.min d l) l.
Proof.
  induction l as [| x l IH]; intros Hne Hd; [congruence |].
  inversion Hd as [| ? ? Hx Hl]; subst. cbn [fold_right].
  destruct l as [| y l].
  - left. simpl. lia.
  - destruct (Z_le_gt_dec x (fold_right Z.min d (y :: l))) as [Hle | Hgt].
    + left. lia.
    + right. rewrite Z.min_r by lia. apply IH; [discriminate | exact Hl].
Qed.

Lemma fold_max_In l :
  In (fold_right Z.max 0 l) l
  \/ (fold_right Z.max 0 l = 0 /\ Forall (fun x => x < 0) l).
Proof.
  induction l as [| x l IH]; [right; split; [reflexivity | constructor] |].
  cbn [fold_right].
  destruct (Z_le_gt_dec (fold_right Z.max 0 l) x) as [Hle | Hgt].
  - left. left. lia.
  - rewrite Z.max_r by lia. destruct IH as [Hin | (H0 & Hall)].
    + left. right. exact Hin.
    + right. split; [exact H0 |]. constructor; [lia | exact Hall].
Qed.

Lemma sum_list_bounds mn mx l :
  Forall (fun x => mn <= x <= mx) l ->
  mn * Z.of_nat (List.length l) <= sum_list l <= mx * Z.of_nat (List.length l).
Proof.
  induction 1 as [| x l Hx Hl IH]; [simpl; lia |].
  unfold sum_list in *. cbn [fold_right List.length]. lia.
Qed.

Section PingStatistics.

Variable env : icmp_env.

Let latencies (l : list Z) := map (attempt_latency env) (filter (answered env) l).

Lemma attempt_latency_long i : in_long (attempt_latency env i).
Proof. unfold attempt_latency, calculate_elapsed_ms. apply wrap_long_range. Qed.

Lemma vars_fold l :
  forall v,
    in_long (total_rtt v) ->
    min_rtt (fold_left (attempt_vars env) l v) = fold_right Z.min (min_rtt v) (latencies l)
    /\ max_rtt (fold_left (attempt_vars env) l v)
       = fold_right Z.max (max_rtt v) (latencies l)
    /\ total_rtt (fold_left (attempt_vars env) l v)
       = wrap_long (total_rtt v + sum_list (latencies l)).
Proof.
  unfold latencies.
  induction l as [| i l IH]; intros v Hv.
  - simpl. rewrite Z.add_0_r, wrap_long_id by exact Hv. auto.
  - cbn [fold_left filter]. unfold attempt_vars at 2 4 6.
    destruct (answered env i).
    + destruct (IH (mk_ping_vars
                      (wrap_int (success_count v + 1))
                      (if attempt_latency env i <? min_rtt v
                       then attempt_latency env i else min_rtt v)
                      (if max_rtt v <? attempt_latency env i
                       then attempt_latency env i else max_rtt v)
                      (wrap_long (total_rtt v + attempt_latency env i))))
        as (I1 & I2 & I3); [apply wrap_long_range |].
      cbn [min_rtt max_rtt total_rtt] in I1, I2, I3.
      rewrite I1, I2, I3. cbn [map fold_right]. unfold sum_list. cbn [fold_right].
      split; [| split].
      * replace (if attempt_latency env i <? min_rtt v
                 then attempt_latency env i else min_rtt v)
          with (Z.min (attempt_latency env i) (min_rtt v))
          by (destruct (Z.ltb_spec (attempt_latency env i) (min_rtt v)); lia).
        apply fold_min_out.
      * replace (if max_rtt v <? attempt_latency env i
                 then attempt_latency env i else max_rtt v)
          with (Z.max (attempt_latency env i) (max_rtt v))
          by (destruct (Z.ltb_spec (max_rtt v) (attempt_latency env i)); lia).
        apply fold_max_out.
      * rewrite wrap_long_add_l. f_equal. lia.
    + apply IH. exact Hv.
Qed.

Lemma latencies_long l : Forall (fun x => x <= LLONG_MAX) (latencies l).
Proof.
  unfold latencies. apply Forall_forall. intros x Hx.
  apply in_map_iff in Hx. destruct Hx as (i & <- & _).
  pose proof (attempt_latency_long i) as H. unfold in_long, LONG_MAX, LLONG_MAX in *. lia.
Qed.

End PingStatistics.

(** X8. Round-trip statistics of a run of the ICMP probe with N packets
    that got its socket and a valid address: they are printed exactly when
    some attempt was answered.  The minimum printed is one of the reported
    latencies and the maximum is one of them too, or 0 when every latency is
    negative (the maximum starts at 0); every reported latency lies between
    the two; and when no latency is negative and their sum fits in a long, the
    average is their sum divided by their number, rounded down, and lies
    between the minimum and the maximum. *)
Theorem ping_rtt_statistics
    (big_endian : bool) (env : icmp_env) (packet_count timeout_sec : Z) :
  0 <= icmp_socket env ->
  0 < icmp_inet_pton env ->
  packet_count <= INT_MAX ->
  let log := w_log (final_world (perform_icmp_ping big_endian env packet_count timeout_sec)) in
  let ls := answered_latencies env packet_count in
  (ls = [] -> reported_rtt log = [])
  /\ (ls <> [] ->
      exists mn mx avg,
        reported_rtt log = [(mn, mx, avg)]
        /\ In mn ls
        /\ Forall (fun x => mn <= x <= mx) ls
        /\ (In mx ls \/ (mx = 0 /\ Forall (fun x => x < 0) ls))
        /\ (Forall (fun x => 0 <= x) ls ->
            sum_list ls <= LONG_MAX ->
            avg = sum_list ls / Z.of_nat (List.length ls) /\ mn <= avg <= mx)).
Proof.
  intros Hs Ha Hn log ls.
  pose proof (success_count_end env packet_count Hn) as Hcount.
  unfold answered_count in Hcount.
  assert (Hlen : Z.of_nat (List.length ls)
                 = success_count (ping_vars_end env packet_count)).
  { unfold ls, answered_latencies. rewrite length_map. symmetry. exact Hcount. }
  destruct (vars_fold env (loop_indices packet_count) (mk_ping_vars 0 LLONG_MAX 0 0))
    as (Vmin & Vmax & Vtot).
  { cbn [total_rtt]. unfold in_long, LONG_MIN, LONG_MAX. lia. }
  fold (ping_vars_end env packet_count) in Vmin, Vmax, Vtot.
  fold (answered_latencies env packet_count) in Vmin, Vmax, Vtot. fold ls in Vmin, Vmax, Vtot.
  cbn [min_rtt max_rtt total_rtt] in Vmin, Vmax, Vtot. rewrite Z.add_0_l in Vtot.
  assert (Hlog : reported_rtt log
                 = if 0 <? success_count (ping_vars_end env packet_count)
                   then [(min_rtt (ping_vars_end env packet_count),
                          max_rtt (ping_vars_end env packet_count),
                          wrap_long (Z.quot (total_rtt (ping_vars_end env packet_count))
                                       (success_count (ping_vars_end env packet_count))))]
                   else []).
  { unfold log, final_world.
    rewrite (perform_icmp_ping_run big_endian env timeout_sec packet_count
               initial_world Hs Ha).
    cbv zeta.
    destruct (loop_traffic big_endian env (icmp_socket env)
                (wrap_u16 (Z.land (icmp_getpid env) 65535)) timeout_sec
                (loop_indices packet_count)) as (_ & _ & _ & L4).
    destruct (0 <? success_count (ping_vars_end env packet_count)) eqn:Esc.
    - assert (H1 : 1 <= packet_count) by (apply (success_count_positive env); lia).
      replace (packet_count =? 0) with false by lia.
      cbn [snd w_log initial_world]. rewrite !reported_rtt_app, L4. reflexivity.
    - cbn [snd w_log initial_world]. rewrite !reported_rtt_app, L4. reflexivity. }
  split.
  - intros Hnil. rewrite Hlog. rewrite <- Hlen, Hnil. reflexivity.
  - intros Hne.
    assert (Hpos : 0 < Z.of_nat (List.length ls)).
    { destruct ls; [congruence | cbn [List.length]; lia]. }
    rewrite Hlog. replace (0 <? success_count (ping_vars_end env packet_count)) with true by lia.
    eexists _, _, _. split; [reflexivity |].
    rewrite Vmin, Vmax, Vtot.
    pose proof (fold_min_bounds LLONG_MAX ls) as (_ & Bmin).
    pose proof (fold_max_bounds 0 ls) as (_ & Bmax).
    assert (Hboth : Forall (fun x => fold_right Z.min LLONG_MAX ls <= x
                                      <= fold_right Z.max 0 ls) ls).
    { apply Forall_forall. intros x Hx.
      rewrite Forall_forall in Bmin, Bmax. split; [apply Bmin | apply Bmax]; exact Hx. }
    split; [apply fold_min_In; [exact Hne | apply latencies_long] |].
    split; [exact Hboth |].
    split; [apply fold_max_In |].
    intros Hnn Hfit.
    assert (Hsum0 : 0 <= sum_list ls).
    { pose proof (sum_list_bounds 0 (fold_right Z.max 0 ls) ls) as HB.
      assert (HF : Forall (fun x => 0 <= x <= fold_right Z.max 0 ls) ls).
      { apply Forall_forall. intros x Hx. rewrite Forall_forall in Hnn, Bmax.
        split; [apply Hnn | apply Bmax]; exact Hx. }
      specialize (HB HF). lia. }
    rewrite (wrap_long_id (sum_list ls)) by (unfold in_long, LONG_MIN, LONG_MAX in *; lia).
    rewrite <- Hlen.
    rewrite Z.quot_div_nonneg by lia.
    pose proof (sum_list_bounds _ _ ls Hboth) as (Blo & Bhi).
    assert (Hq0 : 0 <= sum_list ls / Z.of_nat (List.length ls)) by (apply Z.div_pos; lia).
    assert (Hq1 : sum_list ls / Z.of_nat (List.length ls) <= sum_list ls).
    { apply Z.div_le_upper_bound; [lia | nia]. }
    rewrite wrap_long_id by (unfold in_long, LONG_MIN, LONG_MAX in *; lia).
    split; [reflexivity |]. split.
    + apply Z.div_le_lower_bound; [lia | lia].
    + apply Z.div_le_upper_bound; [lia | lia].
Qed.


Lemma ping_rtt_statistics_witness :
  answered_latencies late_reply_env 2 = [500]
  /\ exists mn mx avg,
       reported_rtt (w_log (final_world (perform_icmp_ping false late_reply_env 2 2)))
       = [(mn, mx, avg)]
       /\ In mn [500].
Proof.
  assert (Hl : answered_latencies late_reply_env 2 = [500]) by (vm_compute; reflexivity).
  split; [exact Hl |].
  destruct (ping_rtt_statistics false late_reply_env 2 2) as (_ & H).
  - simpl. lia.
  - simpl. lia.
  - unfold INT_MAX. lia.
  - destruct H as (mn & mx & avg & H1 & H2 & _).
    + rewrite Hl. discriminate.
    + exists mn, mx, avg. split; [exact H1 |]. rewrite <- Hl. exact H2.
Defined.

(* ================================================================== *)
(** ** The result of the ICMP probe *)

Lemma loop_indices_In n i : In i (loop_indices n) <-> 0 <= i < n.
Proof.
  unfold loop_indices. rewrite in_map_iff. split.
  - intros (k & <- & Hk). apply in_seq in Hk. lia.
  - intros Hi. exists (Z.to_nat i). split; [lia |]. apply in_seq. lia.
Qed.

Lemma filter_nonempty {A : Type} (f : A -> bool) (l : list A) :
  (0 < List.length (filter f l))%nat <-> exists x, In x l /\ f x = true.
Proof.
  split.
  - intros Hlen. destruct (filter f l) as [| x rest] eqn:E; [simpl in Hlen; lia |].
    exists x. apply filter_In. rewrite E. left. reflexivity.
  - intros (x & Hx & Hf).
    assert (Hin : In x (filter f l)) by (apply filter_In; split; assumption).
    destruct (filter f l); [destruct Hin | simpl; lia].
Qed.

(** The result of the probe and what it does when it fails early. *)
Lemma ping_outcome
    (big_endian : bool) (env : icmp_env) (packet_count timeout_sec : Z) :
  packet_count <= INT_MAX ->
  let ping := perform_icmp_ping big_endian env packet_count timeout_sec in
  (result ping = Some 1
   <-> 0 <= icmp_socket env /\ 0 < icmp_inet_pton env
       /\ exists i, 0 <= i < packet_count /\ answered env i = true)
  /\ (result ping = Some 1 \/ result ping = Some 0)
  /\ (icmp_socket env < 0 ->
      w_log (final_world ping) = [EvSocket (icmp_socket env); EvPrint PingSocketFailed])
  /\ (0 <= icmp_socket env -> icmp_inet_pton env <= 0 ->
      w_log (final_world ping)
      = [EvSocket (icmp_socket env); EvPrint PingInvalidAddress;
         EvClose (icmp_socket env)]).
Proof.
  intros Hn ping.
  destruct (Z_lt_le_dec (icmp_socket env) 0) as [Hs | Hs].
  { assert (E : run ping initial_world
                = (Some 0, mk_world [] [EvSocket (icmp_socket env);
                                         EvPrint PingSocketFailed])).
    { unfold ping, perform_icmp_ping. step_cmd.
      replace (icmp_socket env <? 0) with true by lia. reflexivity. }
    unfold result, final_world. rewrite E. cbn [fst snd w_log].
    split; [split; [discriminate | lia] |].
    split; [right; reflexivity |]. split; [reflexivity | lia]. }
  destruct (Z_lt_le_dec 0 (icmp_inet_pton env)) as [Ha | Ha].
  - destruct (ping_reports big_endian env packet_count timeout_sec Hs Ha) as (R & _).
    fold ping in R.
    pose proof (success_count_end env packet_count Hn) as Hcount.
    unfold answered_count in Hcount.
    split; [| split; [| split; lia]].
    + rewrite R. split.
      * intros H. destruct (0 <? success_count (ping_vars_end env packet_count)) eqn:E;
          [| discriminate H].
        split; [exact Hs |]. split; [exact Ha |].
        destruct (proj1 (filter_nonempty (answered env) (loop_indices packet_count)))
          as (i & Hi & Hans); [lia |].
        exists i. split; [apply loop_indices_In; exact Hi | exact Hans].
      * intros (_ & _ & i & Hi & Hans).
        assert (Hpos : (0 < List.length (filter (answered env) (loop_indices packet_count)))%nat).
        { apply filter_nonempty. exists i. split; [apply loop_indices_In; exact Hi | exact Hans]. }
        replace (0 <? success_count (ping_vars_end env packet_count)) with true by lia.
        reflexivity.
    + rewrite R. destruct (0 <? success_count (ping_vars_end env packet_count)); auto.
  - assert (E : run ping initial_world
                = (Some 0, mk_world [] [EvSocket (icmp_socket env);
                                         EvPrint PingInvalidAddress;
                                         EvClose (icmp_socket env)])).
    { unfold ping, perform_icmp_ping. step_cmd.
      replace (icmp_socket env <? 0) with false by lia.
      replace (icmp_inet_pton env <=? 0) with true by lia. simpl.
      rewrite Z.eqb_refl. reflexivity. }
    unfold result, final_world. rewrite E. cbn [fst snd w_log].
    split; [split; [discriminate | lia] |].
    split; [right; reflexivity |]. split; [lia | reflexivity].
Qed.

(** X9. The ICMP probe returns 1 exactly when it got its socket, the
    address is valid and at least one of the N attempts was sent and
    answered by a datagram; in every other case it returns 0.  When the raw
    socket cannot be created nothing else is attempted (no close, no
    request); when the address is invalid the socket is closed at once and
    no request is sent. *)
Theorem ping_result
    (big_endian : bool) (env : icmp_env) (packet_count timeout_sec : Z) :
  packet_count <= INT_MAX ->
  let ping := perform_icmp_ping big_endian env packet_count timeout_sec in
  (result ping = Some 1
   <-> 0 <= icmp_socket env /\ 0 < icmp_inet_pton env
       /\ exists i, 0 <= i < packet_count /\ answered env i = true)
  /\ (result ping = Some 1 \/ result ping = Some 0)
  /\ (icmp_socket env < 0 ->
      w_log (final_world ping) = [EvSocket (icmp_socket env); EvPrint PingSocketFailed])
  /\ (0 <= icmp_socket env -> icmp_inet_pton env <= 0 ->
      w_log (final_world ping)
      = [EvSocket (icmp_socket env); EvPrint PingInvalidAddress;
         EvClose (icmp_socket env)]).
Proof. apply ping_outcome. Qed.

Lemma ping_result_witness :
  result (perform_icmp_ping false late_reply_env 2 2) = Some 1.
Proof.
  destruct (ping_result false late_reply_env 2 2) as ((_ & H) & _).
  - unfold INT_MAX. lia.
  - apply H. split; [simpl; lia |]. split; [simpl; lia |].
    exists 1. split; [lia | reflexivity].
Defined.

(* ================================================================== *)
(** ** The summary of a scan *)

Lemma count_lines_app kind log1 log2 :
  count_lines kind (log1 ++ log2) = count_lines kind log1 + count_lines kind log2.
Proof.
  unfold count_lines. rewrite printed_app, filter_app, length_app. lia.
Qed.

Lemma reported_summary_app log1 log2 :
  reported_summary (log1 ++ log2) = reported_summary log1 ++ reported_summary log2.
Proof. unfold reported_summary. rewrite printed_app. apply flat_map_app. Qed.

Lemma filter_partition_length {A : Type} (f : A -> bool) (l : list A) :
  (List.length (filter f l) + List.length (filter (fun x => negb (f x)) l))%nat
  = List.length l.
Proof.
  induction l as [| x l IH]; [reflexivity |].
  cbn [filter]. destruct (f x); cbn [negb List.length]; lia.
Qed.

(** Counts the lines of a log whose events are given one by one. *)
Ltac count_given :=
  repeat match goal with
         | |- context [count_lines ?k (?e :: ?r)] =>
             let v := eval vm_compute in (count_lines k (e :: r)) in
             change (count_lines k (e :: r)) with v
         end.

Section ScanSummaryFacts.

Variable env : scan_env.

Lemma initiate_counts l :
  count_lines is_open_line (flat_map (initiate_events env) l) = 0
  /\ count_lines is_closed_line (flat_map (initiate_events env) l) = 0
  /\ count_lines is_error_line (flat_map (initiate_events env) l)
     = Z.of_nat (List.length (filter (fun i => negb (probed env i)) l))
  /\ reported_summary (flat_map (initiate_events env) l) = [].
Proof.
  induction l as [| i l (IH1 & IH2 & IH3 & IH4)]; [repeat split; reflexivity |].
  cbn [flat_map filter].
  rewrite !count_lines_app, reported_summary_app, IH1, IH2, IH3, IH4.
  unfold initiate_events, probed.
  destruct (pe_socket (scan_port env i) <? 0); cbn [negb andb].
  - split; [reflexivity |]. split; [reflexivity |]. split; [| reflexivity].
    cbn [List.length]. count_given. lia.
  - destruct ((pe_connect (scan_port env i) <? 0)
              && negb (pe_errno (scan_port env i) =? EINPROGRESS)); cbn [negb].
    + split; [reflexivity |]. split; [reflexivity |]. split; [| reflexivity].
      cbn [List.length app]. count_given. lia.
    + split; [reflexivity |]. split; [reflexivity |]. split; reflexivity.
Qed.

Lemma classify_counts l :
  count_lines is_open_line (flat_map (classify_events env) l)
  = Z.of_nat (List.length (filter (is_open env) (filter (probed env) l)))
  /\ count_lines is_closed_line (flat_map (classify_events env) l)
     = Z.of_nat (List.length (filter (fun i => negb (is_open env i))
                                     (filter (probed env) l)))
  /\ count_lines is_error_line (flat_map (classify_events env) l) = 0
  /\ reported_summary (flat_map (classify_events env) l) = [].
Proof.
  induction l as [| i l (IH1 & IH2 & IH3 & IH4)]; [repeat split; reflexivity |].
  cbn [flat_map filter].
  rewrite !count_lines_app, reported_summary_app, IH1, IH2, IH3, IH4.
  unfold classify_events.
  destruct (probed env i); [| repeat split; reflexivity].
  cbn [filter]. destruct (is_open env i); cbn [negb List.length];
    (split; [count_given; lia |]);
    (split; [count_given; lia |]);
    split; reflexivity.
Qed.

End ScanSummaryFacts.

(** X10. The summary of a scan of a valid address is its last line and is
    consistent with the lines before it: the total is 13, the number of open
    ports is the number of OPEN lines, and the number given as closed or
    filtered is 13 minus the open ones, that is the CLOSED/FILTERED lines
    together with the entries that only got an error line (socket creation
    failed, connection error). *)
Theorem scan_summary_consistent (env : scan_env) (timeout_sec : Z) :
  0 < scan_inet_pton env ->
  let log := w_log (final_world (scan_services_in_range env timeout_sec)) in
  exists open closed,
    reported_summary log = [(13, open, closed)]
    /\ open = count_lines is_open_line log
    /\ closed = count_lines is_closed_line log + count_lines is_error_line log
    /\ open + closed = 13
    /\ 0 <= open /\ 0 <= closed
    /\ last log (EvSelect 0 0) = EvPrint (ScanSummary 13 open closed).
Proof.
  intros Ha log.
  set (n_open := Z.of_nat (List.length (filter (is_open env)
                                          (filter (probed env) catalog_indices)))).
  set (n_closed := Z.of_nat (List.length (filter (fun i => negb (is_open env i))
                                            (filter (probed env) catalog_indices)))).
  set (n_error := Z.of_nat (List.length (filter (fun i => negb (probed env i))
                                           catalog_indices))).
  assert (Hsum : n_open + n_closed + n_error = 13).
  { unfold n_open, n_closed, n_error.
    pose proof (filter_partition_length (is_open env)
                  (filter (probed env) catalog_indices)) as P1.
    pose proof (filter_partition_length (probed env) catalog_indices) as P2.
    assert (P3 : List.length catalog_indices = 13%nat) by reflexivity.
    lia. }
  assert (Hlog : log
                 = (flat_map (initiate_events env) catalog_indices
                    ++ [EvSelect (scan_max_fd (map (pending_socket env) catalog_indices) + 1)
                          (scan_select env)]
                    ++ flat_map (classify_events env) catalog_indices)
                   ++ [EvPrint (ScanSummary 13 n_open (13 - n_open))]).
  { unfold log, final_world. rewrite scan_run by exact Ha.
    cbn [snd w_log initial_world app]. fold n_open.
    change (Z.of_nat NUM_COMMON_PORTS) with 13.
    unfold wrap_u64. rewrite Z.mod_small by (unfold n_closed, n_error in Hsum; lia).
    rewrite <- !app_assoc. reflexivity. }
  destruct (initiate_counts env catalog_indices) as (I1 & I2 & I3 & I4).
  destruct (classify_counts env catalog_indices) as (C1 & C2 & C3 & C4).
  fold n_open in C1. fold n_closed in C2. fold n_error in I3.
  exists n_open, (13 - n_open).
  rewrite Hlog at 1 2 3 4.
  rewrite !reported_summary_app, !count_lines_app.
  rewrite I1, I2, I3, I4, C1, C2, C3, C4.
  split; [reflexivity |].
  split; [count_given; lia |].
  split; [count_given; lia |].
  split; [lia |]. split; [unfold n_open; lia |].
  split; [unfold n_closed, n_error in Hsum; lia |].
  rewrite Hlog. apply last_last.
Qed.

Lemma scan_summary_consistent_witness :
  exists open closed,
    reported_summary (w_log (final_world (scan_services_in_range web_host_env 3)))
    = [(13, open, closed)]
    /\ open + closed = 13.
Proof.
  destruct (scan_summary_consistent web_host_env 3) as (open & closed & H1 & _ & _ & H4 & _).
  - simpl. lia.
  - exists open, closed. split; [exact H1 | exact H4].
Defined.

(* ================================================================== *)
(** ** The one wait of a scan *)

Lemma select_calls_app log1 log2 :
  select_calls (log1 ++ log2) = select_calls log1 ++ select_calls log2.
Proof. unfold select_calls. apply flat_map_app. Qed.

Lemma fold_max_left l :
  forall m,
    m <= fold_left Z.max l m
    /\ Forall (fun x => x <= fold_left Z.max l m) l
    /\ (fold_left Z.max l m = m \/ In (fold_left Z.max l m) l).
Proof.
  induction l as [| x l IH]; intros m.
  - simpl. split; [lia |]. split; [constructor | left; reflexivity].
  - cbn [fold_left]. destruct (IH (Z.max m x)) as (H1 & H2 & H3).
    split; [lia |]. split.
    + constructor; [lia | exact H2].
    + destruct H3 as [H3 | H3]; [| right; right; exact H3].
      destruct (Z_le_gt_dec x m) as [Hle | Hgt].
      * left. lia.
      * right. left. lia.
Qed.

Section ScanWait.

Variable env : scan_env.

Lemma max_fd_fold sockets l :
  (forall i, In i l -> nth i sockets 0 = pending_socket env i) ->
  forall m,
    fold_left
      (fun max_fd i =>
         if 0 <=? nth i sockets 0 then
           (if max_fd <? nth i sockets 0 then nth i sockets 0 else max_fd)
         else max_fd) l m
    = fold_left Z.max (pending_sockets env l) m.
Proof.
  induction l as [| i l IH]; intros Hnth m; [reflexivity |].
  cbn [fold_left]. rewrite (pending_sockets_cons env i l).
  rewrite (Hnth i) by (left; reflexivity).
  rewrite IH by (intros j Hj; apply Hnth; right; exact Hj).
  unfold pending_socket, pending_sockets at 2. cbn [filter].
  destruct (probed env i) eqn:Ep; cbn [map app fold_left].
  - pose proof (probed_socket env i Ep) as Hfd.
    replace (0 <=? pe_socket (scan_port env i)) with true by lia.
    f_equal. destruct (Z.ltb_spec m (pe_socket (scan_port env i))); lia.
  - reflexivity.
Qed.

Lemma scan_max_fd_pending :
  scan_max_fd (map (pending_socket env) catalog_indices)
  = fold_left Z.max (pending_sockets env catalog_indices) 0.
Proof.
  unfold scan_max_fd. apply max_fd_fold.
  intros i Hi. unfold catalog_indices in *. apply in_seq in Hi.
  apply nth_map_seq. lia.
Qed.

Lemma initiate_phase l :
  Forall (fun e => is_inspection e = false) (flat_map (initiate_events env) l)
  /\ select_calls (flat_map (initiate_events env) l) = [].
Proof.
  induction l as [| i l (IH1 & IH2)]; [split; [constructor | reflexivity] |].
  cbn [flat_map]. rewrite select_calls_app, IH2. split.
  - apply Forall_app. split; [| exact IH1].
    unfold initiate_events.
    destruct (pe_socket (scan_port env i) <? 0);
      [| destruct ((pe_connect (scan_port env i) <? 0)
                   && negb (pe_errno (scan_port env i) =? EINPROGRESS))];
      repeat constructor.
  - unfold initiate_events.
    destruct (pe_socket (scan_port env i) <? 0);
      [| destruct ((pe_connect (scan_port env i) <? 0)
                   && negb (pe_errno (scan_port env i) =? EINPROGRESS))];
      reflexivity.
Qed.

Lemma classify_phase l :
  Forall (fun e => is_initiation e = false) (flat_map (classify_events env) l)
  /\ select_calls (flat_map (classify_events env) l) = [].
Proof.
  induction l as [| i l (IH1 & IH2)]; [split; [constructor | reflexivity] |].
  cbn [flat_map]. rewrite select_calls_app, IH2. split.
  - apply Forall_app. split; [| exact IH1].
    unfold classify_events. destruct (probed env i); repeat constructor.
  - unfold classify_events. destruct (probed env i); reflexivity.
Qed.

End ScanWait.

(** X11. A scan of a valid address waits exactly once: every socket is
    created and every connection initiated before the single [select], and
    every pending error is read after it.  The [nfds] argument is one more
    than the largest pending descriptor, so it is above every pending
    descriptor; when no connection is pending (every socket or connect
    failed) [select] is still called, with [nfds] = 1. *)
Theorem scan_waits_once (env : scan_env) (timeout_sec : Z) :
  0 < scan_inet_pton env ->
  let log := w_log (final_world (scan_services_in_range env timeout_sec)) in
  exists before after nfds,
    log = before ++ EvSelect nfds (scan_select env) :: after
    /\ select_calls log = [(nfds, scan_select env)]
    /\ Forall (fun e => is_inspection e = false) before
    /\ Forall (fun e => is_initiation e = false) after
    /\ 1 <= nfds
    /\ (forall i, (i < NUM_COMMON_PORTS)%nat -> probed env i = true ->
                  pe_socket (scan_port env i) < nfds)
    /\ (nfds = 1
        \/ exists i, (i < NUM_COMMON_PORTS)%nat /\ probed env i = true
                     /\ pe_socket (scan_port env i) = nfds - 1)
    /\ ((forall i, (i < NUM_COMMON_PORTS)%nat -> probed env i = false) -> nfds = 1).
Proof.
  intros Ha log.
  set (nfds := scan_max_fd (map (pending_socket env) catalog_indices) + 1).
  set (summary := EvPrint (ScanSummary (Z.of_nat NUM_COMMON_PORTS)
                    (Z.of_nat (List.length (filter (is_open env)
                                              (filter (probed env) catalog_indices))))
                    (wrap_u64 (Z.of_nat NUM_COMMON_PORTS
                               - Z.of_nat (List.length (filter (is_open env)
                                              (filter (probed env) catalog_indices))))))).
  assert (Hlog : log
                 = flat_map (initiate_events env) catalog_indices
                   ++ EvSelect nfds (scan_select env)
                      :: (flat_map (classify_events env) catalog_indices ++ [summary])).
  { unfold log, final_world. rewrite scan_run by exact Ha.
    cbn [snd w_log initial_world app]. reflexivity. }
  destruct (initiate_phase env catalog_indices) as (I1 & I2).
  destruct (classify_phase env catalog_indices) as (C1 & C2).
  pose proof (scan_max_fd_pending env) as Hmax.
  destruct (fold_max_left (pending_sockets env catalog_indices) 0) as (M1 & M2 & M3).
  rewrite <- Hmax in M1, M2, M3.
  assert (Hin : forall fd, In fd (pending_sockets env catalog_indices)
                           <-> exists i, (i < NUM_COMMON_PORTS)%nat /\ probed env i = true
                                         /\ pe_socket (scan_port env i) = fd).
  { intros fd. unfold pending_sockets. rewrite in_map_iff. split.
    - intros (i & E & Hi). apply filter_In in Hi. destruct Hi as (Hi & Hp).
      unfold catalog_indices in Hi. apply in_seq in Hi.
      exists i. split; [lia |]. split; assumption.
    - intros (i & Hi & Hp & E). exists i. split; [exact E |].
      apply filter_In. split; [| exact Hp]. unfold catalog_indices. apply in_seq. lia. }
  exists (flat_map (initiate_events env) catalog_indices),
         (flat_map (classify_events env) catalog_indices ++ [summary]), nfds.
  split; [exact Hlog |].
  split.
  { rewrite Hlog. rewrite select_calls_app, I2.
    change (EvSelect nfds (scan_select env)
              :: flat_map (classify_events env) catalog_indices ++ [summary])
      with ([EvSelect nfds (scan_select env)]
              ++ flat_map (classify_events env) catalog_indices ++ [summary]).
    rewrite !select_calls_app, C2. reflexivity. }
  split; [exact I1 |].
  split; [apply Forall_app; split; [exact C1 | repeat constructor] |].
  split; [unfold nfds; lia |].
  split.
  { intros i Hi Hp. rewrite Forall_forall in M2.
    assert (Hle : pe_socket (scan_port env i)
                  <= scan_max_fd (map (pending_socket env) catalog_indices)).
    { apply M2. apply Hin. exists i. auto. }
    unfold nfds. lia. }
  split.
  { destruct M3 as [M3 | M3]; [left; unfold nfds; lia |].
    right. apply Hin in M3. destruct M3 as (i & Hi & Hp & E).
    exists i. split; [exact Hi |]. split; [exact Hp |]. unfold nfds. lia. }
  intros Hnone. destruct M3 as [M3 | M3]; [unfold nfds; lia |].
  apply Hin in M3. destruct M3 as (i & Hi & Hp & _).
  rewrite (Hnone i Hi) in Hp. discriminate Hp.
Qed.

Lemma scan_waits_once_witness :
  select_calls (w_log (final_world (scan_services_in_range no_descriptor_env 3)))
  = [(1, 0)].
Proof.
  destruct (scan_waits_once no_descriptor_env 3)
    as (before & after & nfds & _ & H2 & _ & _ & _ & _ & _ & H8).
  - simpl. lia.
  - rewrite H2. rewrite H8; [reflexivity |]. intros i _. reflexivity.
Defined.

(* ================================================================== *)
(** ** The TCP probe before the connection is initiated *)

(** X12. The TCP probe with a port in range, before the connection is
    initiated: when the socket cannot be created it returns 0 and closes
    nothing; when the address is invalid, which is found out only after the
    socket was created and made non-blocking, it closes the socket and returns
    0; when [connect] fails at once with an error other than EINPROGRESS it
    reports that error, closes the socket and returns 0; in none of these
    cases does it wait.  A [connect] that succeeds at once is still followed
    by one [select] on the socket. *)
Theorem tcp_early_failures (env : tcp_env) (port timeout_sec : Z) :
  1 <= port <= 65535 ->
  let probe := check_tcp_connectivity env port timeout_sec in
  let sock := tcp_socket env in
  (sock < 0 ->
   result probe = Some 0
   /\ w_log (final_world probe)
      = [EvGettimeofday (tcp_start_time env); EvSocket sock; EvPrint TcpSocketFailed])
  /\ (0 <= sock -> tcp_inet_pton env <= 0 ->
      result probe = Some 0
      /\ w_log (final_world probe)
         = [EvGettimeofday (tcp_start_time env); EvSocket sock;
            EvFcntl sock; EvFcntl sock;
            EvPrint TcpInvalidAddress; EvClose sock])
  /\ (0 <= sock -> 0 < tcp_inet_pton env ->
      tcp_connect env < 0 -> tcp_errno env <> EINPROGRESS ->
      result probe = Some 0
      /\ w_log (final_world probe)
         = [EvGettimeofday (tcp_start_time env); EvSocket sock;
            EvFcntl sock; EvFcntl sock;
            EvConnect sock port (tcp_connect env);
            EvPrint (TcpConnectFailed (tcp_errno env)); EvClose sock])
  /\ (0 <= sock -> 0 < tcp_inet_pton env -> 0 <= tcp_connect env ->
      select_calls (w_log (final_world probe)) = [(sock + 1, tcp_select env)]).
Proof.
  intros Hp probe sock.
  assert (T1 : (port <? 1) || (65535 <? port) = false) by (apply orb_false_iff; lia).
  unfold probe, sock, check_tcp_connectivity. step_cmd. rewrite T1. simpl.
  split; [| split; [| split]].
  - intros Hs. replace (tcp_socket env <? 0) with true by lia. simpl. auto.
  - intros Hs Ha. replace (tcp_socket env <? 0) with false by lia. simpl.
    replace (tcp_inet_pton env <=? 0) with true by lia. simpl. auto.
  - intros Hs Ha Hc He. replace (tcp_socket env <? 0) with false by lia. simpl.
    replace (tcp_inet_pton env <=? 0) with false by lia. simpl.
    replace (tcp_connect env <? 0) with true by lia.
    replace (tcp_errno env =? EINPROGRESS) with false by lia. simpl. auto.
  - intros Hs Ha Hc. replace (tcp_socket env <? 0) with false by lia. simpl.
    replace (tcp_inet_pton env <=? 0) with false by lia. simpl.
    replace (tcp_connect env <? 0) with false by lia. simpl.
    repeat case_test; reflexivity.
Qed.

Lemma tcp_early_failures_witness :
  result (check_tcp_connectivity no_route_env 22 5) = Some 0
  /\ w_log (final_world (check_tcp_connectivity no_route_env 22 5))
     = [EvGettimeofday (mk_timeval 1700000000 0); EvSocket 3; EvFcntl 3; EvFcntl 3;
        EvConnect 3 22 (-1); EvPrint (TcpConnectFailed 101); EvClose 3].
Proof.
  destruct (tcp_early_failures no_route_env 22 5) as (_ & _ & H & _); [lia |].
  apply H; simpl; try lia. unfold EINPROGRESS. lia.
Defined.

(* ================================================================== *)
(** ** The probes inside a process *)

(** The ICMP probe does the same and returns the same whatever descriptors
    are open when it is called, and leaves them as they were. *)
Lemma ping_run_frame big_endian env packet_count timeout_sec table :
  let ping := perform_icmp_ping big_endian env packet_count timeout_sec in
  run ping (mk_world table []) = (result ping, mk_world table (w_log (final_world ping))).
Proof.
  intros ping.
  destruct (Z_lt_le_dec (icmp_socket env) 0) as [Hs | Hs].
  { unfold ping, perform_icmp_ping. step_cmd.
    replace (icmp_socket env <? 0) with true by lia. reflexivity. }
  destruct (Z_lt_le_dec 0 (icmp_inet_pton env)) as [Ha | Ha].
  - unfold result, final_world, ping.
    rewrite !(perform_icmp_ping_run big_endian env timeout_sec packet_count _ Hs Ha).
    cbv zeta.
    destruct (0 <? success_count (ping_vars_end env packet_count));
      [destruct (packet_count =? 0) |]; reflexivity.
  - unfold ping, perform_icmp_ping. step_cmd.
    replace (icmp_socket env <? 0) with false by lia.
    replace (icmp_inet_pton env <=? 0) with true by lia. simpl.
    rewrite Z.eqb_refl. reflexivity.
Qed.

(** So does the scanner, up to the order of the descriptor table. *)
Lemma scan_run_frame env timeout_sec table :
  let scan := scan_services_in_range env timeout_sec in
  exists table',
    run scan (mk_world table []) = (Some tt, mk_world table' (w_log (final_world scan)))
    /\ Permutation table' table.
Proof.
  intros scan.
  destruct (Z_lt_le_dec 0 (scan_inet_pton env)) as [Ha | Ha].
  - unfold final_world, scan. rewrite !scan_run by exact Ha.
    cbn [snd w_log w_open initial_world].
    eexists. split; [reflexivity |].
    apply release_all. apply Permutation_app_tail. symmetry. apply Permutation_rev.
  - unfold scan, scan_services_in_range. step_cmd.
    replace (scan_inet_pton env <=? 0) with true by lia. simpl.
    exists table. split; reflexivity.
Qed.

(** The TCP probe always returns, and leaves the descriptors as they were. *)
Lemma tcp_run_frame env port timeout_sec table :
  let probe := check_tcp_connectivity env port timeout_sec in
  exists r, run probe (mk_world table [])
            = (Some r, mk_world table (w_log (final_world probe))).
Proof.
  intros probe. unfold probe, check_tcp_connectivity. step_cmd.
  repeat case_test;
    first [ match goal with
            | E : (?x =? ?x) = false |- _ => rewrite Z.eqb_refl in E; discriminate E
            end
          | eexists; reflexivity ].
Qed.

(* ================================================================== *)
(** ** The diagnostics report *)

Lemma verdicts_app s1 s2 : verdicts (s1 ++ s2) = verdicts s1 ++ verdicts s2.
Proof. unfold verdicts. apply flat_map_app. Qed.

Lemma probe_events_app s1 s2 : probe_events (s1 ++ s2) = probe_events s1 ++ probe_events s2.
Proof. unfold probe_events. apply flat_map_app. Qed.

Lemma probe_events_map log : probe_events (map Probe log) = log.
Proof.
  induction log as [| e log IH]; [reflexivity |].
  cbn [map]. change (probe_events (Probe e :: map Probe log))
    with (e :: probe_events (map Probe log)).
  rewrite IH. reflexivity.
Qed.

Lemma probe_events_call function arguments steps :
  probe_events (Call function arguments :: steps) = probe_events steps.
Proof. reflexivity. Qed.

Lemma verdicts_map log : verdicts (map Probe log) = [].
Proof. induction log as [| e log IH]; [reflexivity | exact IH]. Qed.

(** What the report does, step by step, when the target can be printed
    as a format. *)
Lemma diagnostics_report_run sys ip p :
  format_safe ip = true ->
  let ping := perform_icmp_ping (sys_big_endian sys) (sys_icmp sys ip) 3 5 in
  let scan := scan_services_in_range (sys_scan sys ip) 3 in
  exists table online,
    generate_diagnostics_report sys ip p
    = Some (tt, mk_process (p_theme p) table
                  (p_out p
                   ++ [Call "draw_header_box"
                         [Str "🔧 NETWORK DIAGNOSTICS REPORT"; Str ip]]
                   ++ map Probe (w_log (final_world ping))
                   ++ map Probe (w_log (final_world scan))
                   ++ [Verdict online]))
    /\ Permutation table (p_open p)
    /\ (online = true <-> result ping = Some 1).
Proof.
  intros Hsafe ping scan.
  pose proof (ping_run_frame (sys_big_endian sys) (sys_icmp sys ip) 3 5 (p_open p)) as Hping.
  destruct (scan_run_frame (sys_scan sys ip) 3 (p_open p)) as (table & Hscan & Hperm).
  cbv zeta in Hping, Hscan. fold ping in Hping. fold scan in Hscan.
  destruct (ping_outcome (sys_big_endian sys) (sys_icmp sys ip) 3 5)
    as (_ & Hres & _); [unfold INT_MAX; lia |].
  fold ping in Hres.
  exists table.
  unfold generate_diagnostics_report, draw_header_box.
  change (format_safe "🔧 NETWORK DIAGNOSTICS REPORT") with true.
  rewrite Hsafe. cbn [andb].
  unfold p_bind, out, call. cbn [p_open p_out p_theme].
  fold ping. rewrite Hping.
  destruct Hres as [Hres | Hres]; rewrite Hres; cbn [p_open p_out p_theme w_open w_log];
    fold scan; rewrite Hscan; cbn [p_open p_out p_theme w_open w_log negb Z.eqb].
  - exists true. split; [| split; [exact Hperm | split; reflexivity]].
    rewrite <- !app_assoc. reflexivity.
  - exists false. split; [| split; [exact Hperm | split; discriminate]].
    rewrite <- !app_assoc. reflexivity.
Qed.

(** The report hands the target to [printf] as a format before anything
    else. *)
Lemma diagnostics_report_undefined sys ip p :
  format_safe ip = false -> generate_diagnostics_report sys ip p = None.
Proof.
  intros Hsafe. unfold generate_diagnostics_report, draw_header_box, p_bind.
  rewrite Hsafe, andb_false_r. reflexivity.
Qed.

(** X13. The diagnostics report prints its header first, and the header
    box hands the target to [printf] as a format: a target with a [%] that
    is not part of [%%] has undefined behaviour before any test is run.
    For every other target the report runs to its end: it pings the target
    with 3 packets and a timeout of 5 seconds, then scans the common ports
    whatever the ping found, then prints one verdict, and leaves no
    descriptor of its own open.  The verdict is ONLINE exactly when the raw
    socket could be created, the address is valid and one of the three
    requests was answered; what the scan finds has no part in it. *)
Theorem diagnostics_report_verdict (sys : system) (ip : string) (p : process) :
  let env := sys_icmp sys ip in
  let ping := perform_icmp_ping (sys_big_endian sys) env 3 5 in
  let scan := scan_services_in_range (sys_scan sys ip) 3 in
  (format_safe ip = false -> generate_diagnostics_report sys ip p = None)
  /\ (format_safe ip = true ->
      exists p' online,
        generate_diagnostics_report sys ip p = Some (tt, p')
        /\ p_out p'
           = p_out p
             ++ [Call "draw_header_box" [Str "🔧 NETWORK DIAGNOSTICS REPORT"; Str ip]]
             ++ map Probe (w_log (final_world ping))
             ++ map Probe (w_log (final_world scan))
             ++ [Verdict online]
        /\ (online = true
            <-> 0 <= icmp_socket env /\ 0 < icmp_inet_pton env
                /\ exists i, 0 <= i < 3 /\ answered env i = true)
        /\ Permutation (p_open p') (p_open p)
        /\ p_theme p' = p_theme p).
Proof.
  intros env ping scan.
  split; [apply diagnostics_report_undefined |].
  intros Hsafe.
  destruct (diagnostics_report_run sys ip p Hsafe)
    as (table & online & Hrun & Hperm & Honline).
  destruct (ping_outcome (sys_big_endian sys) env 3 5) as (Hiff & _);
    [unfold INT_MAX; lia |].
  eexists _, online. split; [exact Hrun |].
  cbn [p_out p_open p_theme].
  split; [reflexivity |].
  split; [rewrite Honline; exact Hiff |].
  split; [exact Hperm | reflexivity].
Qed.

Lemma diagnostics_report_verdict_witness :
  generate_diagnostics_report sample_system "%s%s%s" initial_process = None
  /\ exists p',
       generate_diagnostics_report sample_system "10.0.0.7" initial_process
       = Some (tt, p')
       /\ verdicts (p_out p') = [true].
Proof.
  split.
  - destruct (diagnostics_report_verdict sample_system "%s%s%s" initial_process)
      as (H & _).
    apply H. reflexivity.
  - destruct (diagnostics_report_verdict sample_system "10.0.0.7" initial_process)
      as (_ & H).
    destruct (H eq_refl) as (p' & online & Hrun & Hout & Hon & _).
    exists p'. split; [exact Hrun |].
    assert (Ho : online = true).
    { apply Hon. split; [simpl; lia |]. split; [simpl; lia |].
      exists 1. split; [lia | reflexivity]. }
    rewrite Hout, Ho. cbn [p_out initial_process].
    rewrite !verdicts_app, !verdicts_map. reflexivity.
Defined.

(* ================================================================== *)
(** ** The probes as the command line calls them *)

Lemma call_tcp env port timeout_sec p :
  exists r,
    call (check_tcp_connectivity env port timeout_sec) p
    = Some (r, mk_process (p_theme p) (p_open p)
                 (p_out p ++ map Probe (w_log (final_world
                    (check_tcp_connectivity env port timeout_sec))))).
Proof.
  destruct (tcp_run_frame env port timeout_sec (p_open p)) as (r & H).
  exists r. unfold call. rewrite H. reflexivity.
Qed.

Lemma call_ping big_endian env packet_count timeout_sec p :
  exists r,
    call (perform_icmp_ping big_endian env packet_count timeout_sec) p
    = Some (r, mk_process (p_theme p) (p_open p)
                 (p_out p ++ map Probe (w_log (final_world
                    (perform_icmp_ping big_endian env packet_count timeout_sec))))).
Proof.
  pose proof (ping_run_frame big_endian env packet_count timeout_sec (p_open p)) as H.
  cbv zeta in H. unfold call. rewrite H.
  assert (Hr : exists r, result (perform_icmp_ping big_endian env packet_count timeout_sec)
                         = Some r).
  { destruct (Z_lt_le_dec (icmp_socket env) 0) as [Hs | Hs].
    { exists 0. unfold perform_icmp_ping. step_cmd.
      replace (icmp_socket env <? 0) with true by lia. reflexivity. }
    destruct (Z_lt_le_dec 0 (icmp_inet_pton env)) as [Ha | Ha].
    - destruct (ping_reports big_endian env packet_count timeout_sec Hs Ha) as (R & _).
      eexists. exact R.
    - exists 0. unfold perform_icmp_ping. step_cmd.
      replace (icmp_socket env <? 0) with false by lia.
      replace (icmp_inet_pton env <=? 0) with true by lia. reflexivity. }
  destruct Hr as (r & Hr). exists r. rewrite Hr. reflexivity.
Qed.

Lemma call_scan env timeout_sec p :
  exists table,
    call (scan_services_in_range env timeout_sec) p
    = Some (tt, mk_process (p_theme p) table
                  (p_out p ++ map Probe (w_log (final_world
                     (scan_services_in_range env timeout_sec)))))
    /\ Permutation table (p_open p).
Proof.
  destruct (scan_run_frame env timeout_sec (p_open p)) as (table & H & Hperm).
  exists table. unfold call. rewrite H. split; [reflexivity | exact Hperm].
Qed.

(** ** The receive timeouts of the probes *)

Lemma tcp_no_receive_timeout env port timeout_sec :
  receive_timeouts (w_log (final_world (check_tcp_connectivity env port timeout_sec))) = [].
Proof.
  unfold check_tcp_connectivity. step_cmd. repeat case_test; reflexivity.
Qed.

Lemma scan_no_receive_timeout env timeout_sec :
  receive_timeouts (w_log (final_world (scan_services_in_range env timeout_sec))) = [].
Proof.
  destruct (Z_lt_le_dec 0 (scan_inet_pton env)) as [Ha | Ha].
  - unfold final_world. rewrite scan_run by exact Ha.
    cbn [snd w_log initial_world]. rewrite app_nil_l.
    assert (I : forall l, receive_timeouts (flat_map (initiate_events env) l) = []).
    { induction l as [| i l IH]; [reflexivity |].
      cbn [flat_map]. rewrite receive_timeouts_app, IH.
      unfold initiate_events.
      destruct (pe_socket (scan_port env i) <? 0);
        [| destruct ((pe_connect (scan_port env i) <? 0)
                     && negb (pe_errno (scan_port env i) =? EINPROGRESS))];
        reflexivity. }
    assert (C : forall l, receive_timeouts (flat_map (classify_events env) l) = []).
    { induction l as [| i l IH]; [reflexivity |].
      cbn [flat_map]. rewrite receive_timeouts_app, IH.
      unfold classify_events. destruct (probed env i); reflexivity. }
    rewrite !receive_timeouts_app, I, C. reflexivity.
  - unfold scan_services_in_range. step_cmd.
    replace (scan_inet_pton env <=? 0) with true by lia. reflexivity.
Qed.

Lemma ping_receive_timeouts big_endian env packet_count timeout_sec :
  Forall (fun t => t = timeout_sec)
    (receive_timeouts
       (w_log (final_world (perform_icmp_ping big_endian env packet_count timeout_sec)))).
Proof.
  destruct (Z_lt_le_dec (icmp_socket env) 0) as [Hs | Hs].
  { unfold perform_icmp_ping. step_cmd.
    replace (icmp_socket env <? 0) with true by lia. constructor. }
  destruct (Z_lt_le_dec 0 (icmp_inet_pton env)) as [Ha | Ha].
  - unfold final_world.
    rewrite (perform_icmp_ping_run big_endian env timeout_sec packet_count
               initial_world Hs Ha).
    cbv zeta.
    destruct (loop_traffic big_endian env (icmp_socket env)
                (wrap_u16 (Z.land (icmp_getpid env) 65535)) timeout_sec
                (loop_indices packet_count)) as (_ & _ & L3 & _).
    destruct (0 <? success_count (ping_vars_end env packet_count));
      [destruct (packet_count =? 0) |];
      cbn [snd w_log initial_world];
      rewrite ?receive_timeouts_app, L3; simpl; rewrite ?app_nil_r;
      apply Forall_forall; intros x Hx; apply in_map_iff in Hx;
      destruct Hx as (? & Hx & _); symmetry; exact Hx.
  - unfold perform_icmp_ping. step_cmd.
    replace (icmp_socket env <? 0) with false by lia.
    replace (icmp_inet_pton env <=? 0) with true by lia. constructor.
Qed.

(* ================================================================== *)
(** ** The command line *)

Section CommandLineFacts.

Variable atoi : string -> Z.
Variable sys : system.

(** Closes a branch of [dispatch] that returned 0 after the steps it
    printed. *)
Ltac returned_zero Hle :=
  eexists;
  cbn [p_out p_theme p_open];
  split; [rewrite <- ?app_assoc; reflexivity |];
  split; [reflexivity |];
  split; [try reflexivity; try assumption |];
  split; [right; split; [reflexivity | exact Hle] |].

(** Takes the next test of the chain in [H]. *)
Ltac next_test H :=
  match type of H with
  | (if ?b then _ else _) _ = _ => destruct b eqn:?
  end.

(** A branch that only calls functions of other units. *)
Ltac only_calls H Hle :=
  unfold p_bind, out, p_ret, analysis, draw_header_box in H;
  repeat match type of H with
         | context [if ?b then _ else _] => destruct b
         end;
  try discriminate H;
  injection H as <- <-; returned_zero Hle; constructor.

(** Whenever the selected mode comes back: what it returned, and what it
    left behind. *)
Lemma dispatch_safety argc argv p r p' :
  argv <> [] ->
  1 <= argc ->
  dispatch atoi sys argc argv p = Some (r, p') ->
  exists steps,
    p_out p' = p_out p ++ steps
    /\ p_theme p' = p_theme p
    /\ Permutation (p_open p') (p_open p)
    /\ (r = 1 /\ 4 < argc /\ steps = [Usage (arg argv 0)] \/ r = 0 /\ argc <= 4)
    /\ Forall (fun t => t = 5) (receive_timeouts (probe_events steps)).
Proof.
  intros Hne H1 Hrun. unfold dispatch in Hrun.
  destruct ((argc =? 1) || mode_is argc argv 2 "--help") eqn:E1.
  { assert (Hle : argc <= 4).
    { apply orb_true_iff in E1. destruct E1 as [E1 | E1]; [lia |].
      unfold mode_is in E1. apply andb_true_iff in E1. lia. }
    only_calls Hrun Hle. }
  apply orb_false_iff in E1. destruct E1 as (E1 & _).
  destruct ((argc <? 2) || (4 <? argc)) eqn:E2.
  { destruct argv as [| program rest]; [congruence |].
    apply orb_true_iff in E2.
    unfold p_bind, out, p_ret in Hrun. injection Hrun as <- <-.
    eexists. cbn [p_out p_theme p_open].
    split; [reflexivity |]. split; [reflexivity |]. split; [reflexivity |].
    split; [left; split; [reflexivity | split; [lia | reflexivity]] | constructor]. }
  assert (Hle : argc <= 4) by (apply orb_false_iff in E2; lia).
  assert (H5 : (argc =? 5) = false) by lia.
  assert (H5' : (5 <=? argc) = false) by lia.
  do 9 (next_test Hrun; [only_calls Hrun Hle |]).
  next_test Hrun.
  { rewrite H5 in Hrun.
    destruct (call_tcp (sys_tcp sys (arg argv 2)) (atoi (arg argv 3)) 5 p) as (r0 & Hc).
    unfold p_bind, p_ret in Hrun. rewrite Hc in Hrun. injection Hrun as <- <-.
    returned_zero Hle.
    rewrite probe_events_map, tcp_no_receive_timeout. constructor. }
  next_test Hrun.
  { rewrite H5' in Hrun.
    destruct (call_ping (sys_big_endian sys) (sys_icmp sys (arg argv 2))
                (if 4 <=? argc then atoi (arg argv 3) else 4) 5 p) as (r0 & Hc).
    unfold p_bind, p_ret in Hrun. rewrite Hc in Hrun. injection Hrun as <- <-.
    returned_zero Hle.
    rewrite probe_events_map. apply ping_receive_timeouts. }
  next_test Hrun.
  { destruct (call_scan (sys_scan sys (arg argv 2))
                (if argc =? 4 then atoi (arg argv 3) else 3) p) as (table & Hc & Hperm).
    unfold p_bind, p_ret in Hrun. rewrite Hc in Hrun. injection Hrun as <- <-.
    returned_zero Hle.
    rewrite probe_events_map, scan_no_receive_timeout. constructor. }
  next_test Hrun.
  { destruct (format_safe (arg argv 2)) eqn:Hsafe.
    - destruct (diagnostics_report_run sys (arg argv 2) p Hsafe)
        as (table & online & Hrep & Hperm & _).
      unfold p_bind, p_ret in Hrun. rewrite Hrep in Hrun. injection Hrun as <- <-.
      returned_zero Hle.
      rewrite ?probe_events_call.
      rewrite !probe_events_app, !probe_events_map, !receive_timeouts_app.
      rewrite scan_no_receive_timeout.
      apply Forall_app; split; [apply ping_receive_timeouts | constructor].
    - unfold p_bind in Hrun.
      rewrite (diagnostics_report_undefined sys (arg argv 2) p Hsafe) in Hrun.
      discriminate Hrun. }
  destruct (argc =? 2); [| destruct (argc =? 3)]; only_calls Hrun Hle.
Qed.

(** More than four arguments: the usage, and 1. *)
Lemma dispatch_usage argc argv p :
  argv <> [] ->
  4 < argc ->
  dispatch atoi sys argc argv p
  = Some (1, mk_process (p_theme p) (p_open p) (p_out p ++ [Usage (arg argv 0)])).
Proof.
  intros Hne H4. unfold dispatch, mode_is.
  replace (argc =? 1) with false by lia.
  replace (argc =? 2) with false by lia.
  replace ((argc <? 2) || (4 <? argc)) with true by (symmetry; apply orb_true_iff; lia).
  destruct argv as [| program rest]; [congruence |]. reflexivity.
Qed.

(** Evaluates the tests on closed numbers and strings. *)
Ltac decided v := match v with true => idtac | false => idtac end.

Ltac compare_closed :=
  repeat match goal with
         | |- context [String.eqb ?a ?b] =>
             let v := eval vm_compute in (String.eqb a b) in
             decided v; change (String.eqb a b) with v
         | |- context [Z.eqb ?a ?b] =>
             let v := eval vm_compute in (Z.eqb a b) in
             decided v; change (Z.eqb a b) with v
         | |- context [Z.leb ?a ?b] =>
             let v := eval vm_compute in (Z.leb a b) in
             decided v; change (Z.leb a b) with v
         | |- context [Z.ltb ?a ?b] =>
             let v := eval vm_compute in (Z.ltb a b) in
             decided v; change (Z.ltb a b) with v
         end.

Ltac at_argc :=
  unfold dispatch, mode_is, mode_from_is, arg; cbn [nth];
  compare_closed; cbn [andb orb].

(** The modes that run one probe always come back with 0 and leave the
    descriptors as they were. *)
Lemma dispatch_probe argv p :
  runs_probe argv = true ->
  exists p',
    dispatch atoi sys (Z.of_nat (List.length argv)) argv p = Some (0, p')
    /\ Permutation (p_open p') (p_open p).
Proof.
  intros Hmode.
  destruct argv as [| program [| flag [| ip [| x [| y rest]]]]];
    try discriminate Hmode.
  - cbn [runs_probe] in Hmode. change (Z.of_nat (List.length [program; flag; ip])) with 3.
    apply orb_true_iff in Hmode.
    destruct Hmode as [E | E]; apply String.eqb_eq in E; subst flag; at_argc.
    + destruct (call_ping (sys_big_endian sys) (sys_icmp sys ip) 4 5 p) as (r & Hc).
      unfold p_bind, p_ret. rewrite Hc. eexists. split; reflexivity.
    + destruct (call_scan (sys_scan sys ip) 3 p) as (table & Hc & Hperm).
      unfold p_bind, p_ret. rewrite Hc. eexists. split; [reflexivity | exact Hperm].
  - cbn [runs_probe] in Hmode.
    change (Z.of_nat (List.length [program; flag; ip; x])) with 4.
    apply orb_true_iff in Hmode. destruct Hmode as [Hmode | E].
    + apply orb_true_iff in Hmode.
      destruct Hmode as [E | E]; apply String.eqb_eq in E; subst flag; at_argc.
      * destruct (call_tcp (sys_tcp sys ip) (atoi x) 5 p) as (r & Hc).
        unfold p_bind, p_ret. rewrite Hc. eexists. split; reflexivity.
      * destruct (call_ping (sys_big_endian sys) (sys_icmp sys ip) (atoi x) 5 p)
          as (r & Hc).
        unfold p_bind, p_ret. rewrite Hc. eexists. split; reflexivity.
    + apply String.eqb_eq in E; subst flag; at_argc.
      destruct (call_scan (sys_scan sys ip) (atoi x) p) as (table & Hc & Hperm).
      unfold p_bind, p_ret. rewrite Hc. eexists. split; [reflexivity | exact Hperm].
Qed.

(** The ICMP mode: 4 packets unless a count is given, and 5 seconds. *)
Lemma dispatch_ping program ip p :
  exists r,
    dispatch atoi sys 3 [program; "--ping"%string; ip] p
    = Some (0, mk_process (p_theme p) (p_open p)
                 (p_out p ++ map Probe (w_log (final_world
                    (perform_icmp_ping (sys_big_endian sys) (sys_icmp sys ip) 4 5)))))
    /\ result (perform_icmp_ping (sys_big_endian sys) (sys_icmp sys ip) 4 5) = Some r.
Proof.
  at_argc.
  pose proof (ping_run_frame (sys_big_endian sys) (sys_icmp sys ip) 4 5 (p_open p)) as H.
  cbv zeta in H.
  destruct (call_ping (sys_big_endian sys) (sys_icmp sys ip) 4 5 p) as (r & Hc).
  exists r. unfold p_bind, p_ret. rewrite Hc. split; [reflexivity |].
  unfold call in Hc. rewrite H in Hc.
  destruct (result (perform_icmp_ping (sys_big_endian sys) (sys_icmp sys ip) 4 5))
    as [r' |]; [| discriminate Hc].
  injection Hc as ->. reflexivity.
Qed.

Lemma dispatch_ping_count program ip count p :
  exists r,
    dispatch atoi sys 4 [program; "--ping"%string; ip; count] p
    = Some (0, mk_process (p_theme p) (p_open p)
                 (p_out p ++ map Probe (w_log (final_world
                    (perform_icmp_ping (sys_big_endian sys) (sys_icmp sys ip)
                       (atoi count) 5)))))
    /\ result (perform_icmp_ping (sys_big_endian sys) (sys_icmp sys ip) (atoi count) 5)
       = Some r.
Proof.
  at_argc.
  pose proof (ping_run_frame (sys_big_endian sys) (sys_icmp sys ip) (atoi count) 5
                (p_open p)) as H.
  cbv zeta in H.
  destruct (call_ping (sys_big_endian sys) (sys_icmp sys ip) (atoi count) 5 p)
    as (r & Hc).
  exists r. unfold p_bind, p_ret. rewrite Hc. split; [reflexivity |].
  unfold call in Hc. rewrite H in Hc.
  destruct (result (perform_icmp_ping (sys_big_endian sys) (sys_icmp sys ip)
                      (atoi count) 5))
    as [r' |]; [| discriminate Hc].
  injection Hc as ->. reflexivity.
Qed.

(** The diagnostics mode: the report, then 0; the report is undefined for
    a target that is no format. *)
Lemma dispatch_diagnose program ip p :
  dispatch atoi sys 3 [program; "--diagnose"%string; ip] p
  = match generate_diagnostics_report sys ip p with
    | Some (_, p') => Some (0, p')
    | None => None
    end.
Proof.
  at_argc. unfold p_bind, p_ret.
  destruct (generate_diagnostics_report sys ip p) as [[u p'] |]; reflexivity.
Qed.

End CommandLineFacts.

(* ================================================================== *)
(** ** The theme arguments *)

Lemma nth_array_set {A : Type} (a : list A) (i k : nat) (v d : A) :
  nth k (array_set a i v) d
  = if (k =? i)%nat && (i <? List.length a)%nat then v else nth k a d.
Proof.
  revert i k. induction a as [| x a IH]; intros i k.
  - simpl. rewrite andb_false_r. reflexivity.
  - destruct i as [| i]; destruct k as [| k]; try reflexivity.
    cbn [array_set nth List.length]. rewrite IH. reflexivity.
Qed.

(** The loop moves the entries from [s + 2] on two places down and leaves
    the others. *)
Lemma shift_loop_nth m :
  forall s argv k,
    arg (fold_left (fun argv i => array_set argv i (arg argv (i + 2))) (seq s m) argv) k
    = if (s <=? k)%nat && (k <? s + m)%nat then arg argv (k + 2) else arg argv k.
Proof.
  unfold arg.
  induction m as [| m IH]; intros s argv k.
  - cbn [seq fold_left].
    replace ((s <=? k)%nat && (k <? s + 0)%nat) with false; [reflexivity |].
    symmetry. apply andb_false_iff.
    destruct (Nat.leb_spec s k); [right; apply Nat.ltb_ge; lia | left; reflexivity].
  - cbn [seq fold_left]. rewrite IH. rewrite !nth_array_set.
    destruct (Nat.leb_spec (S s) k) as [H1 | H1];
      destruct (Nat.ltb_spec k (S s + m)) as [H2 | H2];
      destruct (Nat.leb_spec s k) as [H3 | H3];
      destruct (Nat.ltb_spec k (s + S m)) as [H4 | H4];
      try lia; cbn [andb];
      destruct (Nat.eqb_spec (k + 2) s) as [H5 | H5]; try lia;
      destruct (Nat.eqb_spec k s) as [H6 | H6]; try lia; cbn [andb];
      try reflexivity.
    subst k. destruct (Nat.ltb_spec s (List.length argv)) as [H7 | H7]; [reflexivity |].
    rewrite !nth_overflow by lia. reflexivity.
Qed.

Lemma shift_loop_length m :
  forall s argv,
    List.length (fold_left (fun argv i => array_set argv i (arg argv (i + 2)))
                   (seq s m) argv)
    = List.length argv.
Proof.
  induction m as [| m IH]; intros s argv; [reflexivity |].
  cbn [seq fold_left]. rewrite IH. apply array_set_length.
Qed.

(** After the theme arguments are removed, the first [argc] entries of
    [argv] are the program name and the arguments that followed the theme. *)
Lemma shift_theme_arguments_nth program flag theme rest k :
  (k < S (List.length rest))%nat ->
  arg (shift_theme_arguments (Z.of_nat (S (List.length rest)))
         (program :: flag :: theme :: rest)) k
  = arg (program :: rest) k.
Proof.
  intros Hk. unfold shift_theme_arguments. rewrite shift_loop_nth.
  replace (Z.to_nat (Z.of_nat (S (List.length rest))) - 1)%nat
    with (List.length rest) by lia.
  destruct k as [| k].
  - reflexivity.
  - replace ((1 <=? S k)%nat && (S k <? 1 + List.length rest)%nat) with true.
    + unfold arg. replace (S k + 2)%nat with (S (S (S k))) by lia. reflexivity.
    + symmetry. apply andb_true_iff. split; [apply Nat.leb_le | apply Nat.ltb_lt]; lia.
Qed.

(* ================================================================== *)
(** ** What [main] reads of its arguments *)

Section CommandLineReads.

Variable atoi : string -> Z.
Variable sys : system.

(** [dispatch] reads the first [argc] entries of [argv] only. *)
Lemma dispatch_reads_argc argc argv argv' :
  argv <> [] -> argv' <> [] ->
  arg argv 0 = arg argv' 0 ->
  (forall k, (k < 5)%nat -> Z.of_nat k < argc -> arg argv k = arg argv' k) ->
  dispatch atoi sys argc argv = dispatch atoi sys argc argv'.
Proof.
  intros Hne Hne' H0 Hk.
  assert (Hhead : forall (A : Type) (x : A) (f : string -> A),
             match argv with [] => x | program :: _ => f program end
             = match argv' with [] => x | program :: _ => f program end).
  { intros A x f. destruct argv as [| a l]; [congruence |].
    destruct argv' as [| a' l']; [congruence |].
    unfold arg in H0. simpl in H0. rewrite H0. reflexivity. }
  destruct (Z.eq_dec argc 2) as [-> | N2];
    [| destruct (Z.eq_dec argc 3) as [-> | N3];
       [| destruct (Z.eq_dec argc 4) as [-> | N4]]].
  - unfold dispatch, mode_is, mode_from_is.
    simpl (2 =? _). simpl (_ <=? 2). simpl (2 <? _). simpl (_ <? 2). cbn [andb orb].
    rewrite <- (Hk 1%nat) by lia. reflexivity.
  - unfold dispatch, mode_is, mode_from_is.
    simpl (3 =? _). simpl (_ <=? 3). simpl (3 <? _). simpl (_ <? 3). cbn [andb orb].
    rewrite <- (Hk 1%nat), <- (Hk 2%nat) by lia. reflexivity.
  - unfold dispatch, mode_is, mode_from_is.
    simpl (4 =? _). simpl (_ <=? 4). simpl (4 <? _). simpl (_ <? 4). cbn [andb orb].
    rewrite <- (Hk 1%nat), <- (Hk 2%nat), <- (Hk 3%nat) by lia. reflexivity.
  - unfold dispatch, mode_is.
    replace (argc =? 2) with false by lia. cbn [andb]. rewrite orb_false_r.
    destruct (argc =? 1) eqn:E1; [reflexivity |].
    replace ((argc <? 2) || (4 <? argc)) with true
      by (symmetry; apply orb_true_iff; lia).
    apply Hhead.
Qed.

End CommandLineReads.

(* ================================================================== *)
(** ** The whole of [main] *)

Section MainFacts.

Variable atoi : string -> Z.
Variable sys : system.

(** The theme selection on a command line that starts with the theme
    arguments. *)
Lemma select_theme_prefix program theme rest p :
  select_theme atoi sys (program :: "--theme"%string :: theme :: rest) p
  = Some ((Z.of_nat (S (List.length rest)),
           shift_theme_arguments (Z.of_nat (S (List.length rest)))
             (program :: "--theme"%string :: theme :: rest)),
          mk_process (mk_theme_state (negb (atoi theme =? -1)) (atoi theme))
                     (p_open p) (p_out p)).
Proof.
  unfold select_theme, p_bind, set_theme, p_ret.
  replace (Z.of_nat (List.length (program :: "--theme"%string :: theme :: rest)) - 2)
    with (Z.of_nat (S (List.length rest))) by (cbn [List.length]; lia).
  replace (3 <=? Z.of_nat (List.length (program :: "--theme"%string :: theme :: rest)))
    with true by (symmetry; apply Z.leb_le; cbn [List.length]; lia).
  change (arg (program :: "--theme"%string :: theme :: rest) 1) with "--theme"%string.
  change (arg (program :: "--theme"%string :: theme :: rest) 2) with theme.
  rewrite String.eqb_refl. cbn [andb].
  destruct (sys_no_color sys); reflexivity.
Qed.

Lemma shift_theme_arguments_nonempty argc argv :
  argv <> [] -> shift_theme_arguments argc argv <> [].
Proof.
  intros Hne Habs. apply (f_equal (@List.length string)) in Habs.
  unfold shift_theme_arguments in Habs. rewrite shift_loop_length in Habs.
  destruct argv; [congruence | discriminate Habs].
Qed.

(** A command line that starts with the theme arguments is handled as the
    rest of it, under that theme. *)
Lemma main_with_theme program theme rest p :
  main atoi sys (program :: "--theme"%string :: theme :: rest) p
  = dispatch atoi sys (Z.of_nat (List.length (program :: rest))) (program :: rest)
      (mk_process (mk_theme_state (negb (atoi theme =? -1)) (atoi theme))
                  (p_open p) (p_out p)).
Proof.
  unfold main, p_bind. rewrite select_theme_prefix. cbn [fst snd List.length].
  rewrite (dispatch_reads_argc atoi sys (Z.of_nat (S (List.length rest)))
             (shift_theme_arguments (Z.of_nat (S (List.length rest)))
                (program :: "--theme"%string :: theme :: rest))
             (program :: rest)).
  - reflexivity.
  - apply shift_theme_arguments_nonempty. discriminate.
  - discriminate.
  - apply shift_theme_arguments_nth. lia.
  - intros k _ Hk. apply shift_theme_arguments_nth. lia.
Qed.

(** Without theme arguments [main] only looks at [NO_COLOR] before it
    selects the mode. *)
Lemma main_without_theme argv p :
  (3 <=? Z.of_nat (List.length argv)) && String.eqb (arg argv 1) "--theme" = false ->
  main atoi sys argv p
  = dispatch atoi sys (Z.of_nat (List.length argv)) argv
      (if sys_no_color sys
       then mk_process (mk_theme_state false (-1)) (p_open p) (p_out p)
       else p).
Proof.
  intros Et. unfold main, select_theme. rewrite Et.
  unfold p_bind, set_theme, p_ret. destruct (sys_no_color sys); reflexivity.
Qed.

(** The state in which the mode is selected. *)
Lemma main_selects argv p :
  argv <> [] ->
  exists a p1,
    select_theme atoi sys argv p = Some (a, p1)
    /\ main atoi sys argv p
       = dispatch atoi sys (Z.of_nat (List.length (effective_argv argv)))
           (effective_argv argv) p1
    /\ effective_argc argv = Z.of_nat (List.length (effective_argv argv))
    /\ effective_argv argv <> []
    /\ arg (effective_argv argv) 0 = arg argv 0
    /\ p_out p1 = p_out p
    /\ p_open p1 = p_open p
    /\ use_colors (p_theme p1)
       = (if (3 <=? Z.of_nat (List.length argv)) && String.eqb (arg argv 1) "--theme"
          then negb (atoi (arg argv 2) =? -1)
          else if sys_no_color sys then false else use_colors (p_theme p)).
Proof.
  intros Hne. unfold effective_argc.
  destruct ((3 <=? Z.of_nat (List.length argv)) && String.eqb (arg argv 1) "--theme") eqn:Et.
  - apply andb_true_iff in Et. destruct Et as (Hlen & Hflag).
    apply Z.leb_le in Hlen.
    destruct argv as [| program [| flag [| theme rest]]];
      try (cbn [List.length] in Hlen; lia).
    change (arg (program :: flag :: theme :: rest) 1) with flag in Hflag.
    apply String.eqb_eq in Hflag. subst flag.
    assert (He : effective_argv (program :: "--theme"%string :: theme :: rest)
                 = program :: rest) by reflexivity.
    rewrite He. eexists _, _.
    split; [apply select_theme_prefix |].
    split; [apply main_with_theme |].
    split; [cbn [List.length]; lia |].
    split; [discriminate |].
    repeat split; reflexivity.
  - assert (He : effective_argv argv = argv).
    { destruct argv as [| program [| flag [| theme rest]]]; try reflexivity.
      change (arg (program :: flag :: theme :: rest) 1) with flag in Et.
      apply andb_false_iff in Et. destruct Et as [Et | Et].
      - apply Z.leb_gt in Et. cbn [List.length] in Et. lia.
      - cbn [effective_argv]. rewrite Et. reflexivity. }
    rewrite He. rewrite main_without_theme by exact Et.
    unfold select_theme. rewrite Et. unfold p_bind, set_theme, p_ret.
    destruct (sys_no_color sys); eexists _, _;
      (split; [reflexivity |]); (split; [reflexivity |]);
      (split; [reflexivity |]); (split; [exact Hne |]);
      repeat split; reflexivity.
Qed.

End MainFacts.

(** X14. The exit status of the program.  With more than four arguments
    left once the theme arguments are removed, [main] prints the usage,
    does nothing else and returns 1: a fifth argument, the timeout of
    [--tcp] and [--ping], is always rejected.  Whenever [main] returns it returns
    0 or 1, and 1 only in that case.  The modes that run one probe
    ([--tcp], [--ping], [--discover]) always return 0, whatever the probe
    found, and leave no descriptor open; so does [--diagnose], unless its
    target holds a [%] that is no [%%], which the header box hands to
    [printf] as a format: then the behaviour is undefined. *)
Theorem main_exit_status (atoi : string -> Z) (sys : system) (argv : list string) :
  argv <> [] ->
  (4 < effective_argc argv ->
   exists p',
     main atoi sys argv initial_process = Some (1, p')
     /\ p_out p' = [Usage (arg argv 0)]
     /\ p_open p' = [])
  /\ (forall r p',
         main atoi sys argv initial_process = Some (r, p') ->
         (r = 0 \/ r = 1) /\ (r = 1 <-> 4 < effective_argc argv))
  /\ (runs_probe (effective_argv argv) = true ->
      exists p',
        main atoi sys argv initial_process = Some (0, p') /\ p_open p' = [])
  /\ (forall program ip,
         effective_argv argv = [program; "--diagnose"; ip]%string ->
         (format_safe ip = true ->
          exists p',
            main atoi sys argv initial_process = Some (0, p') /\ p_open p' = [])
         /\ (format_safe ip = false -> main atoi sys argv initial_process = None)).
Proof.
  intros Hne.
  destruct (main_selects atoi sys argv initial_process Hne)
    as (a & p1 & _ & Hmain & Hargc & Hne' & H0 & Hout & Hopen & _).
  cbn [p_out p_open initial_process] in Hout, Hopen.
  assert (Husage : 4 < effective_argc argv ->
                   main atoi sys argv initial_process
                   = Some (1, mk_process (p_theme p1) [] [Usage (arg argv 0)])).
  { intros H4. rewrite Hmain, <- Hargc.
    rewrite dispatch_usage by assumption. rewrite Hout, Hopen, H0. reflexivity. }
  split; [| split; [| split]].
  - intros H4. eexists. split; [apply Husage; exact H4 |]. split; reflexivity.
  - intros r p' Hrun.
    destruct (Z_lt_le_dec 4 (effective_argc argv)) as [H4 | H4].
    + rewrite (Husage H4) in Hrun. injection Hrun as <- <-.
      split; [right; reflexivity |]. split; intros; [exact H4 | reflexivity].
    + rewrite Hmain, <- Hargc in Hrun.
      assert (H1 : 1 <= effective_argc argv).
      { rewrite Hargc. destruct (effective_argv argv); [congruence |].
        cbn [List.length]. lia. }
      destruct (dispatch_safety atoi sys _ _ _ _ _ Hne' H1 Hrun)
        as (steps & _ & _ & _ & Hr & _).
      destruct Hr as [(_ & H4' & _) | (Hr & _)]; [lia |].
      subst r. split; [left; reflexivity |]. split; intros; lia.
  - intros Hmode.
    destruct (dispatch_probe atoi sys (effective_argv argv) p1 Hmode)
      as (p' & Hrun & Hperm).
    exists p'. rewrite Hmain. split; [exact Hrun |].
    rewrite Hopen in Hperm. apply Permutation_nil. symmetry. exact Hperm.
  - intros program ip Heff. rewrite Hmain, Heff.
    change (Z.of_nat (List.length [program; "--diagnose"%string; ip])) with 3.
    rewrite dispatch_diagnose. split.
    + intros Hsafe.
      destruct (diagnostics_report_run sys ip p1 Hsafe)
        as (table & online & Hrep & Hperm & _).
      rewrite Hrep. eexists. split; [reflexivity |]. cbn [p_open].
      rewrite Hopen in Hperm. apply Permutation_nil. symmetry. exact Hperm.
    + intros Hsafe. rewrite (diagnostics_report_undefined sys ip p1 Hsafe).
      reflexivity.
Qed.

Lemma main_exit_status_witness :
  (exists p',
     main decimal sample_system
       ["./net"; "--tcp"; "192.168.1.1"; "22"; "10"]%string initial_process
     = Some (1, p')
     /\ p_out p' = [Usage "./net"])
  /\ (exists p',
        main decimal sample_system
          ["./net"; "--tcp"; "192.168.1.1"; "22"]%string initial_process
        = Some (0, p')
        /\ p_open p' = []).
Proof.
  split.
  - destruct (main_exit_status decimal sample_system
                ["./net"; "--tcp"; "192.168.1.1"; "22"; "10"]%string)
      as (H & _); [discriminate |].
    destruct H as (p' & Hrun & Hout & _); [vm_compute; reflexivity |].
    exists p'. split; [exact Hrun | exact Hout].
  - destruct (main_exit_status decimal sample_system
                ["./net"; "--tcp"; "192.168.1.1"; "22"]%string)
      as (_ & _ & H & _); [discriminate |].
    apply H. reflexivity.
Defined.

(** X15. The ICMP mode of the command line always waits 5 seconds for a
    reply: [--ping ip] sends 4 requests and [--ping ip count] sends [count]
    requests, each with a receive timeout of 5 seconds, and
    [--ping ip count timeout] is rejected with the usage, so that the
    timeout [main] would read from a fifth argument is never used.
    Whenever [main] returns, every receive timeout that was set on the ICMP
    socket is 5 seconds. *)
Theorem main_receive_timeout_fixed
    (atoi : string -> Z) (sys : system) (argv : list string) :
  argv <> [] ->
  let ping ip count :=
    perform_icmp_ping (sys_big_endian sys) (sys_icmp sys ip) count 5 in
  (forall r p',
      main atoi sys argv initial_process = Some (r, p') ->
      Forall (fun t => t = 5) (receive_timeouts (probe_events (p_out p'))))
  /\ (forall program ip,
         effective_argv argv = [program; "--ping"; ip]%string ->
         exists p',
           main atoi sys argv initial_process = Some (0, p')
           /\ p_out p' = map Probe (w_log (final_world (ping ip 4))))
  /\ (forall program ip count,
         effective_argv argv = [program; "--ping"; ip; count]%string ->
         exists p',
           main atoi sys argv initial_process = Some (0, p')
           /\ p_out p' = map Probe (w_log (final_world (ping ip (atoi count)))))
  /\ (forall program ip count timeout,
         effective_argv argv = [program; "--ping"; ip; count; timeout]%string ->
         exists p',
           main atoi sys argv initial_process = Some (1, p')
           /\ p_out p' = [Usage program]).
Proof.
  intros Hne ping.
  destruct (main_selects atoi sys argv initial_process Hne)
    as (a & p1 & _ & Hmain & Hargc & Hne' & H0 & Hout & Hopen & _).
  cbn [p_out p_open initial_process] in Hout, Hopen.
  split; [| split; [| split]].
  - intros r p' Hrun. rewrite Hmain in Hrun.
    assert (H1 : 1 <= Z.of_nat (List.length (effective_argv argv))).
    { destruct (effective_argv argv); [congruence |]. cbn [List.length]. lia. }
    destruct (dispatch_safety atoi sys _ _ _ _ _ Hne' H1 Hrun)
      as (steps & Hsteps & _ & _ & _ & Ht).
    rewrite Hsteps, Hout. exact Ht.
  - intros program ip Heff. rewrite Hmain, Heff.
    change (Z.of_nat (List.length [program; "--ping"%string; ip])) with 3.
    destruct (dispatch_ping atoi sys program ip p1) as (r & Hrun & _).
    rewrite Hrun. eexists. split; [reflexivity |].
    cbn [p_out]. rewrite Hout. reflexivity.
  - intros program ip count Heff. rewrite Hmain, Heff.
    change (Z.of_nat (List.length [program; "--ping"%string; ip; count])) with 4.
    destruct (dispatch_ping_count atoi sys program ip count p1) as (r & Hrun & _).
    rewrite Hrun. eexists. split; [reflexivity |].
    cbn [p_out]. rewrite Hout. reflexivity.
  - intros program ip count timeout Heff. rewrite Hmain, Heff.
    rewrite dispatch_usage by (try discriminate; cbn [List.length]; lia).
    eexists. split; [reflexivity |]. cbn [p_out]. rewrite Hout. reflexivity.
Qed.

Lemma main_receive_timeout_fixed_witness :
  exists p',
    main decimal sample_system ["./net"; "--ping"; "10.0.0.7"; "2"]%string initial_process
    = Some (0, p')
    /\ receive_timeouts (probe_events (p_out p')) = [5; 5].
Proof.
  destruct (main_receive_timeout_fixed decimal sample_system
              ["./net"; "--ping"; "10.0.0.7"; "2"]%string)
    as (_ & _ & H & _); [discriminate |].
  destruct (H "./net" "10.0.0.7" "2")%string as (p' & Hrun & Hout); [reflexivity |].
  exists p'. split; [exact Hrun |].
  rewrite Hout, probe_events_map. vm_compute. reflexivity.
Defined.

(** X16. Colours when the mode is selected, and from then on: when the
    command line starts with [--theme N] colours are enabled exactly when N
    is not -1, also when [NO_COLOR] is set, so that on a colour terminal
    [print_colored] then emits the colour codes; without theme arguments
    colours are enabled exactly when [NO_COLOR] is not set, and with
    [NO_COLOR] set [print_colored] prints the bare text.  The mode that is
    selected does not change the theme. *)
Theorem theme_overrides_no_color
    (atoi : string -> Z) (sys : system) (argv : list string) :
  argv <> [] ->
  let theme_given :=
    (3 <=? Z.of_nat (List.length argv)) && String.eqb (arg argv 1) "--theme" in
  exists a p1,
    select_theme atoi sys argv initial_process = Some (a, p1)
    /\ use_colors (p_theme p1)
       = (if theme_given then negb (atoi (arg argv 2) =? -1) else negb (sys_no_color sys))
    /\ (theme_given = true -> atoi (arg argv 2) <> -1 ->
        terminal_supports_colors (sys_term sys) = true ->
        forall color text,
          print_colored (p_theme p1) (sys_term sys) color text
          = (color ++ text ++ RESET)%string)
    /\ (theme_given = false -> sys_no_color sys = true ->
        forall color text,
          print_colored (p_theme p1) (sys_term sys) color text = text)
    /\ (forall r p',
           main atoi sys argv initial_process = Some (r, p') -> p_theme p' = p_theme p1).
Proof.
  intros Hne theme_given.
  destruct (main_selects atoi sys argv initial_process Hne)
    as (a & p1 & Hsel & Hmain & _ & Hne' & _ & _ & _ & Hc).
  fold theme_given in Hc. cbn [use_colors p_theme initial_process] in Hc.
  exists a, p1. split; [exact Hsel |].
  split; [| split; [| split]].
  - rewrite Hc. destruct theme_given; [reflexivity |].
    destruct (sys_no_color sys); reflexivity.
  - intros Hg Hn Hterm color text. unfold print_colored.
    rewrite Hc, Hg, Hterm.
    replace (atoi (arg argv 2) =? -1) with false by lia. reflexivity.
  - intros Hg Hno color text. unfold print_colored.
    rewrite Hc, Hg, Hno. reflexivity.
  - intros r p' Hrun. rewrite Hmain in Hrun.
    assert (H1 : 1 <= Z.of_nat (List.length (effective_argv argv))).
    { destruct (effective_argv argv); [congruence |]. cbn [List.length]. lia. }
    destruct (dispatch_safety atoi sys _ _ _ _ _ Hne' H1 Hrun)
      as (steps & _ & Hth & _).
    exact Hth.
Qed.

Lemma theme_overrides_no_color_witness :
  sys_no_color sample_system = true
  /\ exists a p1,
       select_theme decimal sample_system
         ["./net"; "--theme"; "2"; "--help"]%string initial_process
       = Some (a, p1)
       /\ print_colored (p_theme p1) (sys_term sample_system) "<" ">"
          = ("<" ++ ">" ++ RESET)%string.
Proof.
  split; [reflexivity |].
  destruct (theme_overrides_no_color decimal sample_system
              ["./net"; "--theme"; "2"; "--help"]%string)
    as (a & p1 & Hsel & _ & Hon & _).
  - discriminate.
  - exists a, p1. split; [exact Hsel |].
    apply Hon; [reflexivity | vm_compute; discriminate | reflexivity].
Defined.




